(** * The AQI map generator ([aqi_map.py]): classifier, projection wrapper,
      planar distance, CSV export and marker rendering.

    The development is a shallow embedding of class [AQIMapGenerator].
    Python values that reach the generator are JSON values ([pyval]);
    Python floats are IEEE binary64 numbers, taken as Rocq's primitive
    [float]; exceptions are an explicit [result]; the object, standard
    output, the projection library and the file system are threaded through
    a state-and-exception monad [M].  What the interpreter leaves to other
    libraries is a parameter of the methods: the C library's [pow], the
    projection, the HTTP client, the clock, the file system, the CSV writer
    and the map library. *)

From Stdlib Require Import ZArith Lia Bool List Ascii String Floats.
From Stdlib Require Uint63 FloatLemmas.
From stdpp Require Import base strings gmap.
Import ListNotations.

Local Open Scope string_scope.
Local Open Scope Z_scope.

(* ===================================================================== *)
(** * Python exceptions and results                                       *)
(* ===================================================================== *)

(** The exception classes that the code can meet.  All of them derive from
    [Exception]; [RequestException] is the base class of the HTTP client's
    errors, [LibraryError] stands for every other class raised by an
    external library (named by the library). *)
Inductive exn : Type :=
| ValueError
| TypeError
| OverflowError
| AttributeError
| KeyError
| OSError
| RequestException
| LibraryError (name : string).

Inductive result (A : Type) : Type :=
| Ok (a : A)
| Raise (e : exn).
Arguments Ok {A} a.
Arguments Raise {A} e.

(** [except (ValueError, TypeError)] and [except (ValueError, KeyError)]. *)
Definition is_ValueError_or_TypeError (e : exn) : bool :=
  match e with ValueError | TypeError => true | _ => false end.

Definition is_ValueError_or_KeyError (e : exn) : bool :=
  match e with ValueError | KeyError => true | _ => false end.

Definition is_RequestException (e : exn) : bool :=
  match e with RequestException => true | _ => false end.

(* ===================================================================== *)
(** * Python floats                                                       *)
(* ===================================================================== *)

(** [int(x)] on a finite float: truncation toward zero. *)
Definition float_trunc (x : float) : Z :=
  match Prim2SF x with
  | S754_finite s m e => cond_Zopp s (Z.shiftl (Z.pos m) e)
  | _ => 0
  end.

(** The binary64 number nearest to an integer (ties to even). *)
Definition float_of_Z (z : Z) : float :=
  SF2Prim (binary_normalize prec emax z 0 false).

(** The binary64 number nearest to the rational [(-1)^s * n / d]. *)
Definition float_of_ratio (s : bool) (n d : positive) : float :=
  let '(q, e, l) := SFdiv_core_binary prec emax (Z.pos n) 0 (Z.pos d) 0 in
  SF2Prim (binary_round_aux prec emax s q e l).

(** [num / den] rounded to the nearest integer, ties to even
    ([0 <= num], [0 < den]). *)
Definition round_half_even (num den : Z) : Z :=
  let q := num / den in
  let r := num mod den in
  match 2 * r ?= den with
  | Lt => q
  | Gt => q + 1
  | Eq => if Z.even q then q else q + 1
  end.

(** [round(x, 2)] on a float.  CPython converts [x] to the decimal string
    with two digits after the point that is nearest to the exact value of
    [x] (ties to even) and reads that string back as the nearest float.
    Infinities, NaN and zeros are returned as they are; a float whose
    binary exponent is non-negative is an integer and rounds to itself. *)
Definition py_round2 (x : float) : float :=
  match Prim2SF x with
  | S754_finite s m e =>
      if 0 <=? e then x
      else match round_half_even (Z.pos m * 100) (2 ^ (- e)) with
           | Z.pos n => float_of_ratio s n 100
           | _ => if s then neg_zero else zero
           end
  | _ => x
  end.

(** [x ** 2] on a float.  CPython's [float_pow] settles the special cases
    itself: NaN for a NaN base, the infinity for an infinite base, [0.0]
    for a zero base, [1.0] for a base of magnitude one.  Otherwise it calls
    the C library's [pow] on the magnitude of the base and raises
    [OverflowError] when the result is infinite.  [libm_pow2 a] stands for
    the C library's [pow(a, 2.0)]: a value near the square of [a], which
    need not be the correctly rounded one. *)
Definition py_pow2 (libm_pow2 : float -> float) (x : float) : result float :=
  if is_nan x then Ok x
  else if is_infinity x then Ok infinity
  else if (x =? 0)%float then Ok 0%float
  else let a := abs x in
       if (a =? 1)%float then Ok 1%float
       else let r := libm_pow2 a in
            if is_infinity r then Raise OverflowError else Ok r.

(** [math.sqrt(x)]: the C library's [sqrt]; a NaN result for an argument
    that is not NaN is reported as [ValueError] (math domain error). *)
Definition math_sqrt (x : float) : result float :=
  let r := PrimFloat.sqrt x in
  if is_nan r && negb (is_nan x) then Raise ValueError else Ok r.

(* ===================================================================== *)
(** * Text                                                                *)
(* ===================================================================== *)

(** A Python [str] is a sequence of code points; here it is the [string]
    of their UTF-8 encoding, as the source files and the JSON documents
    have it.  (A lone surrogate, which UTF-8 does not encode, is not a
    value of the model.) *)

(** A byte [10xxxxxx] continues the character of the byte before it. *)
Definition is_continuation (c : ascii) : bool :=
  let n := N_of_ascii c in ((128 <=? n) && (n <? 192))%N.

(** The characters after the one that starts with [cur]. *)
Fixpoint characters_from (cur l : list ascii) : list (list ascii) :=
  match l with
  | c :: l' =>
      if is_continuation c then characters_from (cur ++ [c]) l'
      else cur :: characters_from [c] l'
  | [] => [cur]
  end.

(** The characters of a text, each as its bytes. *)
Definition characters (s : string) : list (list ascii) :=
  match list_ascii_of_string s with
  | c :: l => characters_from [c] l
  | [] => []
  end.

(** The code point of a character (U+FFFD for what is not UTF-8). *)
Definition code_point (ch : list ascii) : N :=
  (match map N_of_ascii ch with
   | [a] => if a <? 128 then a else 0xFFFD
   | [a; b] => (a mod 32) * 64 + b mod 64
   | [a; b; c] => ((a mod 16) * 64 + b mod 64) * 64 + c mod 64
   | [a; b; c; d] =>
       (((a mod 8) * 64 + b mod 64) * 64 + c mod 64) * 64 + d mod 64
   | _ => 0xFFFD
   end)%N.

(** White space outside ASCII ([Py_UNICODE_ISSPACE]). *)
Definition is_unicode_space (cp : N) : bool :=
  ((cp =? 0x85) || (cp =? 0xA0) || (cp =? 0x1680)
   || ((0x2000 <=? cp) && (cp <=? 0x200A))
   || (cp =? 0x2028) || (cp =? 0x2029) || (cp =? 0x202F)
   || (cp =? 0x205F) || (cp =? 0x3000))%N.

(** The digit zero of every script with decimal digits (general category
    Nd of Unicode 14.0, the database of Python 3.11): the ten digits of a
    script follow its zero. *)
Definition decimal_zeros : list N :=
  [0x0030; 0x0660; 0x06F0; 0x07C0; 0x0966; 0x09E6; 0x0A66; 0x0AE6; 0x0B66;
   0x0BE6; 0x0C66; 0x0CE6; 0x0D66; 0x0DE6; 0x0E50; 0x0ED0; 0x0F20; 0x1040;
   0x1090; 0x17E0; 0x1810; 0x1946; 0x19D0; 0x1A80; 0x1A90; 0x1B50; 0x1BB0;
   0x1C40; 0x1C50; 0xA620; 0xA8D0; 0xA900; 0xA9D0; 0xA9F0; 0xAA50; 0xABF0;
   0xFF10; 0x104A0; 0x10D30; 0x11066; 0x110F0; 0x11136; 0x111D0; 0x112F0;
   0x11450; 0x114D0; 0x11650; 0x116C0; 0x11730; 0x118E0; 0x11950; 0x11C50;
   0x11D50; 0x11DA0; 0x16A60; 0x16AC0; 0x16B50; 0x1D7CE; 0x1D7D8; 0x1D7E2;
   0x1D7EC; 0x1D7F6; 0x1E140; 0x1E2F0; 0x1E950; 0x1FBF0]%N.

(** The value of a decimal digit of any script ([Py_UNICODE_TODECIMAL]). *)
Definition decimal_value (cp : N) : option N :=
  match filter (fun z => (z <=? cp) && (cp <? z + 10))%N decimal_zeros with
  | z :: _ => Some (cp - z)%N
  | [] => None
  end.

(** What [int()] and [float()] read of a text
    ([_PyUnicode_TransformDecimalAndSpaceToASCII]): ASCII stays, other
    white space becomes a space, other decimal digits become ASCII digits,
    and the text ends in a question mark at the first other character. *)
Fixpoint decimal_and_space_to_ascii (chs : list (list ascii)) : list ascii :=
  match chs with
  | ch :: rest =>
      let cp := code_point ch in
      if (cp <? 128)%N then ascii_of_N cp :: decimal_and_space_to_ascii rest
      else if is_unicode_space cp
      then " "%char :: decimal_and_space_to_ascii rest
      else match decimal_value cp with
           | Some d => ascii_of_N (48 + d) :: decimal_and_space_to_ascii rest
           | None => ["?"%char]
           end
  | [] => []
  end.

(* ===================================================================== *)
(** * Reading numbers from text                                           *)
(* ===================================================================== *)

Definition is_space (c : ascii) : bool :=
  let n := Z.of_N (N_of_ascii c) in
  (n =? 32) || ((9 <=? n) && (n <=? 13)).

Definition digit_val (c : ascii) : option Z :=
  let n := Z.of_N (N_of_ascii c) in
  if (48 <=? n) && (n <=? 57) then Some (n - 48) else None.

Definition to_lower (c : ascii) : ascii :=
  let n := N_of_ascii c in
  if ((65 <=? n) && (n <=? 90))%N then ascii_of_N (n + 32) else c.

Fixpoint drop_spaces (l : list ascii) : list ascii :=
  match l with
  | c :: l' => if is_space c then drop_spaces l' else l
  | [] => []
  end.

(** [s.strip()] as [int()] and [float()] apply it. *)
Definition strip (l : list ascii) : list ascii :=
  rev (drop_spaces (rev (drop_spaces l))).

(** The rest of a [digitpart]: digits, each optionally preceded by a single
    underscore.  Returns the accumulated value, the number of digits read
    and the unread text. *)
Fixpoint digitpart_tail (acc : Z) (n : nat) (l : list ascii)
  : Z * nat * list ascii :=
  match l with
  | c :: l' =>
      match digit_val c with
      | Some d => digitpart_tail (10 * acc + d) (S n) l'
      | None =>
          if Ascii.eqb c "_"
          then match l' with
               | c2 :: l'' =>
                   match digit_val c2 with
                   | Some d => digitpart_tail (10 * acc + d) (S n) l''
                   | None => (acc, n, l)
                   end
               | [] => (acc, n, l)
               end
          else (acc, n, l)
      end
  | [] => (acc, n, [])
  end.

(** [digitpart ::= digit (["_"] digit)*], continuing the value [acc]. *)
Definition digitpart (acc : Z) (l : list ascii)
  : option (Z * nat * list ascii) :=
  match l with
  | c :: l' =>
      match digit_val c with
      | Some d => Some (digitpart_tail (10 * acc + d) 1 l')
      | None => None
      end
  | [] => None
  end.

Definition read_sign (l : list ascii) : bool * list ascii :=
  match l with
  | c :: l' =>
      if Ascii.eqb c "-" then (true, l')
      else if Ascii.eqb c "+" then (false, l')
      else (false, l)
  | [] => (false, [])
  end.

(** The greatest number of digits that [int()] converts
    ([sys.get_int_max_str_digits()], with its default value). *)
Definition int_max_str_digits : Z := 4300.

(** [int(s)] for a string, base 10: [None] stands for [ValueError]. *)
Definition int_of_string (s : string) : option Z :=
  let '(neg, l) :=
    read_sign (strip (decimal_and_space_to_ascii (characters s))) in
  match digitpart 0 l with
  | Some (v, n, []) =>
      if int_max_str_digits <? Z.of_nat n then None
      else Some (if neg then - v else v)
  | _ => None
  end.

(** The float nearest to [(-1)^neg * m * 10^p]. *)
Definition float_of_decimal (neg : bool) (m p : Z) : float :=
  match m with
  | Z.pos mp =>
      if 0 <=? p
      then let f := float_of_Z (m * 10 ^ p) in if neg then (- f)%float else f
      else float_of_ratio neg mp (Z.to_pos (10 ^ (- p)))
  | _ => if neg then neg_zero else zero
  end.

(** [number ::= [digitpart] "." digitpart | digitpart ["."]]: the digits as
    one integer and the number of digits after the point. *)
Definition read_number (l : list ascii) : option (Z * nat * list ascii) :=
  match digitpart 0 l with
  | Some (m1, _, r1) =>
      match r1 with
      | c :: r2 =>
          if Ascii.eqb c "."
          then match digitpart m1 r2 with
               | Some (m2, k, r3) => Some (m2, k, r3)
               | None => Some (m1, 0%nat, r2)
               end
          else Some (m1, 0%nat, r1)
      | [] => Some (m1, 0%nat, [])
      end
  | None =>
      match l with
      | c :: r =>
          if Ascii.eqb c "." then digitpart 0 r else None
      | [] => None
      end
  end.

(** [exponent ::= ("e" | "E") ["+" | "-"] digitpart], when present. *)
Definition read_exponent (l : list ascii) : option (Z * list ascii) :=
  match l with
  | c :: r =>
      if Ascii.eqb (to_lower c) "e"
      then let '(neg, r') := read_sign r in
           match digitpart 0 r' with
           | Some (v, _, rest) => Some (if neg then - v else v, rest)
           | None => None
           end
      else Some (0, l)
  | [] => Some (0, [])
  end.

(** [float(s)] for a string: [None] stands for [ValueError]. *)
Definition float_of_string (s : string) : option float :=
  let '(neg, l) :=
    read_sign (strip (decimal_and_space_to_ascii (characters s))) in
  let word := string_of_list_ascii (map to_lower l) in
  if String.eqb word "inf" || String.eqb word "infinity"
  then Some (if neg then neg_infinity else infinity)
  else if String.eqb word "nan" then Some nan
  else match read_number l with
       | Some (m, k, r) =>
           match read_exponent r with
           | Some (ex, []) => Some (float_of_decimal neg m (ex - Z.of_nat k))
           | _ => None
           end
       | None => None
       end.

(* ===================================================================== *)
(** * Python values                                                       *)
(* ===================================================================== *)

(** The values a decoded JSON document is made of. *)
#[warnings="-register-all"]
Inductive pyval : Type :=
| PyNone
| PyBool (b : bool)
| PyInt (z : Z)
| PyFloat (f : float)
| PyStr (s : string)
| PyList (l : list pyval)
| PyDict (d : gmap string pyval).

(** [int(v)]. *)
Definition py_int (v : pyval) : result Z :=
  match v with
  | PyNone => Raise TypeError
  | PyBool b => Ok (if b then 1 else 0)
  | PyInt z => Ok z
  | PyFloat f =>
      if is_nan f then Raise ValueError
      else if is_infinity f then Raise OverflowError
      else Ok (float_trunc f)
  | PyStr s =>
      match int_of_string s with
      | Some z => Ok z
      | None => Raise ValueError
      end
  | PyList _ | PyDict _ => Raise TypeError
  end.

(** [float(v)]. *)
Definition py_float (v : pyval) : result float :=
  match v with
  | PyNone => Raise TypeError
  | PyBool b => Ok (if b then 1%float else 0%float)
  | PyInt z =>
      let f := float_of_Z z in
      if is_infinity f then Raise OverflowError else Ok f
  | PyFloat f => Ok f
  | PyStr s =>
      match float_of_string s with
      | Some f => Ok f
      | None => Raise ValueError
      end
  | PyList _ | PyDict _ => Raise TypeError
  end.

(** [d.get(key, default)] on a dict. *)
Definition dict_get (d : gmap string pyval) (key : string) (default : pyval)
  : pyval :=
  match d !! key with
  | Some v => v
  | None => default
  end.

(** [station.get(key, default)]: only a dict has the method. *)
Definition py_get (station : pyval) (key : string) (default : pyval)
  : result pyval :=
  match station with
  | PyDict d => Ok (dict_get d key default)
  | _ => Raise AttributeError
  end.

(** Truth value of [self.aqi_data] in [if not self.aqi_data]. *)
Definition py_truthy (v : pyval) : bool :=
  match v with
  | PyNone => false
  | PyBool b => b
  | PyInt z => negb (z =? 0)
  | PyFloat f => negb (f =? 0)%float
  | PyStr s => negb (String.eqb s "")
  | PyList l => match l with [] => false | _ => true end
  | PyDict d => negb (bool_decide (d = ∅))
  end.

(** Iterating a JSON value ([for station in self.aqi_data]): a list yields
    its elements, a string its characters, a dict its keys; anything else is
    not iterable.  The keys of a [gmap] come in the order of the map, not in
    the order of insertion of a Python dict; the methods do the same on
    every key (a key is a string, which has no [get]), so that the order
    does not show in what they return or print. *)
Definition py_iter (v : pyval) : result (list pyval) :=
  match v with
  | PyList l => Ok l
  | PyStr s =>
      Ok (map (fun ch => PyStr (string_of_list_ascii ch)) (characters s))
  | PyDict d => Ok (map (fun kv => PyStr (fst kv)) (map_to_list d))
  | _ => Raise TypeError
  end.

(** [len(v)]: the number of elements, of characters, of keys. *)
Definition py_len (v : pyval) : result Z :=
  match v with
  | PyList l => Ok (Z.of_nat (length l))
  | PyStr s => Ok (Z.of_nat (length (characters s)))
  | PyDict d => Ok (Z.of_nat (size d))
  | _ => Raise TypeError
  end.

(** A coordinate as the projection library returns it: a float for a
    scalar argument, a list for a list argument (a JSON array). *)
Inductive coord : Type :=
| Scalar (x : float)
| Sequence (l : list float).

(** A projected point whose coordinates are two floats. *)
Definition scalars (p : float * float) : coord * coord :=
  (Scalar (fst p), Scalar (snd p)).

(** [t[i]] on the value of [self.taipei_station_twd97], a pair or [None]. *)
Definition subscript (t : option (coord * coord)) (i : nat) : result coord :=
  match t with
  | Some (x, y) => Ok (match i with O => x | _ => y end)
  | None => Raise TypeError
  end.

(** [a - b] on two coordinates: a list has no subtraction. *)
Definition py_sub (a b : coord) : result float :=
  match a, b with
  | Scalar x, Scalar y => Ok (x - y)%float
  | _, _ => Raise TypeError
  end.

(* ===================================================================== *)
(** * The generator object and its world                                  *)
(* ===================================================================== *)

(** A piece of a formatted message: literal text, or an interpolated
    number, value or exception. *)
Inductive frag : Type :=
| Text (s : string)
| Num (n : Z)
| Val (v : pyval)
| Exc (e : exn).

(** One [print] call. *)
Definition line : Type := list frag.

(** The attributes of an [AQIMapGenerator]. *)
Record Generator : Type := mkGenerator {
  api_key : option string;
  api_url : string;
  aqi_data : pyval;
  taipei_station_wgs84 : float * float;
  taipei_station_twd97 : option (coord * coord)
}.

(** One row of [csv_data]; the columns in the order of the dict literal. *)
Record csv_row : Type := mkRow {
  row_sitename : pyval;            (* '測站名稱' *)
  row_county : pyval;              (* '縣市' *)
  row_aqi : pyval;                 (* 'AQI' *)
  row_level : string;              (* '等級' *)
  row_status : pyval;              (* '狀態' *)
  row_pollutant : pyval;           (* '主要污染物' *)
  row_latitude : pyval;            (* '緯度' *)
  row_longitude : pyval;           (* '經度' *)
  row_distance : option float;     (* '距離台北車站(公里)' *)
  row_publishtime : pyval          (* '更新時間' *)
}.

(** A circle marker: its location, fill colour, and the values shown in the
    popup and the tooltip. *)
Record marker : Type := mkMarker {
  mk_location : float * float;
  mk_fillColor : string;
  mk_site_name : pyval;
  mk_county : pyval;
  mk_aqi : pyval;
  mk_level : string
}.

(** What is added to a folium map, in order. *)
Inductive element : Type :=
| LegendHtml
| TitleHtml
| CircleMarker (mk : marker).

(** The object, and what the program does to its surroundings: lines
    printed, calls made to the coordinate transformer (the arguments, in
    order), and the files left on the disk: each CSV file with the rows that
    reached it, each map with its elements. *)
Record world : Type := mkWorld {
  self : Generator;
  stdout : list line;
  proj_calls : list (pyval * pyval);
  csv_files : list (string * list csv_row);
  html_files : list (string * list element)
}.

Definition set_self (f : Generator -> Generator) (w : world) : world :=
  mkWorld (f (self w)) (stdout w) (proj_calls w) (csv_files w) (html_files w).

Definition set_aqi_data (v : pyval) (g : Generator) : Generator :=
  mkGenerator (api_key g) (api_url g) v
              (taipei_station_wgs84 g) (taipei_station_twd97 g).

(** A method body: it runs in a world, returns or raises, and leaves a
    world; what was done before an exception stays done. *)
Definition M (A : Type) : Type := world -> result A * world.

#[global] Instance M_ret : MRet M := fun A a w => (Ok a, w).

#[global] Instance M_bind : MBind M := fun A B k c w =>
  match c w with
  | (Ok a, w') => k a w'
  | (Raise e, w') => (Raise e, w')
  end.

Definition raise {A} (e : exn) : M A := fun w => (Raise e, w).

Definition lift {A} (r : result A) : M A := fun w => (r, w).

(** [try: c  except <handled classes> as e: h e]. *)
Definition try_except {A} (c : M A) (handled : exn -> bool) (h : exn -> M A)
  : M A := fun w =>
  match c w with
  | (Raise e, w') => if handled e then h e w' else (Raise e, w')
  | r => r
  end.

(** [except Exception]: every class of [exn]. *)
Definition Exception (e : exn) : bool := true.

(** The world after one more printed line, and after one more call to the
    transformer. *)
Definition add_line (l : line) (w : world) : world :=
  mkWorld (self w) (stdout w ++ [l]) (proj_calls w)
          (csv_files w) (html_files w).

Definition add_call (lat lon : pyval) (w : world) : world :=
  mkWorld (self w) (stdout w) (proj_calls w ++ [(lat, lon)])
          (csv_files w) (html_files w).

Definition add_csv_file (filename : string) (rows : list csv_row) (w : world)
  : world :=
  mkWorld (self w) (stdout w) (proj_calls w)
          (csv_files w ++ [(filename, rows)]) (html_files w).

Definition print (l : line) : M unit := fun w => (Ok tt, add_line l w).

(** [pass]. *)
Definition pass : M unit := fun w => (Ok tt, w).

(** [if b: c]. *)
Definition when_ (b : bool) (c : M unit) : M unit := if b then c else pass.

Definition get_self : M Generator := fun w => (Ok (self w), w).

Definition modify_self (f : Generator -> Generator) : M unit := fun w =>
  (Ok tt, set_self f w).

(** [for x in l: s = body s x], the loop variables in [s]. *)
Fixpoint for_each {S} (body : S -> pyval -> M S) (s : S) (l : list pyval)
  : M S :=
  match l with
  | [] => mret s
  | x :: l' => s' ← body s x; for_each body s' l'
  end.

(* ===================================================================== *)
(** * The station classifier                                              *)
(* ===================================================================== *)

(** [get_aqi_color]: the colour of an AQI value. *)
Definition get_aqi_color (aqi_value : pyval) : result string :=
  match py_int aqi_value with
  | Raise e => if is_ValueError_or_TypeError e then Ok "#808080" else Raise e
  | Ok aqi =>
      if aqi <=? 50 then Ok "#00E400"
      else if aqi <=? 100 then Ok "#FFFF00"
      else Ok "#FF0000"
  end.

(** [get_aqi_level]: the level label of an AQI value ("良好" good, "普通"
    moderate, "不健康" unhealthy, "數據異常" abnormal data). *)
Definition get_aqi_level (aqi_value : pyval) : result string :=
  match py_int aqi_value with
  | Raise e => if is_ValueError_or_TypeError e then Ok "數據異常" else Raise e
  | Ok aqi =>
      if aqi <=? 50 then Ok "良好"
      else if aqi <=? 100 then Ok "普通"
      else Ok "不健康"
  end.

(** The classifier as the specification names it: colour and level of one
    value, each as the method returns it. *)
Definition classify (aqi_value : pyval) : result string * result string :=
  (get_aqi_color aqi_value, get_aqi_level aqi_value).

(* ===================================================================== *)
(** * The methods of [AQIMapGenerator]                                    *)
(* ===================================================================== *)

Set Warnings "-inexact-float".

Section AQIMapGenerator.

(** What the generator calls outside this repository. *)

(** The C library's [pow(a, 2.0)], which [**] calls. *)
Variable libm_pow2 : float -> float.
(** [os.getenv]. *)
Variable getenv : string -> option string.
(** [Transformer.from_crs("EPSG:4326", "EPSG:3826").transform(lat, lon)]:
    a pair of coordinates, each of the kind of its argument, or an
    exception. *)
Variable transform : pyval -> pyval -> result (coord * coord).
(** [requests.get(url, params, timeout=30)], [raise_for_status()] and
    [response.json()], for a URL and an API key. *)
Variable requests_get_json : string -> option string -> result pyval.
(** [datetime.now().strftime('%Y%m%d_%H%M%S')]. *)
Variable now : string.
(** [os.makedirs(path, exist_ok=True)] and [open(path, 'w', ...)]. *)
Variable makedirs : string -> result unit.
Variable open_w : string -> result unit.
(** [csv.DictWriter(csvfile, fieldnames)], its [writeheader()] and
    [writerows(csv_data)] on the file just opened, and the closing of the
    file: [None] when every row was written, or the exception raised (an
    encoding error, an I/O error) with the rows that had reached the file
    by then. *)
Variable csv_writer : string -> list csv_row -> option (exn * list csv_row).
(** [folium.CircleMarker(...)] with the arguments of a marker, and
    [map_obj.save(filename)]. *)
Variable folium_CircleMarker : marker -> result unit.
Variable folium_save : string -> result unit.

Definition call_transform (lat lon : pyval) : M (coord * coord) := fun w =>
  (transform lat lon, add_call lat lon w).

(** [wgs84_to_twd97]. *)
Definition wgs84_to_twd97 (lat lon : pyval) : M (option (coord * coord)) :=
  try_except
    ('(x, y) ← call_transform lat lon;
     mret (Some (x, y)))
    Exception
    (fun e => print [Text "坐標轉換錯誤: "; Exc e];; mret None).

(** [__init__]: the attributes are assigned in turn. *)
Definition __init__ : M unit :=
  let key := getenv "AQI_API_KEY" in
  modify_self (fun g =>
    mkGenerator key (api_url g) (aqi_data g)
                (taipei_station_wgs84 g) (taipei_station_twd97 g));;
  g ← get_self;
  if negb (match api_key g with
           | Some k => negb (String.eqb k "")
           | None => false
           end)
  then raise ValueError
  else
    modify_self (fun g =>
      mkGenerator (api_key g) "https://data.moenv.gov.tw/api/v2/aqx_p_432"
                  PyNone (25.0478, 121.5170)%float
                  (taipei_station_twd97 g));;
    g ← get_self;
    t ← wgs84_to_twd97 (PyFloat (fst (taipei_station_wgs84 g)))
                        (PyFloat (snd (taipei_station_wgs84 g)));
    modify_self (fun g =>
      mkGenerator (api_key g) (api_url g) (aqi_data g)
                  (taipei_station_wgs84 g) t).

(** [fetch_aqi_data]. *)
Definition fetch_aqi_data : M bool :=
  try_except
    (print [Text "正在獲取 AQI 數據..."];;
     g ← get_self;
     data ← lift (requests_get_json (api_url g) (api_key g));
     match data with
     | PyList _ => modify_self (set_aqi_data data)
     | PyDict d =>
         match d !! "value" with
         | Some v => modify_self (set_aqi_data v)
         | None => raise ValueError
         end
     | _ => raise ValueError
     end;;
     g ← get_self;
     n ← lift (py_len (aqi_data g));
     print [Text "成功獲取 "; Num n; Text " 個測站數據"];;
     mret true)
    Exception
    (fun e =>
       (if is_RequestException e
        then print [Text "API 請求錯誤: "; Exc e]
        else print [Text "數據處理錯誤: "; Exc e]);;
       mret false).

(** [calculate_distance_twd97]. *)
Definition calculate_distance_twd97 (lat lon : pyval) : M (option float) :=
  try_except
    (station_twd97 ← wgs84_to_twd97 lat lon;
     match station_twd97 with
     | None => mret None
     | Some (sx, sy) =>
         g ← get_self;
         tx ← lift (subscript (taipei_station_twd97 g) 0);
         dx ← lift (py_sub sx tx);
         dx2 ← lift (py_pow2 libm_pow2 dx);
         ty ← lift (subscript (taipei_station_twd97 g) 1);
         dy ← lift (py_sub sy ty);
         dy2 ← lift (py_pow2 libm_pow2 dy);
         distance_meters ← lift (math_sqrt (dx2 + dy2)%float);
         let distance_km := (distance_meters / 1000)%float in
         mret (Some (py_round2 distance_km))
     end)
    Exception
    (fun e => print [Text "距離計算錯誤: "; Exc e];; mret None).

(** One turn of the loop of [export_to_csv]. *)
Definition export_station (csv_data : list csv_row) (station : pyval)
  : M (list csv_row) :=
  try_except
    (lat ← lift (py_get station "latitude" (PyInt 0));
     lon ← lift (py_get station "longitude" (PyInt 0));
     distance ← calculate_distance_twd97 lat lon;
     sitename ← lift (py_get station "sitename" (PyStr "未知測站"));
     county ← lift (py_get station "county" (PyStr "未知縣市"));
     aqi ← lift (py_get station "aqi" (PyStr "N/A"));
     aqi' ← lift (py_get station "aqi" (PyStr "N/A"));
     level ← lift (get_aqi_level aqi');
     status ← lift (py_get station "status" (PyStr "N/A"));
     pollutant ← lift (py_get station "pollutant" (PyStr "N/A"));
     publishtime ← lift (py_get station "publishtime" (PyStr "N/A"));
     mret (csv_data ++ [mkRow sitename county aqi level status pollutant
                              lat lon distance publishtime])%list)
    Exception
    (fun e => print [Text "處理測站數據時發生錯誤: "; Exc e];;
              mret csv_data).

(** The [with] block of [export_to_csv], once [open] has created the
    file: nothing is written when there is no row, else the header and the
    rows; when the writer raises, the file stays with what had reached
    it. *)
Definition write_csv (filename : string) (csv_data : list csv_row)
  : M unit := fun w =>
  match csv_data with
  | [] => (Ok tt, add_csv_file filename [] w)
  | _ :: _ =>
      match csv_writer filename csv_data with
      | None => (Ok tt, add_csv_file filename csv_data w)
      | Some (e, written) => (Raise e, add_csv_file filename written w)
      end
  end.

(** [export_to_csv]. *)
Definition export_to_csv (filename : option string) : M bool :=
  g ← get_self;
  if negb (py_truthy (aqi_data g))
  then print [Text "沒有 AQI 數據可以匯出"];; mret false
  else
    let filename :=
      match filename with
      | Some f => f
      | None => String.append "outputs/aqi_data_" (String.append now ".csv")
      end in
    try_except
      (lift (makedirs "outputs");;
       g ← get_self;
       stations ← lift (py_iter (aqi_data g));
       csv_data ← for_each export_station [] stations;
       lift (open_w filename);;
       write_csv filename csv_data;;
       print [Text "數據已匯出至 "; Text filename; Text "，共 ";
              Num (Z.of_nat (length csv_data)); Text " 筆記錄"];;
       mret true)
      Exception
      (fun e => print [Text "匯出 CSV 時發生錯誤: "; Exc e];; mret false).

(** One turn of the marker loop of [create_map]: the map [m] and the
    counter [valid_stations] are the loop variables. *)
Definition map_station (st : list element * Z) (station : pyval)
  : M (list element * Z) :=
  let '(m, valid_stations) := st in
  try_except
    (lat_raw ← lift (py_get station "latitude" (PyInt 0));
     lat ← lift (py_float lat_raw);
     lon_raw ← lift (py_get station "longitude" (PyInt 0));
     lon ← lift (py_float lon_raw);
     if (lat =? 0)%float || (lon =? 0)%float
     then mret (m, valid_stations)
     else
       aqi ← lift (py_get station "aqi" (PyStr "N/A"));
       site_name ← lift (py_get station "sitename" (PyStr "未知測站"));
       county ← lift (py_get station "county" (PyStr "未知縣市"));
       pollutant ← lift (py_get station "pollutant" (PyStr "N/A"));
       status ← lift (py_get station "status" (PyStr "N/A"));
       color ← lift (get_aqi_color aqi);
       level ← lift (get_aqi_level aqi);
       let mk := mkMarker (lat, lon) color site_name county aqi level in
       lift (folium_CircleMarker mk);;
       mret ((m ++ [CircleMarker mk])%list, valid_stations + 1))
    is_ValueError_or_KeyError
    (fun e => print [Text "處理測站數據時發生錯誤: "; Exc e];;
              mret (m, valid_stations)).

(** [create_map]: the map is the list of what was added to it. *)
Definition create_map : M (option (list element)) :=
  g ← get_self;
  if negb (py_truthy (aqi_data g))
  then print [Text "沒有 AQI 數據，請先執行 fetch_aqi_data()"];; mret None
  else
    let m := [LegendHtml] in
    g ← get_self;
    stations ← lift (py_iter (aqi_data g));
    '(m, valid_stations) ← for_each map_station (m, 0) stations;
    print [Text "地圖上已標示 "; Num valid_stations; Text " 個有效測站"];;
    mret (Some (m ++ [TitleHtml])%list).

Definition write_html (filename : string) (m : list element)
  : M unit := fun w =>
  (Ok tt, mkWorld (self w) (stdout w) (proj_calls w)
                  (csv_files w) (html_files w ++ [(filename, m)])).

(** [save_map]. *)
Definition save_map (map_obj : option (list element)) (filename : string)
  : M bool :=
  match map_obj with
  | None => print [Text "無法儲存地圖：地圖物件為 None"];; mret false
  | Some m =>
      try_except
        (lift (folium_save filename);;
         write_html filename m;;
         print [Text "地圖已儲存為 "; Text filename];;
         mret true)
        Exception
        (fun e => print [Text "儲存地圖時發生錯誤: "; Exc e];; mret false)
  end.

(** [run]. *)
Definition run : M bool :=
  print [Text "=================================================="];;
  print [Text "台灣即時 AQI 地圖生成器"];;
  print [Text "=================================================="];;
  fetched ← fetch_aqi_data;
  if negb fetched
  then print [Text "無法獲取 AQI 數據，程式終止"];; mret false
  else
    aqi_map ← create_map;
    match aqi_map with
    | None => print [Text "無法創建地圖"];; mret false
    | Some _ =>
        let timestamp := now in
        let map_filename :=
          String.append "outputs/aqi_map_" (String.append timestamp ".html") in
        lift (makedirs "outputs");;
        saved ← save_map aqi_map map_filename;
        when_ saved (print [Text "地圖已儲存為 "; Text map_filename]);;
        let csv_filename :=
          String.append "outputs/aqi_data_" (String.append timestamp ".csv") in
        exported ← export_to_csv (Some csv_filename);
        when_ exported (print [Text "數據已匯出為 "; Text csv_filename]);;
        print [Text (String "010" "任務完成！")];;
        print [Text "- 地圖檔案: "; Text map_filename];;
        print [Text "- 數據檔案: "; Text csv_filename];;
        mret true
    end.

(** [main]: the generator is built and run; the two closing messages start
    with a line feed, like the closing message of [run]. *)
Definition main : M unit :=
  try_except
    (__init__;;
     run ≫= (fun success : bool =>
       if success
       then print [Text (String "010" "程式執行成功！")]
       else print [Text (String "010" "程式執行失敗，請檢查錯誤訊息")]))
    Exception
    (fun e => print [Text "程式執行時發生未預期的錯誤: "; Exc e]).

End AQIMapGenerator.

(* ===================================================================== *)
(** * The specification's formulas                                        *)
(* ===================================================================== *)

(** The distance of the specification,
    [round(sqrt((x - xr)^2 + (y - yr)^2) / 1000, 2)] for two planar points
    [a = (x, y)] and [b = (xr, yr)], written with Python's operators. *)
Definition distance_km (libm_pow2 : float -> float) (a b : float * float)
  : result float :=
  match py_pow2 libm_pow2 (fst a - fst b)%float with
  | Raise e => Raise e
  | Ok dx2 =>
      match py_pow2 libm_pow2 (snd a - snd b)%float with
      | Raise e => Raise e
      | Ok dy2 =>
          match math_sqrt (dx2 + dy2)%float with
          | Raise e => Raise e
          | Ok metres => Ok (py_round2 (metres / 1000)%float)
          end
      end
  end.

(** The same expression on what the projection returned and what the
    generator holds: a missing reference has no subscript and a list has no
    subtraction, each a [TypeError], met in the order of evaluation. *)
Definition distance_of (libm_pow2 : float -> float) (p : coord * coord)
    (ref : option (coord * coord)) : result float :=
  match ref with
  | None => Raise TypeError
  | Some r =>
      match py_sub (fst p) (fst r) with
      | Raise e => Raise e
      | Ok dx =>
          match py_pow2 libm_pow2 dx with
          | Raise e => Raise e
          | Ok dx2 =>
              match py_sub (snd p) (snd r) with
              | Raise e => Raise e
              | Ok dy =>
                  match py_pow2 libm_pow2 dy with
                  | Raise e => Raise e
                  | Ok dy2 =>
                      match math_sqrt (dx2 + dy2)%float with
                      | Raise e => Raise e
                      | Ok metres => Ok (py_round2 (metres / 1000)%float)
                      end
                  end
              end
          end
      end
  end.

(** [k] is the integer nearest to [num / den], the even one of two that are
    equally near ([0 < den]). *)
Definition nearest_integer (num den k : Z) : Prop :=
  2 * Z.abs (num - k * den) <= den /\
  (2 * Z.abs (num - k * den) = den -> Z.even k = true).

(** The binary64 number nearest to [(-1)^s * k / 100], as the quotient of
    the integers [k] and [100] in the specification of binary64 division. *)
Definition hundredths (s : bool) (k : Z) : float :=
  SF2Prim (match k with
           | Z.pos n => SF64div (S754_finite s n 0) (S754_finite false 100 0)
           | _ => S754_zero s
           end).

(** "Rounded to 2 decimal places": [d] is the float nearest to [k / 100]
    with the sign of [x], where [k] is the integer nearest to
    [100 * |x|], ties to the even [k]; a float that is an integer, a zero,
    an infinity or NaN is its own rounding.  The magnitude of a finite [x]
    is [m * 2^e]. *)
Definition rounded_to_2_places (x d : float) : Prop :=
  match Prim2SF x with
  | S754_finite s m e =>
      if 0 <=? e then d = x
      else exists k,
             0 <= k /\ nearest_integer (100 * Z.pos m) (2 ^ (- e)) k /\
             d = hundredths s k
  | _ => d = x
  end.

(** What is assumed of the C library's [pow(a, 2.0)] where a theorem needs
    it: it never returns a negative number. *)
Definition never_negative (libm_pow2 : float -> float) : Prop :=
  forall a, (libm_pow2 a <? 0)%float = false.

(** What it would mean for the value returned by a failed projection to
    carry the original point and the underlying cause: both can be read
    back from the returned value alone. *)
Definition failure_carries_point_and_cause : Prop :=
  exists recover : option (coord * coord) -> option (pyval * pyval * exn),
    forall (transform : pyval -> pyval -> result (coord * coord))
           (lat lon : pyval) (e : exn) (w : world),
      transform lat lon = Raise e ->
      exists r, fst (wgs84_to_twd97 transform lat lon w) = Ok r /\
                recover r = Some (lat, lon, e).

(** The floats that are not negative: NaN, the zeros, [+infinity] and the
    positive finite numbers, as [spec_float]s. *)
Definition sf_nonneg (s : spec_float) : bool :=
  match s with
  | S754_infinity true | S754_finite true _ _ => false
  | _ => true
  end.

(** [c] leaves the observation [obs] of the world as it found it. *)
Definition keeps {X A : Type} (obs : world -> X) (c : M A) : Prop :=
  forall w, obs (snd (c w)) = obs w.

(** The cached reference projection of the generator of a world. *)
Definition reference (w : world) : option (coord * coord) :=
  taipei_station_twd97 (self w).

(** The coordinates that [export_to_csv] hands to the distance method, one
    pair for each station that is a record. *)
Definition station_coords (stations : list pyval) : list (pyval * pyval) :=
  omap (fun station =>
          match station with
          | PyDict d => Some (dict_get d "latitude" (PyInt 0),
                              dict_get d "longitude" (PyInt 0))
          | _ => None
          end) stations.

(** The row of a station record with a given distance and level: every
    other column is the station's field or the default of its [get]. *)
Definition station_row (d : gmap string pyval) (distance : option float)
    (level : string) : csv_row :=
  mkRow (dict_get d "sitename" (PyStr "未知測站"))
        (dict_get d "county" (PyStr "未知縣市"))
        (dict_get d "aqi" (PyStr "N/A"))
        level
        (dict_get d "status" (PyStr "N/A"))
        (dict_get d "pollutant" (PyStr "N/A"))
        (dict_get d "latitude" (PyInt 0))
        (dict_get d "longitude" (PyInt 0))
        distance
        (dict_get d "publishtime" (PyStr "N/A")).

(** A planar point with finite easting and northing. *)
Definition finite_point (p : float * float) : Prop :=
  is_finite (fst p) = true /\ is_finite (snd p) = true.

(** What it would mean for the distance computation to be total over all
    finite inputs: whenever the station and the reference are projected to
    finite points, the method returns a distance and reports no error. *)
Definition distance_total_on_finite_points : Prop :=
  forall (libm_pow2 : float -> float)
         (transform : pyval -> pyval -> result (coord * coord))
         (lat lon : pyval) (w : world) (p r : float * float),
    never_negative libm_pow2 ->
    transform lat lon = Ok (scalars p) ->
    taipei_station_twd97 (self w) = Some (scalars r) ->
    finite_point p -> finite_point r ->
    exists d, calculate_distance_twd97 libm_pow2 transform lat lon w
              = (Ok (Some d), add_call lat lon w).

(** The part of a decoded response that [fetch_aqi_data] takes as the
    station data: a list itself, the ['value'] entry of a dict. *)
Definition response_payload (data : pyval) : option pyval :=
  match data with
  | PyList _ => Some data
  | PyDict d => d !! "value"
  | _ => None
  end.

(** The distance column of a station, as a function of the C library, of
    the transformer and of the cached reference: absent when the projection
    fails, when the reference is absent, when a coordinate is a list, or
    when the arithmetic raises. *)
Definition station_distance (libm_pow2 : float -> float)
    (transform : pyval -> pyval -> result (coord * coord))
    (ref : option (coord * coord)) (lat lon : pyval) : option float :=
  match transform lat lon with
  | Raise _ => None
  | Ok p =>
      match distance_of libm_pow2 p ref with
      | Ok d => Some d
      | Raise _ => None
      end
  end.

(** The row that the export writes for one element of the station data, if
    any: none for what is not a record, none when the level of the record
    cannot be computed. *)
Definition export_row (libm_pow2 : float -> float)
    (transform : pyval -> pyval -> result (coord * coord))
    (ref : option (coord * coord)) (station : pyval) : option csv_row :=
  match station with
  | PyDict d =>
      match get_aqi_level (dict_get d "aqi" (PyStr "N/A")) with
      | Ok level =>
          Some (station_row d
                  (station_distance libm_pow2 transform ref
                     (dict_get d "latitude" (PyInt 0))
                     (dict_get d "longitude" (PyInt 0)))
                  level)
      | Raise _ => None
      end
  | _ => None
  end.

Definition export_rows (libm_pow2 : float -> float)
    (transform : pyval -> pyval -> result (coord * coord))
    (ref : option (coord * coord)) (stations : list pyval) : list csv_row :=
  omap (export_row libm_pow2 transform ref) stations.

(** What reaches the file of an export, and the exception of the writer
    when it raises: no row is handed to the writer when there is none. *)
Definition csv_outcome
    (csv_writer : string -> list csv_row -> option (exn * list csv_row))
    (filename : string) (rows : list csv_row) : list csv_row * option exn :=
  match rows with
  | [] => ([], None)
  | _ :: _ =>
      match csv_writer filename rows with
      | None => (rows, None)
      | Some (e, written) => (written, Some e)
      end
  end.

(** What it would mean for a transform failure never to cost a record its
    row: whatever else the record holds, a turn of the export loop on a
    record whose projection fails appends a row without a distance. *)
Definition failed_projection_keeps_row : Prop :=
  forall (libm_pow2 : float -> float)
         (transform : pyval -> pyval -> result (coord * coord))
         (d : gmap string pyval) (e : exn)
         (csv_data : list csv_row) (w : world),
    transform (dict_get d "latitude" (PyInt 0))
              (dict_get d "longitude" (PyInt 0)) = Raise e ->
    exists row,
      fst (export_station libm_pow2 transform csv_data (PyDict d) w)
      = Ok (csv_data ++ [row])%list /\
      row_distance row = None.



(** The circle markers among the elements of a map, in order. *)
Definition markers_of (m : list element) : list marker :=
  omap (fun el => match el with CircleMarker mk => Some mk | _ => None end) m.

(** A station on which a turn of the marker loop completes, with or
    without a marker, whatever the loop variables and the world are. *)
Definition renders (folium_CircleMarker : marker -> result unit)
    (station : pyval) : Prop :=
  forall st w, exists st' w',
    map_station folium_CircleMarker st station w = (Ok st', w').

(* ===================================================================== *)
(** * A test environment                                                  *)
(* ===================================================================== *)

(** Stand-ins for the outside of the program, for running the methods on
    concrete stations.  [flat_transform] takes the place of the projection
    library: like it, it converts each scalar with [float()] and rejects
    what does not convert; the projection itself is a plain scaling of
    degrees to metres around 121 degrees east, not TM2. *)
Module TestEnv.

(** A C library whose [pow(a, 2.0)] is the correctly rounded square. *)
Definition libm_pow2 (a : float) : float := (a * a)%float.

(** A C library whose [pow(a, 2.0)] is, at one argument, the float next
    above the correctly rounded square. *)
Definition one_ulp_pow2 (a : float) : float :=
  if (a =? 25312.552660986054)%float then next_up (a * a)
  else (a * a)%float.

Definition getenv (name : string) : option string :=
  if String.eqb name "AQI_API_KEY" then Some "test-key" else None.

Definition flat_transform (lat lon : pyval) : result (coord * coord) :=
  match py_float lat, py_float lon with
  | Ok la, Ok lo =>
      Ok (Scalar (250000 + (lo - 121) * 101751)%float,
          Scalar (la * 110751)%float)
  | _, _ => Raise TypeError
  end.

(** A transformer that places every station on a given planar point. *)
Definition const_transform (p : float * float) (lat lon : pyval)
  : result (coord * coord) := Ok (scalars p).

(** A transformer that answers every argument with a list. *)
Definition list_transform (lat lon : pyval) : result (coord * coord) :=
  Ok (Sequence [250000%float], Sequence [2770000%float]).

Definition keelung_record : gmap string pyval :=
  <["sitename" := PyStr "Keelung"]>
  (<["county" := PyStr "Keelung City"]>
  (<["aqi" := PyStr "45"]>
  (<["latitude" := PyStr "25.129167"]>
  (<["longitude" := PyStr "121.760056"]> ∅)))).

(** A station whose coordinates are missing ([null] in the JSON). *)
Definition no_coordinates_record : gmap string pyval :=
  <["sitename" := PyStr "Offline"]>
  (<["aqi" := PyStr "75"]>
  (<["latitude" := PyNone]>
  (<["longitude" := PyNone]> ∅))).

(** A station reported at latitude 0. *)
Definition zero_latitude_record : gmap string pyval :=
  <["sitename" := PyStr "Unplaced"]>
  (<["aqi" := PyStr "30"]>
  (<["latitude" := PyStr "0"]>
  (<["longitude" := PyStr "121.5"]> ∅))).

(** A station without coordinates whose AQI is [Infinity] in the JSON. *)
Definition infinite_aqi_record : gmap string pyval :=
  <["sitename" := PyStr "Overrange"]>
  (<["aqi" := PyFloat infinity]>
  (<["latitude" := PyNone]>
  (<["longitude" := PyNone]> ∅))).




Definition stations : list pyval :=
  [PyDict keelung_record; PyDict no_coordinates_record;
   PyDict zero_latitude_record].

Definition requests_get_json (url : string) (key : option string)
  : result pyval :=
  Ok (PyList stations).

Definition now : string := "20240101_120000".
Definition makedirs (path : string) : result unit := Ok tt.
Definition open_w (path : string) : result unit := Ok tt.
Definition folium_save (path : string) : result unit := Ok tt.

(** A writer that writes every row, and one that raises after the header
    (the disk is full). *)
Definition csv_writer (path : string) (rows : list csv_row)
  : option (exn * list csv_row) := None.

Definition full_disk (path : string) (rows : list csv_row)
  : option (exn * list csv_row) := Some (OSError, []).

(** The map library refuses a location that holds a NaN. *)
Definition folium_CircleMarker (mk : marker) : result unit :=
  if is_nan (fst (mk_location mk)) || is_nan (snd (mk_location mk))
  then Raise ValueError else Ok tt.

Definition blank : Generator :=
  mkGenerator None "" PyNone (0, 0)%float None.

Definition world0 : world := mkWorld blank [] [] [] [].

(** A generator whose cached reference projection is [r]. *)
Definition world_with_reference (r : option (float * float)) : world :=
  mkWorld (mkGenerator (Some "test-key") "" PyNone
                       (25.0478, 121.5170)%float (option_map scalars r))
          [] [] [] [].

(** The world after [AQIMapGenerator()]. *)
Definition world1 : world := snd (__init__ getenv flat_transform world0).

(** The world after [fetch_aqi_data()]. *)
Definition world2 : world := snd (fetch_aqi_data requests_get_json world1).

(** A request that fails, and responses without usable station data. *)
Definition failing_request (url : string) (key : option string)
  : result pyval := Raise RequestException.

Definition empty_response (url : string) (key : option string)
  : result pyval := Ok (PyDict ∅).

Definition number_response (url : string) (key : option string)
  : result pyval := Ok (PyDict (<["value" := PyInt 5]> ∅)).

(** A disk that cannot be written. *)
Definition read_only (path : string) : result unit := Raise OSError.

(** An environment without the API key. *)
Definition no_key (name : string) : option string := None.

(** The stations that have coordinates. *)
Definition placed_stations : list pyval :=
  [PyDict keelung_record; PyDict zero_latitude_record].

Definition placed_request (url : string) (key : option string)
  : result pyval := Ok (PyList placed_stations).

(** The world after a fetch that delivered the placed stations. *)
Definition world_placed : world :=
  snd (fetch_aqi_data placed_request world1).

(** A generator that holds the stations but whose reference projection
    failed at construction. *)
Definition world_without_reference : world :=
  mkWorld (mkGenerator (Some "test-key") "" (PyList stations)
                       (25.0478, 121.5170)%float None) [] [] [] [].

End TestEnv.

(* ===================================================================== *)
(** * Properties of the classifier                                        *)
(* ===================================================================== *)

Section Classifier.

(** On an integer the classifier is the threshold cascade. *)
Lemma classify_int (v : Z) :
  classify (PyInt v) =
    if v <=? 50 then (Ok "#00E400", Ok "良好")
    else if v <=? 100 then (Ok "#FFFF00", Ok "普通")
    else (Ok "#FF0000", Ok "不健康").
Proof.
  unfold classify, get_aqi_color, get_aqi_level; simpl.
  destruct (v <=? 50); [reflexivity|].
  destruct (v <=? 100); reflexivity.
Qed.

(** When [int()] fails with [ValueError] or [TypeError], both methods
    return the sentinel. *)
Lemma classify_parse_failure (v : pyval) (e : exn) :
  py_int v = Raise e ->
  is_ValueError_or_TypeError e = true ->
  classify v = (Ok "#808080", Ok "數據異常").
Proof.
  intros Hint Hcaught.
  unfold classify, get_aqi_color, get_aqi_level.
  rewrite Hint, Hcaught; reflexivity.
Qed.

(** [int()] raises [OverflowError] on the infinite floats only, and
    nothing besides [ValueError], [TypeError] and [OverflowError]. *)
Lemma py_int_raises (v : pyval) (e : exn) :
  py_int v = Raise e ->
  is_ValueError_or_TypeError e = true \/
  (e = OverflowError /\ exists f, v = PyFloat f /\ is_infinity f = true).
Proof.
  destruct v as [| b | z | f | s | l | d]; simpl; intros H;
    try (inversion H; subst; left; reflexivity).
  - destruct (is_nan f); [inversion H; left; reflexivity|].
    destruct (is_infinity f) eqn:Hinf; [|discriminate].
    inversion H; right; eauto.
  - destruct (int_of_string s); [discriminate|].
    inversion H; left; reflexivity.
Qed.

(** The classifier raises exactly on the infinite floats. *)
Lemma get_aqi_color_raises (v : pyval) (e : exn) :
  get_aqi_color v = Raise e <->
  e = OverflowError /\ exists f, v = PyFloat f /\ is_infinity f = true /\ is_nan f = false.
Proof.
  unfold get_aqi_color; split.
  - destruct (py_int v) as [z | e'] eqn:Hint.
    + repeat case_match; discriminate.
    + destruct (py_int_raises _ _ Hint) as [Hc | (-> & f & -> & Hinf)].
      * rewrite Hc; discriminate.
      * simpl. intros [= <-]. split; [reflexivity|].
        exists f; repeat split; [assumption|].
        simpl in Hint. destruct (is_nan f); [discriminate | reflexivity].
  - intros (-> & f & -> & Hinf & Hnan); simpl.
    rewrite Hnan, Hinf; reflexivity.
Qed.

Lemma get_aqi_level_raises (v : pyval) (e : exn) :
  get_aqi_level v = Raise e <-> get_aqi_color v = Raise e.
Proof.
  unfold get_aqi_level, get_aqi_color.
  destruct (py_int v) as [z | e'].
  - repeat case_match; split; discriminate.
  - destruct (is_ValueError_or_TypeError e'); split; congruence.
Qed.

(** C2. For every integer AQI value the pair of colour and level follows
    the three-tier table with inclusive upper bounds: 0..50 is green and
    "良好" (good), 51..100 is yellow and "普通" (moderate), 101 and above
    is red and "不健康" (unhealthy); so 25, 75 and 150 fall in the three
    tiers in turn. *)
Theorem classify_thresholds (v : Z) :
  (0 <= v <= 50 -> classify (PyInt v) = (Ok "#00E400", Ok "良好")) /\
  (51 <= v <= 100 -> classify (PyInt v) = (Ok "#FFFF00", Ok "普通")) /\
  (101 <= v -> classify (PyInt v) = (Ok "#FF0000", Ok "不健康")) /\
  classify (PyInt 25) = (Ok "#00E400", Ok "良好") /\
  classify (PyInt 75) = (Ok "#FFFF00", Ok "普通") /\
  classify (PyInt 150) = (Ok "#FF0000", Ok "不健康").
Proof.
  rewrite !classify_int.
  repeat split; try reflexivity; intros Hv.
  - destruct (Z.leb_spec v 50); [reflexivity | lia].
  - destruct (Z.leb_spec v 50); [lia|].
    destruct (Z.leb_spec v 100); [reflexivity | lia].
  - destruct (Z.leb_spec v 50); [lia|].
    destruct (Z.leb_spec v 100); [lia | reflexivity].
Qed.

(** C10. There is no lower bound: every negative integer is classified
    in the lowest tier, green and "良好" (good), not as abnormal data. *)
Theorem classify_negative (v : Z) :
  v < 0 -> classify (PyInt v) = (Ok "#00E400", Ok "良好").
Proof.
  intros Hv. rewrite classify_int.
  destruct (Z.leb_spec v 50); [reflexivity | lia].
Qed.

(** C3. On the float infinity, which a JSON document decodes to from
    [Infinity] or [1e999], [int()] raises [OverflowError]; neither method
    catches it, so classification raises instead of returning a pair.
    [None], the empty string and "N/A" give the sentinel pair. *)
Theorem classify_infinity_raises :
  classify (PyFloat infinity) = (Raise OverflowError, Raise OverflowError) /\
  classify (PyFloat neg_infinity)
= (Raise OverflowError, Raise OverflowError) /\
  classify PyNone = (Ok "#808080", Ok "數據異常") /\
  classify (PyStr "") = (Ok "#808080", Ok "數據異常") /\
  classify (PyStr "N/A") = (Ok "#808080", Ok "數據異常").
Proof. repeat split; vm_compute; reflexivity. Qed.

End Classifier.

(** The three tiers at their boundary values 50, 51 and 101. *)
Lemma classify_thresholds_witness :
  classify (PyInt 50) = (Ok "#00E400", Ok "良好") /\
  classify (PyInt 51) = (Ok "#FFFF00", Ok "普通") /\
  classify (PyInt 101) = (Ok "#FF0000", Ok "不健康").
Proof.
  split; [|split].
  - apply (proj1 (classify_thresholds 50)); lia.
  - apply (proj1 (proj2 (classify_thresholds 51))); lia.
  - apply (proj1 (proj2 (proj2 (classify_thresholds 101)))); lia.
Defined.

(** An AQI of -7 is classified as good. *)
Lemma classify_negative_witness :
  classify (PyInt (-7)) = (Ok "#00E400", Ok "良好").
Proof. apply (classify_negative (-7)); lia. Defined.

(* ===================================================================== *)
(** * Properties of the projection wrapper and of the distance            *)
(* ===================================================================== *)

(** Unfolds the monad's operations in the goal. *)
Ltac run_M :=
  unfold try_except, mbind, M_bind, mret, M_ret, lift, raise, print,
    get_self, modify_self, pass, when_, Exception; simpl.

Section Projection.

Variable libm_pow2 : float -> float.
Variable transform : pyval -> pyval -> result (coord * coord).

(** What one call of [wgs84_to_twd97] returns and does. *)
Lemma wgs84_to_twd97_run (lat lon : pyval) (w : world) :
  wgs84_to_twd97 transform lat lon w =
    match transform lat lon with
    | Ok p => (Ok (Some p), add_call lat lon w)
    | Raise e =>
        (Ok None,
         add_line [Text "坐標轉換錯誤: "; Exc e] (add_call lat lon w))
    end.
Proof.
  unfold wgs84_to_twd97, call_transform; run_M.
  destruct (transform lat lon) as [[x y] | e]; reflexivity.
Qed.

(** On two planar points the expression of the method is the formula. *)
Lemma distance_of_scalars (a b : float * float) :
  distance_of libm_pow2 (scalars a) (Some (scalars b))
  = distance_km libm_pow2 a b.
Proof. reflexivity. Qed.

(** A list has no subtraction: with a list for the first coordinate the
    expression raises [TypeError]. *)
Lemma distance_of_sequence (l : list float) (c : coord)
    (ref : option (coord * coord)) :
  distance_of libm_pow2 (Sequence l, c) ref = Raise TypeError.
Proof. destruct ref as [[tx ty] |]; reflexivity. Qed.

(** What one call of [calculate_distance_twd97] returns and does. *)
Lemma calculate_distance_twd97_run (lat lon : pyval) (w : world) :
  calculate_distance_twd97 libm_pow2 transform lat lon w =
    match transform lat lon with
    | Raise e =>
        (Ok None,
         add_line [Text "坐標轉換錯誤: "; Exc e] (add_call lat lon w))
    | Ok p =>
        match distance_of libm_pow2 p (taipei_station_twd97 (self w)) with
        | Ok d => (Ok (Some d), add_call lat lon w)
        | Raise e =>
            (Ok None,
             add_line [Text "距離計算錯誤: "; Exc e] (add_call lat lon w))
        end
    end.
Proof.
  unfold calculate_distance_twd97, try_except, mbind, M_bind.
  rewrite wgs84_to_twd97_run.
  destruct (transform lat lon) as [[sx sy] | e]; [|reflexivity].
  run_M. unfold distance_of.
  destruct (taipei_station_twd97 (self w)) as [[tx ty] |]; [|reflexivity].
  simpl.
  destruct (py_sub sx tx) as [dx | e0]; [|reflexivity]; simpl.
  destruct (py_pow2 libm_pow2 dx) as [dx2 | e1]; [|reflexivity]; simpl.
  destruct (py_sub sy ty) as [dy | e2]; [|reflexivity]; simpl.
  destruct (py_pow2 libm_pow2 dy) as [dy2 | e3]; [|reflexivity]; simpl.
  destruct (math_sqrt (dx2 + dy2)) as [metres | e4]; reflexivity.
Qed.

(** The method never raises: it returns a distance or [None]. *)
Lemma calculate_distance_twd97_returns (lat lon : pyval) (w : world) :
  exists r, fst (calculate_distance_twd97 libm_pow2 transform lat lon w) = Ok r.
Proof.
  rewrite calculate_distance_twd97_run.
  repeat case_match; eauto.
Qed.

(** Coordinates that are lists (JSON arrays), which the projection library
    answers with lists, get no distance: the subtraction raises. *)
Lemma calculate_distance_twd97_sequence (lat lon : pyval) (w : world)
    (l : list float) (c : coord) :
  transform lat lon = Ok (Sequence l, c) ->
  calculate_distance_twd97 libm_pow2 transform lat lon w
  = (Ok None,
     add_line [Text "距離計算錯誤: "; Exc TypeError] (add_call lat lon w)).
Proof.
  intros Hproj.
  rewrite calculate_distance_twd97_run, Hproj, distance_of_sequence.
  reflexivity.
Qed.

(** C4, as the code has it. When the transform fails with [e], the
    wrapper prints the error and returns a bare [None]; the cause [e]
    goes to standard output only. *)
Theorem wgs84_to_twd97_failure_returns_None
    (lat lon : pyval) (w : world) (e : exn) :
  transform lat lon = Raise e ->
  wgs84_to_twd97 transform lat lon w
    = (Ok None, add_line [Text "坐標轉換錯誤: "; Exc e] (add_call lat lon w)).
Proof.
  intros Hfail. rewrite wgs84_to_twd97_run, Hfail. reflexivity.
Qed.

End Projection.

(** C4, refuted as stated. Two different points that fail with different
    causes give the same returned value, so the value cannot carry the
    point and the cause. *)
Lemma wgs84_to_twd97_failure_has_no_payload :
  ~ failure_carries_point_and_cause.
Proof.
  intros [recover Hrec].
  destruct (Hrec (fun _ _ => Raise TypeError) PyNone PyNone TypeError
                 TestEnv.world0 eq_refl) as (r1 & Hr1 & H1).
  destruct (Hrec (fun _ _ => Raise ValueError) (PyStr "x") PyNone ValueError
                 TestEnv.world0 eq_refl) as (r2 & Hr2 & H2).
  rewrite wgs84_to_twd97_run in Hr1, Hr2. simpl in Hr1, Hr2.
  inversion Hr1; inversion Hr2; subst.
  rewrite H1 in H2. discriminate.
Qed.

(** Projecting missing coordinates in the test environment. *)
Lemma wgs84_to_twd97_failure_returns_None_witness :
  wgs84_to_twd97 TestEnv.flat_transform PyNone PyNone TestEnv.world0
  = (Ok None,
     add_line [Text "坐標轉換錯誤: "; Exc TypeError]
              (add_call PyNone PyNone TestEnv.world0)).
Proof.
  apply (wgs84_to_twd97_failure_returns_None TestEnv.flat_transform
           PyNone PyNone TestEnv.world0 TypeError).
  reflexivity.
Defined.

(** A station whose coordinates are JSON arrays gets no distance. *)
Lemma calculate_distance_twd97_on_lists :
  calculate_distance_twd97 TestEnv.libm_pow2 TestEnv.list_transform
    (PyList [PyFloat 25.13]) (PyList [PyFloat 121.76]) TestEnv.world1
  = (Ok None,
     add_line [Text "距離計算錯誤: "; Exc TypeError]
       (add_call (PyList [PyFloat 25.13]) (PyList [PyFloat 121.76])
          TestEnv.world1)).
Proof.
  apply (calculate_distance_twd97_sequence TestEnv.libm_pow2
           TestEnv.list_transform _ _ _ [250000%float]
           (Sequence [2770000%float])).
  reflexivity.
Qed.

(* ===================================================================== *)
(** * Facts of binary64 arithmetic                                        *)
(* ===================================================================== *)

Section FloatFacts.

Local Abbreviation bra := (binary_round_aux prec emax).

Lemma shr_1_nonneg (mrs : shr_record) :
  0 <= shr_m mrs -> 0 <= shr_m (shr_1 mrs).
Proof.
  destruct mrs as [m r s]; simpl.
  destruct m as [| [p | p |] | p]; simpl; lia.
Qed.

Lemma iter_pos_shr_1_nonneg (p : positive) :
  forall mrs, 0 <= shr_m mrs -> 0 <= shr_m (SpecFloat.iter_pos shr_1 p mrs).
Proof.
  induction p as [p IH | p IH |]; simpl; intros mrs Hm.
  - apply IH, IH, shr_1_nonneg, Hm.
  - apply IH, IH, Hm.
  - apply shr_1_nonneg, Hm.
Qed.

Lemma shr_fexp_nonneg (m e : Z) (l : location) :
  0 <= m -> 0 <= shr_m (fst (shr_fexp prec emax m e l)).
Proof.
  intros Hm. unfold shr_fexp, shr.
  assert (Hrec : 0 <= shr_m (shr_record_of_loc m l))
    by (destruct l as [| []]; exact Hm).
  destruct (fexp prec emax (Zdigits2 m + e) - e); simpl; try exact Hrec.
  apply iter_pos_shr_1_nonneg, Hrec.
Qed.

Lemma round_nearest_even_nonneg (m : Z) (l : location) :
  0 <= m -> 0 <= round_nearest_even m l.
Proof.
  intros Hm. destruct l as [| []]; simpl; try lia.
  destruct (Z.even m); lia.
Qed.

(** Rounding a non-negative mantissa gives a zero, a finite number or an
    infinity of the requested sign, never NaN. *)
Lemma binary_round_aux_sign (s : bool) (m e : Z) (l : location) :
  0 <= m ->
  match bra s m e l with
  | S754_nan => False
  | S754_zero s' | S754_infinity s' | S754_finite s' _ _ => s' = s
  end.
Proof.
  intros Hm. unfold binary_round_aux.
  pose proof (shr_fexp_nonneg m e l Hm) as H1.
  destruct (shr_fexp prec emax m e l) as [mrs' e']; simpl in H1.
  pose proof (shr_fexp_nonneg
                (round_nearest_even (shr_m mrs') (loc_of_shr_record mrs'))
                e' loc_Exact (round_nearest_even_nonneg _ _ H1)) as H2.
  destruct (shr_fexp prec emax _ e' loc_Exact) as [mrs'' e'']; simpl in H2.
  destruct (shr_m mrs''); [reflexivity | | lia].
  destruct (e'' <=? emax - prec); reflexivity.
Qed.

(** The tests of the primitive floats, read on the specification. *)
Lemma is_nan_spec (x : float) :
  is_nan x = match Prim2SF x with S754_nan => true | _ => false end.
Proof.
  unfold Prim2SF. destruct (is_nan x); [reflexivity|].
  destruct (is_zero x); [reflexivity|].
  destruct (is_infinity x); [reflexivity|].
  destruct (Z.frexp x) as [r ex].
  destruct (shr_fexp prec emax _ _ _) as [mrs e'].
  destruct (shr_m mrs); reflexivity.
Qed.

Lemma is_infinity_spec (x : float) :
  is_infinity x = match Prim2SF x with S754_infinity _ => true | _ => false end.
Proof.
  unfold is_infinity. rewrite FloatAxioms.eqb_spec, abs_spec.
  change (Prim2SF infinity) with (S754_infinity false).
  destruct (Prim2SF x) as [s | s | | s m e]; reflexivity.
Qed.

Lemma is_finite_spec (x : float) :
  is_finite x = true ->
  (exists s, Prim2SF x = S754_zero s) \/
  (exists s m e, Prim2SF x = S754_finite s m e).
Proof.
  unfold is_finite. rewrite is_nan_spec, is_infinity_spec.
  destruct (Prim2SF x) as [s | s | | s m e]; simpl; try discriminate; eauto.
Qed.

(** [x == 0.0] holds of the two zeros only. *)
Lemma eqb_zero_spec (x : float) :
  (x =? 0)%float = match Prim2SF x with S754_zero _ => true | _ => false end.
Proof.
  rewrite FloatAxioms.eqb_spec. change (Prim2SF 0) with (S754_zero false).
  destruct (Prim2SF x) as [s | s | | s m e]; try reflexivity;
    destruct s; reflexivity.
Qed.

(** A finite float minus itself is [+0]. *)
Lemma sub_diag_finite (x : float) :
  is_finite x = true -> (x - x)%float = 0%float.
Proof.
  intros Hfin. apply Prim2SF_inj. rewrite sub_spec.
  change (Prim2SF 0) with (S754_zero false).
  destruct (is_finite_spec x Hfin) as [[s ->] | (s & m & e & ->)].
  - destruct s; reflexivity.
  - unfold SF64sub, SFsub. rewrite Z.sub_diag. reflexivity.
Qed.

Lemma SF64mul_diag_nonneg (a : spec_float) :
  sf_nonneg (SF64mul a a) = true.
Proof.
  destruct a as [s | s | | s m e];
    [destruct s; reflexivity | destruct s; reflexivity | reflexivity |].
  unfold SF64mul, SFmul. rewrite xorb_nilpotent.
  pose proof (binary_round_aux_sign false (Z.pos (m * m)) (e + e) loc_Exact
                ltac:(lia)) as H.
  destruct (bra false _ _ _); simpl; try rewrite H; try reflexivity.
Qed.

Lemma SF64add_nonneg (a b : spec_float) :
  sf_nonneg a = true -> sf_nonneg b = true -> sf_nonneg (SF64add a b) = true.
Proof.
  destruct a as [[] | [] | | [] ma ea]; try discriminate;
    destruct b as [[] | [] | | [] mb eb]; try discriminate;
    intros _ _; try reflexivity.
  unfold SF64add, SFadd, cond_Zopp, binary_normalize, binary_round. simpl.
  destruct (shl_align _ _ _) as [mz ez].
  pose proof (binary_round_aux_sign false (Z.pos mz) ez loc_Exact
                ltac:(lia)) as H.
  destruct (bra false _ _ _); simpl; try rewrite H; try reflexivity.
Qed.

Lemma SF64sqrt_nonneg_not_nan (a : spec_float) :
  sf_nonneg a = true -> a <> S754_nan -> SF64sqrt a <> S754_nan.
Proof.
  destruct a as [[] | [] | | [] m e]; try discriminate; try congruence.
  intros _ _. unfold SF64sqrt, SFsqrt.
  destruct (SFsqrt_core_binary prec emax (Z.pos m) e) as [[mz ez] lz] eqn:Hcore.
  assert (Hmz : 0 <= mz).
  { unfold SFsqrt_core_binary in Hcore.
    set (sh := e - 2 * _) in Hcore.
    set (m' := match sh with Z.pos _ => Z.shiftl (Z.pos m) sh | 0 => Z.pos m | Z.neg _ => 0 end) in Hcore.
    assert (Hm' : 0 <= m').
    { subst m'. destruct sh; try lia. apply Z.shiftl_nonneg. lia. }
    pose proof (Z.sqrtrem_spec m' Hm') as Hs.
    destruct (Z.sqrtrem m') as [q r]. inversion Hcore; subst. lia. }
  pose proof (binary_round_aux_sign false mz ez lz Hmz) as H.
  destruct (bra false mz ez lz); try discriminate. contradiction.
Qed.

(** A float that is not below zero has no negative specification. *)
Lemma ltb_zero_nonneg (v : float) :
  (v <? 0)%float = false -> sf_nonneg (Prim2SF v) = true.
Proof.
  rewrite ltb_spec. change (Prim2SF 0) with (S754_zero false).
  destruct (Prim2SF v) as [s | [] | | [] m e]; try reflexivity; discriminate.
Qed.

Lemma nonneg_ltb_zero (v : float) :
  sf_nonneg (Prim2SF v) = true -> (v <? 0)%float = false.
Proof.
  rewrite ltb_spec. change (Prim2SF 0) with (S754_zero false).
  destruct (Prim2SF v) as [s | [] | | [] m e]; try reflexivity; discriminate.
Qed.

(** The magnitude of a float whose magnitude equals [1.0] is [1.0]. *)
Lemma eqb_one_eq (a : float) : (a =? 1)%float = true -> a = 1%float.
Proof.
  rewrite FloatAxioms.eqb_spec. intros H. apply Prim2SF_inj.
  change (Prim2SF 1) with (S754_finite false 4503599627370496 (-52)) in *.
  destruct (Prim2SF a) as [s | [] | | [] m e]; try discriminate.
  unfold SFeqb, SFcompare in H.
  destruct (Z.compare_spec e (-52)) as [He | |]; try discriminate.
  subst e.
  rewrite Pos.compare_cont_spec in H. simpl in H.
  destruct (Pos.compare_spec m 4503599627370496) as [Hm | |];
    try discriminate.
  subst m. reflexivity.
Qed.

Section Libm.

Variable libm_pow2 : float -> float.

(** What [x ** 2] is, for a finite base: [0.0] and [1.0] where the
    interpreter answers itself, the C library's value otherwise. *)
Lemma py_pow2_finite (x : float) :
  is_finite x = true ->
  py_pow2 libm_pow2 x =
    if (x =? 0)%float then Ok 0%float
    else if (abs x =? 1)%float then Ok 1%float
    else if is_infinity (libm_pow2 (abs x)) then Raise OverflowError
    else Ok (libm_pow2 (abs x)).
Proof.
  unfold is_finite, py_pow2. intros H.
  destruct (is_nan x); [discriminate|].
  destruct (is_infinity x); [discriminate|]. reflexivity.
Qed.

(** With a C library that is exact at zero and at one, the square of a
    finite base is the C library's value, or an overflow. *)
Lemma py_pow2_libm (x : float) :
  libm_pow2 0 = 0%float -> libm_pow2 1 = 1%float ->
  is_finite x = true ->
  py_pow2 libm_pow2 x =
    if is_infinity (libm_pow2 (abs x)) then Raise OverflowError
    else Ok (libm_pow2 (abs x)).
Proof.
  intros H0 H1 Hfin. rewrite (py_pow2_finite x Hfin).
  destruct (x =? 0)%float eqn:Hzero.
  - assert (Habs : abs x = 0%float).
    { apply Prim2SF_inj. rewrite abs_spec. rewrite eqb_zero_spec in Hzero.
      destruct (Prim2SF x); try discriminate. reflexivity. }
    rewrite Habs, H0. reflexivity.
  - destruct (abs x =? 1)%float eqn:Hone; [|reflexivity].
    rewrite (eqb_one_eq _ Hone), H1. reflexivity.
Qed.

(** Squaring raises nothing but [OverflowError], when the C library's
    value is infinite. *)
Lemma py_pow2_raises (x : float) (e : exn) :
  py_pow2 libm_pow2 x = Raise e ->
  e = OverflowError /\ is_infinity (libm_pow2 (abs x)) = true.
Proof.
  unfold py_pow2.
  destruct (is_nan x); [discriminate|].
  destruct (is_infinity x); [discriminate|].
  destruct (x =? 0)%float; [discriminate|].
  destruct (abs x =? 1)%float; [discriminate|].
  destruct (is_infinity (libm_pow2 (abs x))); [|discriminate].
  intros [= <-]. split; reflexivity.
Qed.

Lemma py_pow2_no_overflow (x : float) :
  is_infinity (libm_pow2 (abs x)) = false ->
  exists u, py_pow2 libm_pow2 x = Ok u.
Proof.
  intros H. unfold py_pow2. rewrite H.
  repeat case_match; eauto.
Qed.

(** The distance of a finite point to itself, with any C library: the
    interpreter squares zero itself. *)
Lemma distance_km_diag (p : float * float) :
  finite_point p -> distance_km libm_pow2 p p = Ok 0%float.
Proof.
  intros [Hx Hy]. unfold distance_km.
  rewrite (sub_diag_finite _ Hx), (sub_diag_finite _ Hy).
  reflexivity.
Qed.

Hypothesis libm_never_negative : never_negative libm_pow2.

(** The result of [x ** 2], when there is one, is not negative. *)
Lemma py_pow2_nonneg (x u : float) :
  py_pow2 libm_pow2 x = Ok u -> sf_nonneg (Prim2SF u) = true.
Proof.
  unfold py_pow2.
  destruct (is_nan x) eqn:Hnan.
  - intros [= <-]. rewrite is_nan_spec in Hnan.
    destruct (Prim2SF x); try discriminate. reflexivity.
  - destruct (is_infinity x); [intros [= <-]; reflexivity|].
    destruct (x =? 0)%float; [intros [= <-]; reflexivity|].
    destruct (abs x =? 1)%float; [intros [= <-]; reflexivity|].
    destruct (is_infinity (libm_pow2 (abs x))); [discriminate|].
    intros [= <-]. apply ltb_zero_nonneg, libm_never_negative.
Qed.

(** [math.sqrt] does not raise on a sum of two squares. *)
Lemma math_sqrt_sum_of_squares (a b u v : float) :
  py_pow2 libm_pow2 a = Ok u -> py_pow2 libm_pow2 b = Ok v ->
  math_sqrt (u + v) = Ok (PrimFloat.sqrt (u + v)).
Proof.
  intros Hu Hv. unfold math_sqrt.
  destruct (is_nan (u + v)) eqn:Hsum; [rewrite andb_false_r; reflexivity|].
  assert (Hroot : is_nan (PrimFloat.sqrt (u + v)) = false).
  { rewrite is_nan_spec, sqrt_spec.
    rewrite is_nan_spec in Hsum.
    pose proof (SF64add_nonneg _ _ (py_pow2_nonneg _ _ Hu) (py_pow2_nonneg _ _ Hv))
    as Hnn.
    rewrite <- add_spec in Hnn.
    pose proof (SF64sqrt_nonneg_not_nan (Prim2SF (u + v)) Hnn) as Hnot.
    destruct (Prim2SF (u + v)); try discriminate;
      (destruct (SF64sqrt _); [reflexivity | reflexivity | | reflexivity];
       exfalso; apply Hnot; [discriminate | reflexivity]). }
  rewrite Hroot. reflexivity.
Qed.

(** The formula raises only when a square overflows. *)
Lemma distance_km_raises (a b : float * float) (e : exn) :
  distance_km libm_pow2 a b = Raise e ->
  e = OverflowError /\
  (is_infinity (libm_pow2 (abs (fst a - fst b))) = true \/
   is_infinity (libm_pow2 (abs (snd a - snd b))) = true).
Proof.
  unfold distance_km.
  destruct (py_pow2 libm_pow2 (fst a - fst b)) as [dx2 | e1] eqn:Hx.
  - destruct (py_pow2 libm_pow2 (snd a - snd b)) as [dy2 | e2] eqn:Hy.
    + rewrite (math_sqrt_sum_of_squares _ _ _ _ Hx Hy). discriminate.
    + intros [= <-]. apply py_pow2_raises in Hy as [-> Hy]. eauto.
  - intros [= <-]. apply py_pow2_raises in Hx as [-> Hx]. eauto.
Qed.

End Libm.

(** The correctly rounded square is never negative. *)
Lemma correctly_rounded_square_never_negative :
  never_negative TestEnv.libm_pow2.
Proof.
  intros a. apply nonneg_ltb_zero. unfold TestEnv.libm_pow2.
  rewrite mul_spec. apply SF64mul_diag_nonneg.
Qed.

(** The rounding of [num / den] is the nearest integer, the even one at a
    tie. *)
Lemma round_half_even_nearest (num den : Z) :
  0 <= num -> 0 < den ->
  0 <= round_half_even num den /\
  nearest_integer num den (round_half_even num den).
Proof.
  intros Hnum Hden. unfold round_half_even, nearest_integer.
  pose proof (Z.div_mod num den ltac:(lia)) as Hdm.
  pose proof (Z.mod_pos_bound num den Hden) as Hr.
  pose proof (Z.div_pos num den Hnum Hden) as Hq.
  set (q := num / den) in *. set (r := num mod den) in *.
  destruct (Z.compare_spec (2 * r) den) as [Heq | Hlt | Hgt].
  - destruct (Z.even q) eqn:Heven.
    + split; [lia|].
      replace (num - q * den) with r by lia.
      split; [lia | intros _; exact Heven].
    + split; [lia|].
      replace (num - (q + 1) * den) with (r - den) by lia.
      split; [lia|]. intros _.
      rewrite Z.even_add, Heven. reflexivity.
  - split; [lia|].
    replace (num - q * den) with r by lia. split; lia.
  - split; [lia|].
    replace (num - (q + 1) * den) with (r - den) by lia. split; lia.
Qed.

(** [round(x, 2)] rounds to two decimal places. *)
Lemma py_round2_rounds (x : float) : rounded_to_2_places x (py_round2 x).
Proof.
  unfold rounded_to_2_places, py_round2.
  destruct (Prim2SF x) as [s | s | | s m e]; try reflexivity.
  destruct (0 <=? e) eqn:He; [reflexivity|].
  apply Z.leb_gt in He.
  assert (Hden : 0 < 2 ^ (- e)) by (apply Z.pow_pos_nonneg; lia).
  destruct (round_half_even_nearest (Z.pos m * 100) (2 ^ (- e))
              ltac:(lia) Hden) as [Hk Hnear].
  exists (round_half_even (Z.pos m * 100) (2 ^ (- e))).
  split; [exact Hk|]. split.
  - replace (100 * Z.pos m) with (Z.pos m * 100) by lia. exact Hnear.
  - unfold hundredths.
    destruct (round_half_even _ _) as [| n | n].
    + destruct s; reflexivity.
    + unfold float_of_ratio, SF64div, SFdiv. rewrite xorb_false_r.
      destruct (SFdiv_core_binary prec emax (Z.pos n) 0 100 0)
        as [[q e'] l].
      reflexivity.
    + destruct s; reflexivity.
Qed.

(** Two decimal places leave no choice: the rounding is [round(x, 2)]. *)
Lemma rounded_to_2_places_unique (x d : float) :
  rounded_to_2_places x d -> d = py_round2 x.
Proof.
  unfold rounded_to_2_places, py_round2.
  destruct (Prim2SF x) as [s | s | | s m e]; try (intros ->; reflexivity).
  destruct (0 <=? e) eqn:He; [intros ->; reflexivity|].
  apply Z.leb_gt in He.
  assert (Hden : 0 < 2 ^ (- e)) by (apply Z.pow_pos_nonneg; lia).
  destruct (round_half_even_nearest (Z.pos m * 100) (2 ^ (- e))
              ltac:(lia) Hden) as [Hk' [Hn1' Hn2']].
  intros (k & Hk & [Hn1 Hn2] & ->).
  set (k' := round_half_even (Z.pos m * 100) (2 ^ (- e))) in *.
  set (den := 2 ^ (- e)) in *.
  replace (Z.pos m * 100) with (100 * Z.pos m) in * by lia.
  set (num := 100 * Z.pos m) in *.
  assert (Hkk : k = k').
  { assert (Hd : k = k' \/ k = k' + 1 \/ k' = k + 1) by nia.
    destruct Hd as [? | [-> | ->]]; [assumption | exfalso | exfalso].
    - assert (H1 : 2 * Z.abs (num - (k' + 1) * den) = den) by nia.
      assert (H2 : 2 * Z.abs (num - k' * den) = den) by nia.
      specialize (Hn2 H1). specialize (Hn2' H2).
      rewrite Z.even_add, Hn2' in Hn2. discriminate.
    - assert (H1 : 2 * Z.abs (num - (k + 1) * den) = den) by nia.
      assert (H2 : 2 * Z.abs (num - k * den) = den) by nia.
      specialize (Hn2 H2). specialize (Hn2' H1).
      rewrite Z.even_add, Hn2 in Hn2'. discriminate. }
  subst k. unfold hundredths.
  destruct k' as [| n | n].
  - destruct s; reflexivity.
  - unfold float_of_ratio, SF64div, SFdiv. rewrite xorb_false_r.
    destruct (SFdiv_core_binary prec emax (Z.pos n) 0 100 0) as [[q e'] l].
    reflexivity.
  - destruct s; reflexivity.
Qed.

End FloatFacts.

(* ===================================================================== *)
(** * The value of the distance, its totality, and the distance of a
      point to itself                                                     *)
(* ===================================================================== *)

Section Distance.

Variable libm_pow2 : float -> float.
Variable transform : pyval -> pyval -> result (coord * coord).

(** C1. When the projection of a station succeeds with the planar point
    [(x, y)] and the cached reference projection is [(xr, yr)], both
    differences being finite and their squares in range, the method
    returns the value of [round(sqrt((x - xr)^2 + (y - yr)^2) / 1000, 2)]
    and prints nothing: the squares are those of the C library, their sum
    and its square root are the binary64 ones (metres), the quotient by
    1000 is the binary64 one (kilometres), and the result is that
    quotient rounded to two decimal places.  Of the C library it is
    assumed that [pow(a, 2.0)] is [0.0] at [0.0], [1.0] at [1.0] and never
    negative. *)
Theorem calculate_distance_twd97_formula
    (lat lon : pyval) (w : world) (x y xr yr : float) :
  never_negative libm_pow2 ->
  libm_pow2 0 = 0%float -> libm_pow2 1 = 1%float ->
  transform lat lon = Ok (Scalar x, Scalar y) ->
  taipei_station_twd97 (self w) = Some (Scalar xr, Scalar yr) ->
  is_finite (x - xr) = true -> is_finite (y - yr) = true ->
  is_infinity (libm_pow2 (abs (x - xr))) = false ->
  is_infinity (libm_pow2 (abs (y - yr))) = false ->
  exists d,
    calculate_distance_twd97 libm_pow2 transform lat lon w
      = (Ok (Some d), add_call lat lon w) /\
    rounded_to_2_places
      (PrimFloat.sqrt (libm_pow2 (abs (x - xr)) + libm_pow2 (abs (y - yr)))
       / 1000)%float d.
Proof.
  intros Hneg H0 H1 Hproj Href Hfx Hfy Hox Hoy.
  pose proof (py_pow2_libm libm_pow2 (x - xr) H0 H1 Hfx) as Hx.
  pose proof (py_pow2_libm libm_pow2 (y - yr) H0 H1 Hfy) as Hy.
  rewrite Hox in Hx. rewrite Hoy in Hy.
  eexists. split.
  - rewrite calculate_distance_twd97_run, Hproj, Href.
    unfold distance_of. cbn [fst snd py_sub]. rewrite Hx, Hy.
    rewrite (math_sqrt_sum_of_squares libm_pow2 Hneg _ _ _ _ Hx Hy).
    reflexivity.
  - apply py_round2_rounds.
Qed.

(** C7, as the code has it. When neither squared coordinate difference
    overflows, the method returns a distance and prints nothing; the only
    error of the computation is the [OverflowError] of a square, which
    the method catches, prints and turns into [None].  (The C library's
    [pow(a, 2.0)] is never negative.) *)
Theorem calculate_distance_twd97_total
    (lat lon : pyval) (w : world) (x y xr yr : float) :
  never_negative libm_pow2 ->
  transform lat lon = Ok (Scalar x, Scalar y) ->
  taipei_station_twd97 (self w) = Some (Scalar xr, Scalar yr) ->
  (is_infinity (libm_pow2 (abs (x - xr))) = false ->
   is_infinity (libm_pow2 (abs (y - yr))) = false ->
   exists d, calculate_distance_twd97 libm_pow2 transform lat lon w
             = (Ok (Some d), add_call lat lon w)) /\
  (forall e, distance_km libm_pow2 (x, y) (xr, yr) = Raise e ->
     e = OverflowError /\
     calculate_distance_twd97 libm_pow2 transform lat lon w
     = (Ok None,
        add_line [Text "距離計算錯誤: "; Exc OverflowError]
                 (add_call lat lon w))).
Proof.
  intros Hneg Hproj Href.
  rewrite calculate_distance_twd97_run, Hproj, Href.
  change (distance_of libm_pow2 (Scalar x, Scalar y)
            (Some (Scalar xr, Scalar yr)))
    with (distance_km libm_pow2 (x, y) (xr, yr)).
  split.
  - intros Hx Hy.
    destruct (distance_km libm_pow2 (x, y) (xr, yr)) as [d | e] eqn:Hd;
      [eauto|].
    apply (distance_km_raises libm_pow2 Hneg) in Hd as [_ [H | H]];
      simpl in H; congruence.
  - intros e He.
    destruct (distance_km_raises libm_pow2 Hneg _ _ _ He) as [-> _].
    rewrite He. split; reflexivity.
Qed.

End Distance.

(** The last digit of a distance can depend on the last bit of a square:
    for a station 6464.54 m east and 25312.55 m north of the reference,
    the correctly rounded squares give 26.12 km, and a C library that is
    one unit in the last place above at the northing gives 26.13 km. *)
Lemma distance_depends_on_the_C_library :
  distance_km TestEnv.libm_pow2
    (6464.541962491072, 25312.552660986054)%float (0, 0)%float
  = Ok 26.12%float /\
  distance_km TestEnv.one_ulp_pow2
    (6464.541962491072, 25312.552660986054)%float (0, 0)%float
  = Ok 26.13%float.
Proof. split; vm_compute; reflexivity. Qed.

(** What the constructor returns and does: without an API key it raises
    [ValueError]; with one, it projects the reference point, once, and
    stores the result. *)
Lemma init_run (getenv : string -> option string)
    (transform : pyval -> pyval -> result (coord * coord)) (w : world)
    (k : string) :
  getenv "AQI_API_KEY" = Some k -> k <> "" ->
  exists w',
    __init__ getenv transform w = (Ok tt, w') /\
    self w' = mkGenerator (Some k) "https://data.moenv.gov.tw/api/v2/aqx_p_432"
                PyNone (25.0478, 121.5170)%float
                (match transform (PyFloat 25.0478) (PyFloat 121.5170) with
                 | Ok p => Some p
                 | Raise _ => None
                 end) /\
    proj_calls w' = (proj_calls w ++ [(PyFloat 25.0478, PyFloat 121.5170)])%list.
Proof.
  intros Hkey Hne.
  unfold __init__. rewrite Hkey. run_M.
  assert (Hk : String.eqb k "" = false) by (apply String.eqb_neq, Hne).
  rewrite Hk. simpl.
  rewrite wgs84_to_twd97_run. simpl.
  destruct (transform (PyFloat 25.0478) (PyFloat 121.5170)) as [p | e];
    eexists; repeat split.
Qed.

(** C8. The distance of a point to itself is zero, whatever the C library
    is: when the projection of a point is finite and is also the cached
    reference projection, the method returns 0.0; in particular, after
    construction, [calculate_distance_twd97(25.0478, 121.5170)] is 0.0. *)
Theorem self_distance_zero :
  (forall (libm_pow2 : float -> float)
          (transform : pyval -> pyval -> result (coord * coord))
          (lat lon : pyval) (w : world) (x y : float),
     transform lat lon = Ok (Scalar x, Scalar y) -> finite_point (x, y) ->
     taipei_station_twd97 (self w) = Some (Scalar x, Scalar y) ->
     calculate_distance_twd97 libm_pow2 transform lat lon w
     = (Ok (Some 0%float), add_call lat lon w)) /\
  (forall (libm_pow2 : float -> float)
          (getenv : string -> option string)
          (transform : pyval -> pyval -> result (coord * coord))
          (w : world) (k : string) (x y : float),
     getenv "AQI_API_KEY" = Some k -> k <> "" ->
     transform (PyFloat 25.0478) (PyFloat 121.5170)
       = Ok (Scalar x, Scalar y) ->
     finite_point (x, y) ->
     fst (calculate_distance_twd97 libm_pow2 transform (PyFloat 25.0478)
                                   (PyFloat 121.5170)
                                   (snd (__init__ getenv transform w)))
     = Ok (Some 0%float)).
Proof.
  split.
  - intros libm_pow2 transform lat lon w x y Hproj Hfin Href.
    rewrite calculate_distance_twd97_run, Hproj, Href.
    change (distance_of libm_pow2 (Scalar x, Scalar y)
              (Some (Scalar x, Scalar y)))
      with (distance_km libm_pow2 (x, y) (x, y)).
    rewrite (distance_km_diag libm_pow2 (x, y) Hfin). reflexivity.
  - intros libm_pow2 getenv transform w k x y Hkey Hne Hproj Hfin.
    destruct (init_run getenv transform w k Hkey Hne) as (w' & -> & Hself & _).
    simpl. rewrite Hproj in Hself.
    rewrite calculate_distance_twd97_run, Hproj, Hself.
    cbn [taipei_station_twd97].
    change (distance_of libm_pow2 (Scalar x, Scalar y)
              (Some (Scalar x, Scalar y)))
      with (distance_km libm_pow2 (x, y) (x, y)).
    rewrite (distance_km_diag libm_pow2 (x, y) Hfin). reflexivity.
Qed.

(** C7, refuted as stated: a station projected to the finite point
    (1e200, 0), with the reference at the origin, gets no distance. *)
Lemma distance_overflows_on_finite_points :
  ~ distance_total_on_finite_points.
Proof.
  intros Htotal.
  destruct (Htotal TestEnv.libm_pow2
                   (TestEnv.const_transform (1e200, 0)%float) PyNone PyNone
                   (TestEnv.world_with_reference (Some (0, 0)%float))
                   (1e200, 0)%float (0, 0)%float
                   correctly_rounded_square_never_negative
                   eq_refl eq_refl (conj eq_refl eq_refl) (conj eq_refl eq_refl))
    as [d Hd].
  vm_compute in Hd. discriminate.
Qed.

(* ===================================================================== *)
(** * The CSV export                                                      *)
(* ===================================================================== *)

Section CsvExport.

Variable libm_pow2 : float -> float.
Variable transform : pyval -> pyval -> result (coord * coord).

(** One turn of the export loop on a station record: the row is appended
    unless the classifier raises; the distance is whatever the distance
    method returned. *)
Lemma export_station_run (d : gmap string pyval) (csv_data : list csv_row)
    (w : world) :
  let lat := dict_get d "latitude" (PyInt 0) in
  let lon := dict_get d "longitude" (PyInt 0) in
  exists distance w1,
    calculate_distance_twd97 libm_pow2 transform lat lon w = (Ok distance, w1) /\
    export_station libm_pow2 transform csv_data (PyDict d) w =
      match get_aqi_level (dict_get d "aqi" (PyStr "N/A")) with
      | Ok level =>
          (Ok (csv_data ++ [station_row d distance level])%list, w1)
      | Raise e =>
          (Ok csv_data,
           add_line [Text "處理測站數據時發生錯誤: "; Exc e] w1)
      end.
Proof.
  intros lat lon.
  destruct (calculate_distance_twd97_returns libm_pow2 transform lat lon w)
  as [r Hr].
  destruct (calculate_distance_twd97 libm_pow2 transform lat lon w)
  as [res w1] eqn:Hc.
  simpl in Hr; subst res.
  exists r, w1. split; [reflexivity|].
  unfold export_station. run_M. fold lat lon. rewrite Hc.
  destruct (get_aqi_level (dict_get d "aqi" (PyStr "N/A"))); reflexivity.
Qed.

(** A station that is not a record is skipped, with a message. *)
Lemma export_station_not_dict (station : pyval) (csv_data : list csv_row)
    (w : world) :
  (forall d, station <> PyDict d) ->
  export_station libm_pow2 transform csv_data station w
  = (Ok csv_data,
     add_line [Text "處理測站數據時發生錯誤: "; Exc AttributeError] w).
Proof.
  intros Hnd. unfold export_station. run_M.
  destruct station; try reflexivity. exfalso; eapply Hnd; reflexivity.
Qed.

(** A turn of the loop never raises and only ever appends. *)
Lemma export_station_appends (station : pyval) (csv_data : list csv_row)
    (w : world) :
  exists rows w',
    export_station libm_pow2 transform csv_data station w
    = (Ok (csv_data ++ rows)%list, w').
Proof.
  destruct station as [| b | z | f | s | l | d];
    try (rewrite export_station_not_dict by discriminate;
         exists []; eexists; rewrite app_nil_r; reflexivity).
  destruct (export_station_run d csv_data w) as (dist & w1 & _ & ->).
  destruct (get_aqi_level _).
  - eexists [_]; eexists; reflexivity.
  - exists []; eexists; rewrite app_nil_r; reflexivity.
Qed.

Lemma export_loop_appends (stations : list pyval) :
  forall (csv_data : list csv_row) (w : world),
  exists rows w',
    for_each (export_station libm_pow2 transform) csv_data stations w
    = (Ok (csv_data ++ rows)%list, w').
Proof.
  induction stations as [| station stations IH]; intros csv_data w; simpl.
  - exists [], w. rewrite app_nil_r. reflexivity.
  - unfold mbind, M_bind.
    destruct (export_station_appends station csv_data w) as (r1 & w1 & ->).
    destruct (IH (csv_data ++ r1)%list w1) as (r2 & w2 & ->).
    exists (r1 ++ r2)%list, w2. rewrite app_assoc. reflexivity.
Qed.

(** A row that a station always contributes is among the rows of the
    loop, whatever the other stations are. *)
Lemma export_loop_keeps_row (station : pyval) (r : csv_row)
    (stations : list pyval) :
  (forall csv_data w,
     fst (export_station libm_pow2 transform csv_data station w)
     = Ok (csv_data ++ [r])%list) ->
  In station stations ->
  forall (csv_data : list csv_row) (w : world),
  exists rows,
    fst (for_each (export_station libm_pow2 transform) csv_data stations w)
  = Ok rows /\
    In r rows.
Proof.
  intros Hrow.
  induction stations as [| x stations IH]; intros Hin csv_data w;
    [destruct Hin|].
  simpl. unfold mbind, M_bind.
  destruct Hin as [-> | Hin].
  - specialize (Hrow csv_data w).
    destruct (export_station libm_pow2 transform csv_data station w)
    as [res w1].
    simpl in Hrow; subst res.
    destruct (export_loop_appends stations (csv_data ++ [r])%list w1)
      as (rows & w2 & ->).
    eexists; split; [reflexivity|].
    apply in_or_app; left. apply in_or_app; right. left; reflexivity.
  - destruct (export_station_appends x csv_data w) as (r1 & w1 & ->).
    apply IH, Hin.
Qed.

Variable now : string.
Variables makedirs open_w : string -> result unit.
Variable csv_writer : string -> list csv_row -> option (exn * list csv_row).

(** What [export_to_csv] does on a list of stations once the directory
    exists and the file is opened: the rows of the loop are handed to the
    writer, and the result is [True] unless the writer raises; either way
    the file is there, with what reached it. *)
Lemma export_to_csv_run (stations : list pyval) (filename : string)
    (w : world) :
  aqi_data (self w) = PyList stations -> stations <> [] ->
  makedirs "outputs" = Ok tt -> open_w filename = Ok tt ->
  exists rows w1,
    for_each (export_station libm_pow2 transform) [] stations w = (Ok rows, w1) /\
    export_to_csv libm_pow2 transform now makedirs open_w csv_writer
                  (Some filename) w =
      match csv_outcome csv_writer filename rows with
      | (content, None) =>
          (Ok true,
           add_line [Text "數據已匯出至 "; Text filename; Text "，共 ";
                     Num (Z.of_nat (length rows)); Text " 筆記錄"]
                    (add_csv_file filename content w1))
      | (content, Some e) =>
          (Ok false,
           add_line [Text "匯出 CSV 時發生錯誤: "; Exc e]
                    (add_csv_file filename content w1))
      end.
Proof.
  intros Hdata Hne Hdir Hopen.
  destruct (export_loop_appends stations [] w) as (rows & w1 & Hloop).
  simpl in Hloop.
  exists rows, w1. split; [exact Hloop|].
  assert (Htruthy : py_truthy (PyList stations) = true)
    by (destruct stations; [congruence | reflexivity]).
  unfold export_to_csv, get_self, mbind, M_bind.
  rewrite Hdata, Htruthy. cbn [negb].
  unfold try_except, lift. rewrite Hdir, Hdata. cbn [py_iter].
  rewrite Hloop, Hopen. unfold write_csv, csv_outcome.
  destruct rows as [| r rows]; [reflexivity|].
  destruct (csv_writer filename (r :: rows)) as [[e written] |];
    reflexivity.
Qed.

End CsvExport.

(* ===================================================================== *)
(** * What the methods leave untouched                                    *)
(* ===================================================================== *)

Section Frame.

Context {X : Type} (obs : world -> X).

Lemma keeps_ret {A} (a : A) : keeps obs (mret a : M A).
Proof. intros w; reflexivity. Qed.

Lemma keeps_lift {A} (r : result A) : keeps obs (lift r).
Proof. intros w; reflexivity. Qed.

Lemma keeps_raise {A} (e : exn) : keeps obs (raise e : M A).
Proof. intros w; reflexivity. Qed.

Lemma keeps_pass : keeps obs pass.
Proof. intros w; reflexivity. Qed.

Lemma keeps_get_self : keeps obs get_self.
Proof. intros w; reflexivity. Qed.

Lemma keeps_bind {A B} (c : M A) (k : A -> M B) :
  keeps obs c -> (forall a, keeps obs (k a)) -> keeps obs (c ≫= k).
Proof.
  intros Hc Hk w. unfold mbind, M_bind.
  specialize (Hc w). destruct (c w) as [[a | e] w1]; simpl in *.
  - rewrite Hk. exact Hc.
  - exact Hc.
Qed.

Lemma keeps_try_except {A} (c : M A) (handled : exn -> bool)
    (h : exn -> M A) :
  keeps obs c -> (forall e, keeps obs (h e)) ->
  keeps obs (try_except c handled h).
Proof.
  intros Hc Hh w. unfold try_except.
  specialize (Hc w). destruct (c w) as [[a | e] w1]; simpl in *.
  - exact Hc.
  - destruct (handled e); simpl; [rewrite Hh|]; exact Hc.
Qed.

Lemma keeps_for_each {S} (body : S -> pyval -> M S) (l : list pyval) :
  (forall s x, keeps obs (body s x)) ->
  forall s, keeps obs (for_each body s l).
Proof.
  intros Hbody. induction l as [| x l IH]; intros s; simpl.
  - apply keeps_ret.
  - apply keeps_bind; [apply Hbody | exact IH].
Qed.

Lemma keeps_when (b : bool) (c : M unit) :
  keeps obs c -> keeps obs (when_ b c).
Proof. intros Hc. destruct b; [exact Hc | apply keeps_pass]. Qed.

End Frame.

(** Goes through a method body: the methods it calls by [known], the
    combinators by the lemmas above, the primitive steps by computation. *)
Ltac keeps_with known :=
  repeat first
    [ known
    | apply keeps_bind; [| intros ?]
    | apply keeps_try_except; [| intros ?]
    | apply keeps_for_each; intros ? ?
    | apply keeps_when
    | apply keeps_lift
    | apply keeps_ret
    | apply keeps_raise
    | apply keeps_get_self
    | match goal with
      | |- keeps _ (match ?x with _ => _ end) => destruct x
      end
    | solve [intros ?; reflexivity] ].

Ltac keeps_tac := keeps_with fail.

Section Lifecycle.

Variable getenv : string -> option string.
Variable libm_pow2 : float -> float.
Variable transform : pyval -> pyval -> result (coord * coord).
Variable requests_get_json : string -> option string -> result pyval.
Variable now : string.
Variables makedirs open_w : string -> result unit.
Variable csv_writer : string -> list csv_row -> option (exn * list csv_row).
Variable folium_CircleMarker : marker -> result unit.
Variable folium_save : string -> result unit.

Lemma wgs84_to_twd97_keeps_self (lat lon : pyval) :
  keeps self (wgs84_to_twd97 transform lat lon).
Proof. unfold wgs84_to_twd97, call_transform. keeps_tac. Qed.

Lemma calculate_distance_twd97_keeps_self (lat lon : pyval) :
  keeps self (calculate_distance_twd97 libm_pow2 transform lat lon).
Proof.
  unfold calculate_distance_twd97.
  keeps_with ltac:(apply wgs84_to_twd97_keeps_self).
Qed.

Lemma write_csv_keeps_self (filename : string) (rows : list csv_row) :
  keeps self (write_csv csv_writer filename rows).
Proof.
  intros w. unfold write_csv.
  destruct rows; [reflexivity|].
  destruct (csv_writer _ _) as [[e written] |]; reflexivity.
Qed.

Lemma write_csv_keeps_proj_calls (filename : string) (rows : list csv_row) :
  keeps proj_calls (write_csv csv_writer filename rows).
Proof.
  intros w. unfold write_csv.
  destruct rows; [reflexivity|].
  destruct (csv_writer _ _) as [[e written] |]; reflexivity.
Qed.

Lemma export_to_csv_keeps_self (filename : option string) :
  keeps self (export_to_csv libm_pow2 transform now makedirs open_w csv_writer
                            filename).
Proof.
  unfold export_to_csv, export_station.
  keeps_with ltac:(first [ apply calculate_distance_twd97_keeps_self
                         | apply write_csv_keeps_self ]).
Qed.

Lemma create_map_keeps_self :
  keeps self (create_map folium_CircleMarker).
Proof. unfold create_map, map_station. keeps_tac. Qed.

(** [create_map] projects nothing. *)
Lemma create_map_keeps_proj_calls :
  keeps proj_calls (create_map folium_CircleMarker).
Proof. unfold create_map, map_station. keeps_tac. Qed.

Lemma save_map_keeps_self (map_obj : option (list element))
    (filename : string) :
  keeps self (save_map folium_save map_obj filename).
Proof. unfold save_map, write_html. keeps_tac. Qed.

(** [fetch_aqi_data] assigns [aqi_data] and nothing else. *)
Lemma fetch_aqi_data_keeps_reference :
  keeps reference (fetch_aqi_data requests_get_json).
Proof. unfold fetch_aqi_data. keeps_tac. Qed.

Lemma keeps_self_reference {A} (c : M A) :
  keeps self c -> keeps reference c.
Proof. intros Hc w. unfold reference. rewrite Hc. reflexivity. Qed.

Lemma run_keeps_reference :
  keeps reference
    (run libm_pow2 transform requests_get_json now makedirs open_w csv_writer
         folium_CircleMarker folium_save).
Proof.
  unfold run.
  keeps_with
    ltac:(first [ apply fetch_aqi_data_keeps_reference
                | apply keeps_self_reference;
                  first [ apply create_map_keeps_self
                        | apply save_map_keeps_self
                        | apply export_to_csv_keeps_self ] ]).
Qed.

(** The distance method calls the transformer once, on the station. *)
Lemma calculate_distance_twd97_calls (lat lon : pyval) (w : world) :
  proj_calls (snd (calculate_distance_twd97 libm_pow2 transform lat lon w))
  = (proj_calls w ++ [(lat, lon)])%list.
Proof.
  rewrite calculate_distance_twd97_run.
  repeat case_match; reflexivity.
Qed.

Lemma export_station_calls (station : pyval) (csv_data : list csv_row)
    (w : world) :
  proj_calls (snd (export_station libm_pow2 transform csv_data station w))
  = (proj_calls w ++ station_coords [station])%list.
Proof.
  destruct station as [| b | z | f | s | l | d];
    try (rewrite export_station_not_dict by discriminate;
         simpl; rewrite app_nil_r; reflexivity).
  destruct (export_station_run libm_pow2 transform d csv_data w)
    as (distance & w1 & Hc & ->).
  pose proof (calculate_distance_twd97_calls
                (dict_get d "latitude" (PyInt 0))
                (dict_get d "longitude" (PyInt 0)) w) as Hcalls.
  rewrite Hc in Hcalls. simpl in Hcalls.
  destruct (get_aqi_level _); simpl; exact Hcalls.
Qed.

Lemma export_loop_calls (stations : list pyval) :
  forall (csv_data : list csv_row) (w : world),
    proj_calls (snd (for_each (export_station libm_pow2 transform) csv_data
                              stations w))
    = (proj_calls w ++ station_coords stations)%list.
Proof.
  induction stations as [| station stations IH]; intros csv_data w.
  - simpl. rewrite app_nil_r. reflexivity.
  - simpl for_each. unfold mbind, M_bind.
    pose proof (export_station_calls station csv_data w) as H1.
    destruct (export_station_appends libm_pow2 transform station csv_data w)
      as (r1 & w1 & Heq).
    rewrite Heq in H1 |- *. simpl in H1.
    rewrite IH, H1, <- app_assoc. f_equal.
    unfold station_coords. simpl.
    destruct station; reflexivity.
Qed.

(** [export_to_csv] calls the transformer once for each station record,
    on the station's coordinates. *)
Lemma export_to_csv_calls (filename : option string)
    (stations : list pyval) (w : world) :
  aqi_data (self w) = PyList stations ->
  makedirs "outputs" = Ok tt ->
  proj_calls (snd (export_to_csv libm_pow2 transform now makedirs open_w
                                 csv_writer filename w))
  = (proj_calls w ++ station_coords stations)%list.
Proof.
  intros Hdata Hdir.
  unfold export_to_csv, get_self, mbind, M_bind. rewrite Hdata.
  destruct stations as [| s0 stations'].
  - simpl. rewrite app_nil_r. reflexivity.
  - cbn [py_truthy negb].
    unfold try_except, lift. rewrite Hdir, Hdata. cbn [py_iter].
    pose proof (export_loop_calls (s0 :: stations') [] w) as Hcalls.
    destruct (export_loop_appends libm_pow2 transform (s0 :: stations') [] w)
      as (rows & w1 & Hloop).
    rewrite Hloop in Hcalls |- *. simpl in Hcalls.
    destruct (open_w _) as [[] | e]; [|simpl; exact Hcalls].
    pose proof (write_csv_keeps_proj_calls
                  (match filename with
                   | Some f => f
                   | None => String.append "outputs/aqi_data_"
                               (String.append now ".csv")
                   end) ([] ++ rows) w1) as Hwrite.
    destruct (write_csv csv_writer _ _ w1) as [[[] | e] w2];
      simpl in Hwrite |- *; rewrite Hwrite; exact Hcalls.
Qed.

End Lifecycle.

(** C6. The reference projection is computed once, by the constructor, and
    is not recomputed or written afterwards: the constructor calls the
    transformer exactly once, on the reference coordinates, and stores the
    result; each call of the distance method calls the transformer exactly
    once, on the station's coordinates, and leaves the object as it was;
    an export makes one such call per station record; and no method called
    after construction changes the cached projection. *)
Theorem reference_projected_once
    (libm_pow2 : float -> float)
    (getenv : string -> option string)
    (transform : pyval -> pyval -> result (coord * coord))
    (requests_get_json : string -> option string -> result pyval)
    (now : string) (makedirs open_w : string -> result unit)
    (csv_writer : string -> list csv_row -> option (exn * list csv_row))
    (folium_CircleMarker : marker -> result unit)
    (folium_save : string -> result unit) :
  (forall w k,
     getenv "AQI_API_KEY" = Some k -> k <> "" ->
     proj_calls (snd (__init__ getenv transform w))
     = (proj_calls w ++ [(PyFloat 25.0478, PyFloat 121.5170)])%list /\
     reference (snd (__init__ getenv transform w))
     = match transform (PyFloat 25.0478) (PyFloat 121.5170) with
       | Ok p => Some p
       | Raise _ => None
       end) /\
  (forall lat lon w,
     proj_calls (snd (calculate_distance_twd97 libm_pow2 transform lat lon w))
     = (proj_calls w ++ [(lat, lon)])%list /\
     self (snd (calculate_distance_twd97 libm_pow2 transform lat lon w))
  = self w) /\
  (forall filename stations w,
     aqi_data (self w) = PyList stations ->
     makedirs "outputs" = Ok tt ->
     proj_calls (snd (export_to_csv libm_pow2 transform now makedirs open_w
                                    csv_writer filename w))
     = (proj_calls w ++ station_coords stations)%list) /\
  keeps reference (fetch_aqi_data requests_get_json) /\
  (forall filename,
     keeps reference (export_to_csv libm_pow2 transform now makedirs open_w
                                    csv_writer filename)) /\
  keeps reference (create_map folium_CircleMarker) /\
  keeps proj_calls (create_map folium_CircleMarker) /\
  (forall map_obj filename,
     keeps reference (save_map folium_save map_obj filename)) /\
  keeps reference (run libm_pow2 transform requests_get_json now makedirs
                       open_w csv_writer folium_CircleMarker folium_save).
Proof.
  repeat apply conj.
  - intros w k Hkey Hne.
    destruct (init_run getenv transform w k Hkey Hne)
      as (w' & -> & Hself & Hcalls).
    simpl. unfold reference. rewrite Hself. auto.
  - intros lat lon w. split.
    + apply calculate_distance_twd97_calls.
    + apply calculate_distance_twd97_keeps_self.
  - intros filename stations w. apply export_to_csv_calls.
  - apply fetch_aqi_data_keeps_reference.
  - intros filename. apply keeps_self_reference, export_to_csv_keeps_self.
  - apply keeps_self_reference, create_map_keeps_self.
  - apply create_map_keeps_proj_calls.
  - intros map_obj filename.
    apply keeps_self_reference, save_map_keeps_self.
  - apply run_keeps_reference.
Qed.

(* ===================================================================== *)
(** * The marker loop                                                     *)
(* ===================================================================== *)

Section Markers.

Variable folium_CircleMarker : marker -> result unit.


(** A latitude that coerces to zero never gives a marker, whatever the
    longitude is: the turn returns the loop variables as they were, or
    raises what [float()] raised on the longitude. *)
Lemma map_station_zero_latitude (d : gmap string pyval) (lat : float)
    (st : list element * Z) (w : world) :
  py_float (dict_get d "latitude" (PyInt 0)) = Ok lat ->
  (lat =? 0)%float = true ->
  match fst (map_station folium_CircleMarker st (PyDict d) w) with
  | Ok st' => st' = st
  | Raise _ => True
  end.
Proof.
  intros Hlat Hzero. destruct st as [m n].
  unfold map_station. run_M. rewrite Hlat. simpl.
  destruct (py_float (dict_get d "longitude" (PyInt 0))) as [lon | e]; simpl.
  - rewrite Hzero. reflexivity.
  - destruct (is_ValueError_or_KeyError e); simpl; trivial.
Qed.

(** A coordinate that is [None] stops the whole loop: [float()] raises
    [TypeError], which the loop does not catch. *)
Lemma map_station_None_latitude (d : gmap string pyval)
    (st : list element * Z) (w : world) :
  dict_get d "latitude" (PyInt 0) = PyNone ->
  map_station folium_CircleMarker st (PyDict d) w = (Raise TypeError, w).
Proof.
  intros Hlat. destruct st as [m n].
  unfold map_station. run_M. rewrite Hlat. reflexivity.
Qed.

(** An infinite AQI stops the whole loop as well: the classifier's
    [OverflowError] is not caught either. *)
Lemma map_station_infinite_aqi (d : gmap string pyval) (lat lon : float)
    (st : list element * Z) (w : world) :
  py_float (dict_get d "latitude" (PyInt 0)) = Ok lat ->
  py_float (dict_get d "longitude" (PyInt 0)) = Ok lon ->
  (lat =? 0)%float = false -> (lon =? 0)%float = false ->
  dict_get d "aqi" (PyStr "N/A") = PyFloat infinity ->
  map_station folium_CircleMarker st (PyDict d) w = (Raise OverflowError, w).
Proof.
  intros Hlat Hlon Hlat0 Hlon0 Haqi. destruct st as [m n].
  unfold map_station. run_M. rewrite Hlat. simpl. rewrite Hlon. simpl.
  rewrite Hlat0, Hlon0, Haqi. reflexivity.
Qed.

End Markers.


(* ===================================================================== *)
(** * The theorems at concrete stations                                   *)
(* ===================================================================== *)

(** The Keelung station of the test environment is 26.32 km away. *)
Lemma calculate_distance_twd97_formula_witness :
  exists x y xr yr,
    TestEnv.flat_transform (PyStr "25.129167") (PyStr "121.760056")
      = Ok (Scalar x, Scalar y) /\
    taipei_station_twd97 (self TestEnv.world1)
      = Some (Scalar xr, Scalar yr) /\
    calculate_distance_twd97 TestEnv.libm_pow2 TestEnv.flat_transform
                             (PyStr "25.129167") (PyStr "121.760056")
                             TestEnv.world1
    = (Ok (Some 26.32%float),
       add_call (PyStr "25.129167") (PyStr "121.760056") TestEnv.world1) /\
    rounded_to_2_places
      (PrimFloat.sqrt (TestEnv.libm_pow2 (abs (x - xr))
                       + TestEnv.libm_pow2 (abs (y - yr))) / 1000)%float
      26.32%float.
Proof.
  do 4 eexists.
  split; [vm_compute; reflexivity|].
  split; [vm_compute; reflexivity|].
  edestruct (calculate_distance_twd97_formula TestEnv.libm_pow2
               TestEnv.flat_transform (PyStr "25.129167")
               (PyStr "121.760056") TestEnv.world1)
    as (d & Hd & Hrounded);
    [ exact correctly_rounded_square_never_negative
    | reflexivity | reflexivity
    | vm_compute; reflexivity | vm_compute; reflexivity
    | vm_compute; reflexivity | vm_compute; reflexivity
    | vm_compute; reflexivity | vm_compute; reflexivity |].
  assert (Hvalue : fst (calculate_distance_twd97 TestEnv.libm_pow2
                                                 TestEnv.flat_transform
                                                 (PyStr "25.129167")
                                                 (PyStr "121.760056")
                                                 TestEnv.world1)
                   = Ok (Some 26.32%float)) by (vm_compute; reflexivity).
  rewrite Hd in Hvalue. simpl in Hvalue. injection Hvalue as ->.
  split; [exact Hd | exact Hrounded].
Defined.

(** A station in range gets a distance; one projected to 1e200 metres
    east gets [None] and the overflow is printed. *)
Lemma calculate_distance_twd97_total_witness :
  (exists d,
     calculate_distance_twd97 TestEnv.libm_pow2 TestEnv.flat_transform
                              (PyStr "25.129167") (PyStr "121.760056")
                              TestEnv.world1
     = (Ok (Some d),
        add_call (PyStr "25.129167") (PyStr "121.760056") TestEnv.world1)) /\
  calculate_distance_twd97 TestEnv.libm_pow2
                           (TestEnv.const_transform (1e200, 0)%float) PyNone
                           PyNone
                           (TestEnv.world_with_reference (Some (0, 0)%float))
  = (Ok None,
     add_line [Text "距離計算錯誤: "; Exc OverflowError]
       (add_call PyNone PyNone
          (TestEnv.world_with_reference (Some (0, 0)%float)))).
Proof.
  split.
  - edestruct (calculate_distance_twd97_total TestEnv.libm_pow2
                 TestEnv.flat_transform
                 (PyStr "25.129167") (PyStr "121.760056") TestEnv.world1)
      as [Hvalue _];
      [ exact correctly_rounded_square_never_negative
      | vm_compute; reflexivity | vm_compute; reflexivity |].
    apply Hvalue; vm_compute; reflexivity.
  - edestruct (calculate_distance_twd97_total TestEnv.libm_pow2
                 (TestEnv.const_transform (1e200, 0)%float) PyNone PyNone
                 (TestEnv.world_with_reference (Some (0, 0)%float)))
      as [_ Hoverflow];
      [ exact correctly_rounded_square_never_negative
      | vm_compute; reflexivity | vm_compute; reflexivity |].
    apply (Hoverflow OverflowError). vm_compute; reflexivity.
Defined.

(** The reference point is at distance 0.0 from itself. *)
Lemma self_distance_zero_witness :
  fst (calculate_distance_twd97 TestEnv.libm_pow2 TestEnv.flat_transform
         (PyFloat 25.0478) (PyFloat 121.5170)
         (snd (__init__ TestEnv.getenv TestEnv.flat_transform TestEnv.world0)))
  = Ok (Some 0%float).
Proof.
  eapply (proj2 self_distance_zero TestEnv.libm_pow2 TestEnv.getenv
            TestEnv.flat_transform TestEnv.world0 "test-key").
  - reflexivity.
  - discriminate.
  - vm_compute; reflexivity.
  - split; vm_compute; reflexivity.
Defined.

(** One projection at construction, one per station at export. *)
Lemma reference_projected_once_witness :
  proj_calls (snd (__init__ TestEnv.getenv TestEnv.flat_transform TestEnv.world0))
  = [(PyFloat 25.0478, PyFloat 121.5170)] /\
  proj_calls (snd (export_to_csv TestEnv.libm_pow2 TestEnv.flat_transform
                                 TestEnv.now TestEnv.makedirs TestEnv.open_w
                                 TestEnv.csv_writer None TestEnv.world2))
  = (proj_calls TestEnv.world2 ++ station_coords TestEnv.stations)%list.
Proof.
  pose proof (reference_projected_once TestEnv.libm_pow2 TestEnv.getenv
                                       TestEnv.flat_transform
                                       TestEnv.requests_get_json TestEnv.now
                                       TestEnv.makedirs TestEnv.open_w
                                       TestEnv.csv_writer
                                       TestEnv.folium_CircleMarker
                                       TestEnv.folium_save)
    as (Hinit & _ & Hexport & _).
  split.
  - apply (Hinit TestEnv.world0 "test-key"); [reflexivity | discriminate].
  - apply Hexport; [vm_compute; reflexivity | reflexivity].
Defined.


(* ===================================================================== *)
(** * Fetching the station data                                           *)
(* ===================================================================== *)

Section Fetch.

Variable requests_get_json : string -> option string -> result pyval.

(** What one call of [fetch_aqi_data] returns and does. *)
Lemma fetch_aqi_data_run (w : world) :
  let w0 := add_line [Text "正在獲取 AQI 數據..."] w in
  fetch_aqi_data requests_get_json w =
    match requests_get_json (api_url (self w)) (api_key (self w)) with
    | Raise e =>
        (Ok false,
         add_line (if is_RequestException e
                   then [Text "API 請求錯誤: "; Exc e]
                   else [Text "數據處理錯誤: "; Exc e]) w0)
    | Ok data =>
        match response_payload data with
        | None =>
            (Ok false, add_line [Text "數據處理錯誤: "; Exc ValueError] w0)
        | Some v =>
            match py_len v with
            | Ok n =>
                (Ok true,
                 add_line [Text "成功獲取 "; Num n; Text " 個測站數據"]
                          (set_self (set_aqi_data v) w0))
            | Raise e =>
                (Ok false,
                 add_line [Text "數據處理錯誤: "; Exc e]
                          (set_self (set_aqi_data v) w0))
            end
        end
    end.
Proof.
  unfold fetch_aqi_data. run_M.
  destruct (requests_get_json _ _) as [data | e]; simpl.
  - destruct data as [| b | z | f | s | l | d]; simpl; try reflexivity.
    destruct (d !! "value") as [v |]; simpl; [|reflexivity].
    destruct v; reflexivity.
  - destruct (is_RequestException e); reflexivity.
Qed.

(** A text is measured and read in characters, not in bytes, and digits
    of other scripts are digits. *)
Lemma text_is_read_by_characters :
  py_len (PyStr "測站") = Ok 2 /\
  py_iter (PyStr "測站") = Ok [PyStr "測"; PyStr "站"] /\
  py_int (PyStr "５０") = Ok 50 /\
  py_float (PyStr "２５.５") = Ok 25.5%float.
Proof. repeat split; vm_compute; reflexivity. Qed.

(** X1. [fetch_aqi_data] never raises: it returns a truth value, and the
    value is [True] exactly when the response is a list, or a dict whose
    ['value'] entry has a length (a list, a string or a dict). *)
Theorem fetch_aqi_data_returns (w : world) :
  exists b,
    fst (fetch_aqi_data requests_get_json w) = Ok b /\
    (b = true <->
     exists data v n,
       requests_get_json (api_url (self w)) (api_key (self w)) = Ok data /\
       response_payload data = Some v /\ py_len v = Ok n).
Proof.
  rewrite fetch_aqi_data_run.
  destruct (requests_get_json _ _) as [data | e]; simpl.
  - destruct (response_payload data) as [v |] eqn:Hpay; simpl.
    + destruct (py_len v) as [n | e] eqn:Hlen; simpl.
      * exists true. split; [reflexivity|]. split; [eauto 6|reflexivity].
      * exists false. split; [reflexivity|].
        split; [discriminate|].
        intros (data' & v' & n & [= <-] & Hv & Hn). congruence.
    + exists false. split; [reflexivity|].
      split; [discriminate|].
      intros (data' & v' & n & [= <-] & Hv & Hn). congruence.
  - exists false. split; [reflexivity|].
    split; [discriminate|].
    intros (data' & v' & n & Hreq & _). discriminate.
Qed.

(** X2. When the fetch succeeds, the generator holds the payload of the
    response and is otherwise as before, and exactly two lines were
    printed, the second with the number of stations. *)
Theorem fetch_aqi_data_stores_payload (w : world) :
  fst (fetch_aqi_data requests_get_json w) = Ok true ->
  exists data v n,
    requests_get_json (api_url (self w)) (api_key (self w)) = Ok data /\
    response_payload data = Some v /\ py_len v = Ok n /\
    self (snd (fetch_aqi_data requests_get_json w))
      = set_aqi_data v (self w) /\
    stdout (snd (fetch_aqi_data requests_get_json w))
      = (stdout w ++ [[Text "正在獲取 AQI 數據..."];
                      [Text "成功獲取 "; Num n; Text " 個測站數據"]])%list.
Proof.
  rewrite fetch_aqi_data_run.
  destruct (requests_get_json _ _) as [data | e]; simpl; [|discriminate].
  destruct (response_payload data) as [v |] eqn:Hpay; simpl; [|discriminate].
  destruct (py_len v) as [n | e] eqn:Hlen; simpl; [|discriminate].
  intros _. exists data, v, n. repeat split; try assumption.
  unfold add_line; simpl. rewrite <- app_assoc. reflexivity.
Qed.

(** X3. When the request or the decoding of the response raises, or the
    response has no station data, the fetch returns [False] and leaves the
    generator untouched. *)
Theorem fetch_aqi_data_failure_keeps_self (w : world) :
  (forall data,
     requests_get_json (api_url (self w)) (api_key (self w)) = Ok data ->
     response_payload data = None) ->
  fst (fetch_aqi_data requests_get_json w) = Ok false /\
  self (snd (fetch_aqi_data requests_get_json w)) = self w.
Proof.
  intros Hbad. rewrite fetch_aqi_data_run.
  destruct (requests_get_json _ _) as [data | e]; simpl.
  - rewrite (Hbad data eq_refl). split; reflexivity.
  - split; reflexivity.
Qed.

(** X4. A dict whose ['value'] entry has no length (a number, a truth
    value, [null]) makes the fetch return [False] although the entry has
    already been stored as the station data. *)
Theorem fetch_aqi_data_stores_before_failing
    (w : world) (d : gmap string pyval) (v : pyval) (e : exn) :
  requests_get_json (api_url (self w)) (api_key (self w)) = Ok (PyDict d) ->
  d !! "value" = Some v ->
  py_len v = Raise e ->
  fst (fetch_aqi_data requests_get_json w) = Ok false /\
  aqi_data (self (snd (fetch_aqi_data requests_get_json w))) = v.
Proof.
  intros Hreq Hval Hlen. rewrite fetch_aqi_data_run, Hreq. simpl.
  rewrite Hval, Hlen. split; reflexivity.
Qed.

End Fetch.

(* ===================================================================== *)
(** * The content of the exported file                                    *)
(* ===================================================================== *)

Section CsvContent.

Variable libm_pow2 : float -> float.
Variable transform : pyval -> pyval -> result (coord * coord).
Variable now : string.
Variables makedirs open_w : string -> result unit.
Variable csv_writer : string -> list csv_row -> option (exn * list csv_row).

(** The distance method computes [station_distance]. *)
Lemma calculate_distance_twd97_value (lat lon : pyval) (w : world) :
  fst (calculate_distance_twd97 libm_pow2 transform lat lon w)
  = Ok (station_distance libm_pow2 transform (reference w) lat lon).
Proof.
  rewrite calculate_distance_twd97_run.
  unfold station_distance, reference.
  repeat case_match; reflexivity.
Qed.

(** A turn of the export loop appends [export_row], if there is one. *)
Lemma export_station_value (station : pyval) (csv_data : list csv_row)
    (w : world) :
  fst (export_station libm_pow2 transform csv_data station w)
  = Ok (csv_data ++ option_list (export_row libm_pow2 transform (reference w)
                                            station))%list.
Proof.
  destruct station as [| b | z | f | s | l | d];
    try (rewrite export_station_not_dict by discriminate;
         simpl; rewrite app_nil_r; reflexivity).
  destruct (export_station_run libm_pow2 transform d csv_data w)
    as (distance & w1 & Hc & ->).
  pose proof (calculate_distance_twd97_value
                (dict_get d "latitude" (PyInt 0))
                (dict_get d "longitude" (PyInt 0)) w) as Hv.
  rewrite Hc in Hv. simpl in Hv. injection Hv as ->.
  unfold export_row.
  destruct (get_aqi_level _); simpl; [reflexivity|].
  rewrite app_nil_r. reflexivity.
Qed.

Lemma export_station_keeps_reference (station : pyval)
    (csv_data : list csv_row) :
  keeps reference (export_station libm_pow2 transform csv_data station).
Proof.
  apply keeps_self_reference. unfold export_station.
  keeps_with ltac:(apply calculate_distance_twd97_keeps_self).
Qed.

Lemma export_station_keeps_csv_files (station : pyval)
    (csv_data : list csv_row) :
  keeps csv_files (export_station libm_pow2 transform csv_data station).
Proof.
  unfold export_station, calculate_distance_twd97, wgs84_to_twd97,
    call_transform.
  keeps_tac.
Qed.

(** The export loop computes [export_rows]. *)
Lemma export_loop_value (stations : list pyval) :
  forall (csv_data : list csv_row) (w : world),
    fst (for_each (export_station libm_pow2 transform) csv_data stations w)
    = Ok (csv_data
          ++ export_rows libm_pow2 transform (reference w) stations)%list.
Proof.
  induction stations as [| station stations IH]; intros csv_data w.
  - simpl. rewrite app_nil_r. reflexivity.
  - simpl for_each. unfold mbind, M_bind.
    pose proof (export_station_value station csv_data w) as Hv.
    pose proof (export_station_keeps_reference station csv_data w) as Hk.
    destruct (export_station libm_pow2 transform csv_data station w)
    as [res w1].
    simpl in Hv, Hk. subst res.
    rewrite IH, Hk, <- app_assoc. unfold export_rows. simpl.
    destruct (export_row libm_pow2 transform (reference w) station); reflexivity.
Qed.

(** X5. The export never raises. When it returns [True] it has left
    exactly one new file, which holds every row of the loop. When it
    returns [False] it has left no new file, or, when the writer raised on
    the opened file, one new file with the rows that had reached it. *)
Theorem export_to_csv_True_means_written
    (filename : option string) (w : world) :
  let name := match filename with
              | Some f => f
              | None => String.append "outputs/aqi_data_"
                          (String.append now ".csv")
              end in
  exists b,
    fst (export_to_csv libm_pow2 transform now makedirs open_w csv_writer
                       filename w) = Ok b /\
    (b = true ->
     exists stations rows,
       py_iter (aqi_data (self w)) = Ok stations /\
       fst (for_each (export_station libm_pow2 transform) [] stations w)
         = Ok rows /\
       csv_files (snd (export_to_csv libm_pow2 transform now makedirs open_w
                                     csv_writer filename w))
         = (csv_files w ++ [(name, rows)])%list) /\
    (b = false ->
     csv_files (snd (export_to_csv libm_pow2 transform now makedirs open_w
                                   csv_writer filename w)) = csv_files w \/
     exists rows e written,
       csv_writer name rows = Some (e, written) /\
       csv_files (snd (export_to_csv libm_pow2 transform now makedirs open_w
                                     csv_writer filename w))
         = (csv_files w ++ [(name, written)])%list).
Proof.
  intros name. unfold export_to_csv, get_self, mbind, M_bind.
  destruct (py_truthy (aqi_data (self w))); cbn [negb];
    [|exists false; simpl; repeat split; [discriminate | auto]].
  unfold try_except, lift.
  destruct (makedirs "outputs") as [[] | e];
    [|exists false; simpl; repeat split; [discriminate | auto]].
  destruct (py_iter (aqi_data (self w))) as [stations | e] eqn:Hiter;
    [|exists false; simpl; repeat split; [discriminate | auto]].
  destruct (export_loop_appends libm_pow2 transform stations [] w)
    as (rows & w1 & Hloop).
  pose proof (keeps_for_each csv_files (export_station libm_pow2 transform)
                stations (fun s x => export_station_keeps_csv_files x s)
                [] w) as Hk.
  rewrite Hloop in Hk |- *. simpl in Hk. fold name.
  destruct (open_w name) as [[] | e];
    [|exists false; simpl; rewrite Hk;
      repeat split; [discriminate | auto]].
  unfold write_csv. cbn [app].
  destruct rows as [| r rows].
  - exists true. simpl. rewrite Hk. repeat split; [|discriminate].
    intros _. exists stations, []. rewrite Hloop. auto.
  - destruct (csv_writer name (r :: rows)) as [[e written] |] eqn:Hwriter.
    + exists false. simpl. rewrite Hk. repeat split; [discriminate|].
      intros _. right. eauto.
    + exists true. simpl. rewrite Hk. repeat split; [|discriminate].
      intros _. exists stations, (r :: rows). rewrite Hloop. auto.
Qed.

(** Without station data ([None], an empty list), the export returns
    [False] at once: one message, no file, no call to the transformer. *)
Lemma export_to_csv_no_data (filename : option string) (w : world) :
  py_truthy (aqi_data (self w)) = false ->
  export_to_csv libm_pow2 transform now makedirs open_w csv_writer filename w
  = (Ok false, add_line [Text "沒有 AQI 數據可以匯出"] w).
Proof.
  intros Hempty. unfold export_to_csv, get_self, mbind, M_bind.
  rewrite Hempty. reflexivity.
Qed.

(** X6. When the output directory cannot be made, the export returns
    [False] before it looks at any station: the error is printed, and no
    file is written and no coordinate projected. *)
Theorem export_to_csv_makedirs_fails (filename : option string) (w : world)
    (e : exn) :
  py_truthy (aqi_data (self w)) = true ->
  makedirs "outputs" = Raise e ->
  export_to_csv libm_pow2 transform now makedirs open_w csv_writer filename w
  = (Ok false, add_line [Text "匯出 CSV 時發生錯誤: "; Exc e] w).
Proof.
  intros Hdata Hdir. unfold export_to_csv, get_self, mbind, M_bind.
  rewrite Hdata. cbn [negb]. unfold try_except, lift. rewrite Hdir.
  reflexivity.
Qed.

(** The rows of the loop on a list of stations are [export_rows], and the
    loop leaves the files alone. *)
Lemma export_loop_rows (stations : list pyval) (w : world)
    (rows : list csv_row) (w1 : world) :
  for_each (export_station libm_pow2 transform) [] stations w = (Ok rows, w1) ->
  rows = export_rows libm_pow2 transform (reference w) stations /\
  csv_files w1 = csv_files w.
Proof.
  intros Hloop.
  pose proof (export_loop_value stations [] w) as Hv.
  pose proof (keeps_for_each csv_files (export_station libm_pow2 transform)
                stations (fun s x => export_station_keeps_csv_files x s)
                [] w) as Hk.
  rewrite Hloop in Hv, Hk. simpl in Hv, Hk.
  injection Hv as ->. split; [reflexivity | exact Hk].
Qed.

(** On a non-empty list of stations, with a directory and a file that can
    be written and a writer that raises nothing on the rows, the export
    writes [export_rows]. *)
Lemma export_to_csv_rows (stations : list pyval) (filename : string)
    (w : world) :
  aqi_data (self w) = PyList stations -> stations <> [] ->
  makedirs "outputs" = Ok tt -> open_w filename = Ok tt ->
  csv_writer filename (export_rows libm_pow2 transform (reference w) stations)
    = None ->
  fst (export_to_csv libm_pow2 transform now makedirs open_w csv_writer
                     (Some filename) w) = Ok true /\
  csv_files (snd (export_to_csv libm_pow2 transform now makedirs open_w
                                csv_writer (Some filename) w))
    = (csv_files w ++
       [(filename,
         export_rows libm_pow2 transform (reference w) stations)])%list.
Proof.
  intros Hdata Hne Hdir Hopen Hwriter.
  destruct (export_to_csv_run libm_pow2 transform now makedirs open_w
                              csv_writer stations filename w Hdata Hne Hdir
                              Hopen)
    as (rows & w1 & Hloop & ->).
  destruct (export_loop_rows stations w rows w1 Hloop) as [-> Hk].
  unfold csv_outcome. rewrite Hwriter.
  destruct (export_rows libm_pow2 transform (reference w) stations);
    simpl; rewrite Hk; split; reflexivity.
Qed.

(** With a writer that raises on the rows, the export returns [False] and
    leaves the file with what had reached it. *)
Lemma export_to_csv_writer_raises (stations : list pyval)
    (filename : string) (w : world) (e : exn) (written : list csv_row) :
  aqi_data (self w) = PyList stations -> stations <> [] ->
  makedirs "outputs" = Ok tt -> open_w filename = Ok tt ->
  export_rows libm_pow2 transform (reference w) stations <> [] ->
  csv_writer filename (export_rows libm_pow2 transform (reference w) stations)
    = Some (e, written) ->
  fst (export_to_csv libm_pow2 transform now makedirs open_w csv_writer
                     (Some filename) w) = Ok false /\
  csv_files (snd (export_to_csv libm_pow2 transform now makedirs open_w
                                csv_writer (Some filename) w))
    = (csv_files w ++ [(filename, written)])%list.
Proof.
  intros Hdata Hne Hdir Hopen Hrows Hwriter.
  destruct (export_to_csv_run libm_pow2 transform now makedirs open_w
                              csv_writer stations filename w Hdata Hne Hdir
                              Hopen)
    as (rows & w1 & Hloop & ->).
  destruct (export_loop_rows stations w rows w1 Hloop) as [-> Hk].
  unfold csv_outcome. rewrite Hwriter.
  destruct (export_rows libm_pow2 transform (reference w) stations);
    [congruence|].
  simpl. rewrite Hk. split; reflexivity.
Qed.

(** The rows never outnumber the stations. *)
Lemma export_rows_length (ref : option (coord * coord))
    (stations : list pyval) :
  (length (export_rows libm_pow2 transform ref stations)
<= length stations)%nat.
Proof.
  unfold export_rows, omap.
  induction stations as [| s stations IH]; simpl; [lia|].
  destruct (export_row libm_pow2 transform ref s); simpl; lia.
Qed.

(** Without a reference, no row has a distance. *)
Lemma export_rows_no_reference (stations : list pyval) :
  Forall (fun r => row_distance r = None)
         (export_rows libm_pow2 transform None stations).
Proof.
  unfold export_rows.
  induction stations as [| s stations IH]; simpl; [constructor|].
  destruct (export_row libm_pow2 transform None s)
  as [r |] eqn:Hrow; [|exact IH].
  constructor; [|exact IH].
  unfold export_row in Hrow.
  destruct s; try discriminate.
  destruct (get_aqi_level _); [|discriminate].
  injection Hrow as <-. simpl. unfold station_distance.
  destruct (transform _ _); reflexivity.
Qed.

(** When every station is a record whose level can be computed, there is
    one row per station, in order. *)
Lemma export_rows_all_records (ref : option (coord * coord))
    (records : list (gmap string pyval)) :
  Forall (fun d => exists level,
            get_aqi_level (dict_get d "aqi" (PyStr "N/A")) = Ok level)
         records ->
  map row_sitename (export_rows libm_pow2 transform ref (map PyDict records))
  = map (fun d => dict_get d "sitename" (PyStr "未知測站")) records.
Proof.
  unfold export_rows.
  induction 1 as [| d records [level Hlevel] _ IH]; simpl; [reflexivity|].
  rewrite Hlevel. simpl. f_equal. exact IH.
Qed.

End CsvContent.

(* ===================================================================== *)
(** * The map: counter, markers, and what stops the loop                  *)
(* ===================================================================== *)

Section MapContent.

Variable folium_CircleMarker : marker -> result unit.

(** One more turn of a loop. *)
Lemma for_each_cons {S} (body : S -> pyval -> M S) (s : S) (x : pyval)
    (l : list pyval) (w : world) :
  for_each body s (x :: l) w =
    match body s x w with
    | (Ok s', w') => for_each body s' l w'
    | (Raise e, w') => (Raise e, w')
    end.
Proof. reflexivity. Qed.

(** A turn of the marker loop that completes has either left the loop
    variables alone or added one marker and one to the counter. *)
Lemma map_station_cases (m : list element) (n : Z) (station : pyval)
    (w : world) (st' : list element * Z) (w' : world) :
  map_station folium_CircleMarker (m, n) station w = (Ok st', w') ->
  st' = (m, n) \/
  exists mk, st' = ((m ++ [CircleMarker mk])%list, n + 1).
Proof.
  unfold map_station. run_M.
  destruct (py_get station "latitude" (PyInt 0)) as [lat_raw | e0]; simpl;
    [|destruct (is_ValueError_or_KeyError e0); intros ?; simplify_eq; auto].
  destruct (py_float lat_raw) as [lat | e1]; simpl;
    [|destruct (is_ValueError_or_KeyError e1); intros ?; simplify_eq; auto].
  destruct (py_get station "longitude" (PyInt 0)) as [lon_raw | e2]; simpl;
    [|destruct (is_ValueError_or_KeyError e2); intros ?; simplify_eq; auto].
  destruct (py_float lon_raw) as [lon | e3]; simpl;
    [|destruct (is_ValueError_or_KeyError e3); intros ?; simplify_eq; auto].
  destruct ((lat =? 0)%float || (lon =? 0)%float); simpl;
    [intros ?; simplify_eq; auto|].
  destruct (py_get station "aqi" (PyStr "N/A")) as [aqi | e4]; simpl;
    [|destruct (is_ValueError_or_KeyError e4); intros ?; simplify_eq; auto].
  destruct (py_get station "sitename" _) as [site_name | e5]; simpl;
    [|destruct (is_ValueError_or_KeyError e5); intros ?; simplify_eq; auto].
  destruct (py_get station "county" _) as [county | e6]; simpl;
    [|destruct (is_ValueError_or_KeyError e6); intros ?; simplify_eq; auto].
  destruct (py_get station "pollutant" _) as [pollutant | e7]; simpl;
    [|destruct (is_ValueError_or_KeyError e7); intros ?; simplify_eq; auto].
  destruct (py_get station "status" _) as [status | e8]; simpl;
    [|destruct (is_ValueError_or_KeyError e8); intros ?; simplify_eq; auto].
  destruct (get_aqi_color aqi) as [color | e9]; simpl;
    [|destruct (is_ValueError_or_KeyError e9); intros ?; simplify_eq; auto].
  destruct (get_aqi_level aqi) as [level | e10]; simpl;
    [|destruct (is_ValueError_or_KeyError e10); intros ?; simplify_eq; auto].
  destruct (folium_CircleMarker _) as [[] | e11]; simpl;
    [|destruct (is_ValueError_or_KeyError e11); intros ?; simplify_eq; auto].
  intros ?; simplify_eq. right. eauto.
Qed.

(** The loop keeps the counter equal to the number of markers added. *)
Lemma map_loop_invariant (stations : list pyval) :
  forall (m : list element) (n : Z) (w : world)
         (m' : list element) (n' : Z) (w' : world),
    for_each (map_station folium_CircleMarker) (m, n) stations w
    = (Ok (m', n'), w') ->
    exists mks,
      m' = (m ++ map CircleMarker mks)%list /\
      n' = n + Z.of_nat (length mks) /\
      (length mks <= length stations)%nat.
Proof.
  induction stations as [| station stations IH]; intros m n w m' n' w'.
  - simpl. intros [= <- <- <-]. exists []. simpl.
    rewrite app_nil_r. repeat split; lia.
  - rewrite for_each_cons.
    destruct (map_station folium_CircleMarker (m, n) station w)
      as [[st1 | e] w1] eqn:Hturn; [|discriminate].
    destruct (map_station_cases _ _ _ _ _ _ Hturn) as [-> | [mk ->]];
      intros Hrest; apply IH in Hrest as (mks & -> & -> & Hlen).
    + exists mks. repeat split; [simpl; lia].
    + exists (mk :: mks). rewrite <- app_assoc.
      repeat split; simpl length; lia.
Qed.

(** A loop stops with the exception of the first turn that raises. *)
Lemma for_each_raises {S} (body : S -> pyval -> M S) (pre : list pyval) :
  forall (s s1 : S) (w w1 w2 : world) (x : pyval) (post : list pyval)
         (e : exn),
    for_each body s pre w = (Ok s1, w1) ->
    body s1 x w1 = (Raise e, w2) ->
    for_each body s (pre ++ x :: post) w = (Raise e, w2).
Proof.
  induction pre as [| y pre IH]; intros s s1 w w1 w2 x post e.
  - simpl app. rewrite for_each_cons. simpl.
    intros [= <- <-] Hx. rewrite Hx. reflexivity.
  - simpl app. rewrite !for_each_cons.
    destruct (body s y w) as [[s0 | e0] w0]; [|discriminate].
    apply IH.
Qed.

Lemma map_loop_renders (stations : list pyval) :
  Forall (renders folium_CircleMarker) stations ->
  forall st w, exists st' w',
    for_each (map_station folium_CircleMarker) st stations w = (Ok st', w').
Proof.
  induction 1 as [| station stations Hr _ IH]; intros st w.
  - simpl. eauto.
  - rewrite for_each_cons.
    destruct (Hr st w) as (st1 & w1 & ->). apply IH.
Qed.

(** X10. A map that [create_map] returns starts with the legend, ends with
    the title and holds the markers in between; the number it prints last
    is the number of markers on the map, and it does not exceed the number
    of stations. *)
Theorem create_map_counts_markers (w : world) (mp : list element)
    (stations : list pyval) :
  aqi_data (self w) = PyList stations ->
  fst (create_map folium_CircleMarker w) = Ok (Some mp) ->
  exists mks out,
    mp = (LegendHtml :: map CircleMarker mks ++ [TitleHtml])%list /\
    markers_of mp = mks /\
    (length mks <= length stations)%nat /\
    stdout (snd (create_map folium_CircleMarker w))
    = (out ++ [[Text "地圖上已標示 "; Num (Z.of_nat (length mks));
                Text " 個有效測站"]])%list.
Proof.
  intros Hdata. unfold create_map, get_self, mbind, M_bind, lift.
  cbv beta iota. rewrite !Hdata.
  destruct (py_truthy (PyList stations)); cbn [negb];
    [|simpl; discriminate].
  cbv beta. rewrite !Hdata. cbn [py_iter].
  destruct (for_each (map_station folium_CircleMarker) ([LegendHtml], 0)
                     stations w) as [[[m' n'] | e] w'] eqn:Hloop;
    [|simpl; discriminate].
  apply map_loop_invariant in Hloop as (mks & -> & -> & Hlen).
  simpl. intros [= <-]. exists mks, (stdout w').
  repeat split; [| exact Hlen].
  unfold markers_of. simpl.
  clear. induction mks as [| mk mks IH]; simpl; [reflexivity|].
  f_equal. exact IH.
Qed.

(** Without station data there is no map: [create_map] prints one
    message and returns [None]. *)
Lemma create_map_no_data (w : world) :
  py_truthy (aqi_data (self w)) = false ->
  create_map folium_CircleMarker w
  = (Ok None, add_line [Text "沒有 AQI 數據，請先執行 fetch_aqi_data()"] w).
Proof.
  intros Hempty. unfold create_map, get_self, mbind, M_bind.
  rewrite Hempty. reflexivity.
Qed.

(** X11. One record whose latitude is [None] (a JSON [null]) loses the
    whole map: when the stations before it are rendered, [create_map]
    raises [TypeError] instead of returning. *)
Theorem create_map_null_latitude_raises (w : world)
    (pre post : list pyval) (d : gmap string pyval) :
  aqi_data (self w) = PyList (pre ++ PyDict d :: post) ->
  Forall (renders folium_CircleMarker) pre ->
  dict_get d "latitude" (PyInt 0) = PyNone ->
  fst (create_map folium_CircleMarker w) = Raise TypeError.
Proof.
  intros Hdata Hpre Hlat. unfold create_map, get_self, mbind, M_bind, lift.
  cbv beta iota. rewrite !Hdata.
  assert (Htruthy : py_truthy (PyList (pre ++ PyDict d :: post)) = true)
    by (destruct pre; reflexivity).
  rewrite Htruthy. cbn [negb]. cbv beta. rewrite !Hdata. cbn [py_iter].
  destruct (map_loop_renders pre Hpre ([LegendHtml], 0) w)
    as (st1 & w1 & Hloop).
  rewrite (for_each_raises _ pre _ _ _ _ _ _ post _ Hloop
             (map_station_None_latitude folium_CircleMarker d st1 w1 Hlat)).
  reflexivity.
Qed.

(** A record renders when its coordinates coerce, its AQI classifies and
    the map library raises nothing but what the loop catches. *)
Lemma record_renders (d : gmap string pyval) (lat lon : float)
    (color level : string) :
  py_float (dict_get d "latitude" (PyInt 0)) = Ok lat ->
  py_float (dict_get d "longitude" (PyInt 0)) = Ok lon ->
  get_aqi_color (dict_get d "aqi" (PyStr "N/A")) = Ok color ->
  get_aqi_level (dict_get d "aqi" (PyStr "N/A")) = Ok level ->
  (forall mk e, folium_CircleMarker mk = Raise e ->
                is_ValueError_or_KeyError e = true) ->
  renders folium_CircleMarker (PyDict d).
Proof.
  intros Hlat Hlon Hcolor Hlevel Hlib [m n] w.
  unfold map_station. run_M. rewrite Hlat. simpl. rewrite Hlon. simpl.
  destruct ((lat =? 0)%float || (lon =? 0)%float); simpl; [eauto|].
  rewrite Hcolor. simpl. rewrite Hlevel. simpl.
  destruct (folium_CircleMarker _) as [[] | e] eqn:Hmk; simpl; [eauto|].
  rewrite (Hlib _ _ Hmk). eauto.
Qed.

End MapContent.

(** X7. When the directory and the file can be written and the writer
    raises nothing on the rows, the written rows are a function of the
    stations, the C library, the transformer and the cached reference
    alone: one row for each record whose level can be computed, in the
    order of the input, with the distance to the cached reference; what is
    not a record is left out, so that the rows never outnumber the
    stations. *)
Theorem export_to_csv_content
    (libm_pow2 : float -> float)
    (transform : pyval -> pyval -> result (coord * coord)) (now : string)
    (makedirs open_w : string -> result unit)
    (csv_writer : string -> list csv_row -> option (exn * list csv_row))
    (stations : list pyval) (filename : string) (w : world) :
  aqi_data (self w) = PyList stations -> stations <> [] ->
  makedirs "outputs" = Ok tt -> open_w filename = Ok tt ->
  csv_writer filename (export_rows libm_pow2 transform (reference w) stations)
    = None ->
  fst (export_to_csv libm_pow2 transform now makedirs open_w csv_writer
                     (Some filename) w) = Ok true /\
  csv_files (snd (export_to_csv libm_pow2 transform now makedirs open_w
                                csv_writer (Some filename) w))
    = (csv_files w ++
       [(filename,
         export_rows libm_pow2 transform (reference w) stations)])%list /\
  (length (export_rows libm_pow2 transform (reference w) stations)
   <= length stations)%nat.
Proof.
  intros Hdata Hne Hdir Hopen Hwriter.
  destruct (export_to_csv_rows libm_pow2 transform now makedirs open_w
                               csv_writer stations filename w Hdata Hne Hdir
                               Hopen Hwriter)
    as [Hret Hfiles].
  repeat split; [exact Hret | exact Hfiles |].
  apply export_rows_length.
Qed.

(** X8. When the projection of the reference failed at construction, the
    export still writes its rows (the writer raising nothing on them), and
    none of them has a distance. *)
Theorem export_to_csv_without_reference
    (libm_pow2 : float -> float)
    (transform : pyval -> pyval -> result (coord * coord)) (now : string)
    (makedirs open_w : string -> result unit)
    (csv_writer : string -> list csv_row -> option (exn * list csv_row))
    (stations : list pyval) (filename : string) (w : world) :
  reference w = None ->
  aqi_data (self w) = PyList stations -> stations <> [] ->
  makedirs "outputs" = Ok tt -> open_w filename = Ok tt ->
  csv_writer filename (export_rows libm_pow2 transform None stations) = None ->
  exists rows,
    fst (export_to_csv libm_pow2 transform now makedirs open_w csv_writer
                       (Some filename) w) = Ok true /\
    csv_files (snd (export_to_csv libm_pow2 transform now makedirs open_w
                                  csv_writer (Some filename) w))
      = (csv_files w ++ [(filename, rows)])%list /\
    Forall (fun r => row_distance r = None) rows.
Proof.
  intros Href Hdata Hne Hdir Hopen Hwriter.
  rewrite <- Href in Hwriter.
  destruct (export_to_csv_rows libm_pow2 transform now makedirs open_w
                               csv_writer stations filename w Hdata Hne Hdir
                               Hopen Hwriter)
    as [Hret Hfiles].
  rewrite Href in Hfiles.
  eexists; split; [exact Hret|]. split; [exact Hfiles|].
  apply export_rows_no_reference.
Qed.

(** X9. The export does not filter on coordinates: when every station is
    a record whose level can be computed, and the writer raises nothing on
    the rows, the file has exactly one row per station, in the order of the
    input, whatever the coordinates are. *)
Theorem export_to_csv_one_row_per_record
    (libm_pow2 : float -> float)
    (transform : pyval -> pyval -> result (coord * coord)) (now : string)
    (makedirs open_w : string -> result unit)
    (csv_writer : string -> list csv_row -> option (exn * list csv_row))
    (records : list (gmap string pyval)) (filename : string) (w : world) :
  Forall (fun d => exists level,
            get_aqi_level (dict_get d "aqi" (PyStr "N/A")) = Ok level)
         records ->
  aqi_data (self w) = PyList (map PyDict records) -> records <> [] ->
  makedirs "outputs" = Ok tt -> open_w filename = Ok tt ->
  csv_writer filename
    (export_rows libm_pow2 transform (reference w) (map PyDict records))
    = None ->
  exists rows,
    fst (export_to_csv libm_pow2 transform now makedirs open_w csv_writer
                       (Some filename) w) = Ok true /\
    csv_files (snd (export_to_csv libm_pow2 transform now makedirs open_w
                                  csv_writer (Some filename) w))
      = (csv_files w ++ [(filename, rows)])%list /\
    map row_sitename rows
      = map (fun d => dict_get d "sitename" (PyStr "未知測站")) records /\
    length rows = length records.
Proof.
  intros Hall Hdata Hne Hdir Hopen Hwriter.
  assert (Hne' : map PyDict records <> [])
    by (destruct records; [congruence | discriminate]).
  destruct (export_to_csv_rows libm_pow2 transform now makedirs open_w
                               csv_writer _ filename w Hdata Hne' Hdir Hopen
                               Hwriter)
    as [Hret Hfiles].
  pose proof (export_rows_all_records libm_pow2 transform (reference w)
                records Hall) as Hnames.
  eexists; split; [exact Hret|]. split; [exact Hfiles|].
  split; [exact Hnames|].
  apply (f_equal (@length pyval)) in Hnames.
  rewrite !length_map in Hnames. exact Hnames.
Qed.

(** A row that [export_row] gives for a station of the list is among the
    rows of the list. *)
Lemma export_rows_In (libm_pow2 : float -> float)
    (transform : pyval -> pyval -> result (coord * coord))
    (ref : option (coord * coord)) (station : pyval) (r : csv_row)
    (stations : list pyval) :
  In station stations ->
  export_row libm_pow2 transform ref station = Some r ->
  In r (export_rows libm_pow2 transform ref stations).
Proof.
  intros Hin Hrow. unfold export_rows.
  induction stations as [| x stations IH]; [destruct Hin|].
  simpl. destruct Hin as [-> | Hin].
  - rewrite Hrow. left; reflexivity.
  - destruct (export_row libm_pow2 transform ref x);
      [right|]; apply IH, Hin.
Qed.

(** C5, as the code has it. Transform failures are not fatal. For a
    station record whose coordinates the transformer rejects, the distance
    method returns [None]; whenever the level of the record's AQI can be
    computed, the export loop appends the record's row, with the distance
    absent and every other column populated, and the row is in the file
    that the export writes when the directory, the file and the writer
    raise nothing; and if the record is dropped at all, it is because the
    classifier raised, not because of the transform. *)
Theorem transform_failure_is_not_fatal
    (libm_pow2 : float -> float)
    (transform : pyval -> pyval -> result (coord * coord))
    (d : gmap string pyval) (e : exn) :
  transform (dict_get d "latitude" (PyInt 0))
            (dict_get d "longitude" (PyInt 0)) = Raise e ->
  (forall w,
     fst (calculate_distance_twd97 libm_pow2 transform
                                   (dict_get d "latitude" (PyInt 0))
                                   (dict_get d "longitude" (PyInt 0)) w)
     = Ok None) /\
  (forall level,
     get_aqi_level (dict_get d "aqi" (PyStr "N/A")) = Ok level ->
     (forall csv_data w,
        fst (export_station libm_pow2 transform csv_data (PyDict d) w)
        = Ok (csv_data ++ [station_row d None level])%list) /\
     (forall now makedirs open_w csv_writer stations filename w,
        aqi_data (self w) = PyList stations ->
        In (PyDict d) stations ->
        makedirs "outputs" = Ok tt -> open_w filename = Ok tt ->
        (forall rows, csv_writer filename rows = None) ->
        exists rows,
          fst (export_to_csv libm_pow2 transform now makedirs open_w csv_writer
                             (Some filename) w) = Ok true /\
          csv_files (snd (export_to_csv libm_pow2 transform now makedirs open_w
                                        csv_writer (Some filename) w))
          = (csv_files w ++ [(filename, rows)])%list /\
          In (station_row d None level) rows)) /\
  (forall csv_data w,
     fst (export_station libm_pow2 transform csv_data (PyDict d) w)
     = Ok csv_data ->
     exists e', get_aqi_level (dict_get d "aqi" (PyStr "N/A")) = Raise e').
Proof.
  intros Hfail.
  assert (Hdist : forall w,
            fst (calculate_distance_twd97 libm_pow2 transform
                                          (dict_get d "latitude" (PyInt 0))
                                          (dict_get d "longitude" (PyInt 0)) w)
            = Ok None).
  { intros w. rewrite calculate_distance_twd97_run, Hfail. reflexivity. }
  split; [exact Hdist | split].
  - intros level Hlevel. split.
    + intros csv_data w.
      destruct (export_station_run libm_pow2 transform d csv_data w)
        as (distance & w1 & Hc & ->).
      specialize (Hdist w). rewrite Hc in Hdist. simpl in Hdist.
      injection Hdist as ->. rewrite Hlevel. reflexivity.
    + intros now makedirs open_w csv_writer stations filename w
        Hdata Hin Hdir Hopen Hwriter.
      assert (Hne : stations <> []) by (intros ->; destruct Hin).
      destruct (export_to_csv_rows libm_pow2 transform now makedirs open_w
                                   csv_writer stations filename w Hdata Hne
                                   Hdir Hopen (Hwriter _)) as [Hret Hfiles].
      eexists; split; [exact Hret|]. split; [exact Hfiles|].
      apply (export_rows_In _ _ _ (PyDict d)); [exact Hin|].
      unfold export_row, station_distance. rewrite Hlevel, Hfail.
      reflexivity.
  - intros csv_data w Hdrop.
    destruct (export_station_run libm_pow2 transform d csv_data w)
      as (distance & w1 & _ & Heq).
    rewrite Heq in Hdrop.
    destruct (get_aqi_level (dict_get d "aqi" (PyStr "N/A"))) as [level | e'];
      [|eauto].
    simpl in Hdrop. injection Hdrop as Hdrop.
    apply (f_equal (@length csv_row)) in Hdrop.
    rewrite length_app in Hdrop. simpl in Hdrop. lia.
Qed.

(** C5, refuted as stated. The station without coordinates whose AQI is
    infinite gets no row: its projection fails, and then the classifier
    raises on its AQI and the turn of the loop drops the record. *)
Lemma failed_projection_can_lose_row : ~ failed_projection_keeps_row.
Proof.
  intros Hkeeps.
  destruct (Hkeeps TestEnv.libm_pow2 TestEnv.flat_transform
              TestEnv.infinite_aqi_record TypeError [] TestEnv.world0)
    as (row & Hrow & _); [vm_compute; reflexivity|].
  vm_compute in Hrow. discriminate.
Qed.

(** The station without coordinates is exported with no distance. *)
Lemma transform_failure_is_not_fatal_witness :
  fst (calculate_distance_twd97 TestEnv.libm_pow2 TestEnv.flat_transform
         (dict_get TestEnv.no_coordinates_record "latitude" (PyInt 0))
         (dict_get TestEnv.no_coordinates_record "longitude" (PyInt 0))
         TestEnv.world2) = Ok None /\
  fst (export_station TestEnv.libm_pow2 TestEnv.flat_transform []
                      (PyDict TestEnv.no_coordinates_record) TestEnv.world2)
  = Ok [station_row TestEnv.no_coordinates_record None "普通"] /\
  exists rows,
    fst (export_to_csv TestEnv.libm_pow2 TestEnv.flat_transform TestEnv.now
                       TestEnv.makedirs TestEnv.open_w TestEnv.csv_writer
                       (Some "out.csv") TestEnv.world2) = Ok true /\
    csv_files (snd (export_to_csv TestEnv.libm_pow2 TestEnv.flat_transform
                                  TestEnv.now TestEnv.makedirs TestEnv.open_w
                                  TestEnv.csv_writer (Some "out.csv")
                                  TestEnv.world2))
    = (csv_files TestEnv.world2 ++ [("out.csv", rows)])%list /\
    In (station_row TestEnv.no_coordinates_record None "普通") rows.
Proof.
  destruct (transform_failure_is_not_fatal TestEnv.libm_pow2
              TestEnv.flat_transform TestEnv.no_coordinates_record TypeError)
    as (Hdist & Hrow & _); [vm_compute; reflexivity|].
  destruct (Hrow "普通") as [Hturn Hfile]; [vm_compute; reflexivity|].
  split; [apply Hdist | split; [apply (Hturn []) |]].
  apply (Hfile TestEnv.now TestEnv.makedirs TestEnv.open_w
           TestEnv.csv_writer TestEnv.stations).
  - vm_compute; reflexivity.
  - right; left; reflexivity.
  - reflexivity.
  - reflexivity.
  - intros rows; reflexivity.
Defined.

(* ===================================================================== *)
(** * Saving, running, and the entry point                                *)
(* ===================================================================== *)

Section Program.

Variable getenv : string -> option string.
Variable libm_pow2 : float -> float.
Variable transform : pyval -> pyval -> result (coord * coord).
Variable requests_get_json : string -> option string -> result pyval.
Variable now : string.
Variables makedirs open_w : string -> result unit.
Variable csv_writer : string -> list csv_row -> option (exn * list csv_row).
Variable folium_CircleMarker : marker -> result unit.
Variable folium_save : string -> result unit.

Lemma bind_ok {A B} (c : M A) (k : A -> M B) (w w' : world) (a : A) :
  c w = (Ok a, w') -> (c ≫= k) w = k a w'.
Proof. intros Hc. unfold mbind, M_bind. rewrite Hc. reflexivity. Qed.

(** X12. [save_map] never raises, and it returns [True] exactly when
    there is a map and the library saved it; only then is a file written. *)
Theorem save_map_writes_iff_True (map_obj : option (list element))
    (filename : string) (w : world) :
  exists b,
    fst (save_map folium_save map_obj filename w) = Ok b /\
    (b = true <-> map_obj <> None /\ folium_save filename = Ok tt) /\
    html_files (snd (save_map folium_save map_obj filename w))
    = (html_files w ++
       match map_obj with
       | Some m => if b then [(filename, m)] else []
       | None => []
       end)%list.
Proof.
  unfold save_map. destruct map_obj as [m |].
  - run_M. destruct (folium_save filename) as [[] | e]; simpl.
    + exists true. repeat split; congruence.
    + exists false. rewrite app_nil_r.
      repeat split; try discriminate. intros [_ H]. discriminate.
  - run_M. exists false. rewrite app_nil_r.
    repeat split; try discriminate. intros [H _]. congruence.
Qed.

Lemma save_map_returns (map_obj : option (list element)) (filename : string)
    (w : world) :
  exists b w', save_map folium_save map_obj filename w = (Ok b, w').
Proof.
  unfold save_map. destruct map_obj as [m |]; run_M; [|eauto].
  destruct (folium_save filename) as [[] | e]; simpl; eauto.
Qed.

Lemma export_to_csv_returns (filename : option string) (w : world) :
  exists b w',
    export_to_csv libm_pow2 transform now makedirs open_w csv_writer
                  filename w = (Ok b, w').
Proof.
  unfold export_to_csv, get_self, mbind, M_bind.
  destruct (py_truthy (aqi_data (self w))); cbn [negb];
    [|simpl; eauto].
  unfold try_except, lift.
  destruct (makedirs "outputs") as [[] | e]; [|simpl; eauto].
  destruct (py_iter (aqi_data (self w))) as [stations | e]; [|simpl; eauto].
  destruct (export_loop_appends libm_pow2 transform stations [] w)
    as (rows & w1 & ->).
  destruct (open_w _) as [[] | e]; [|simpl; eauto].
  unfold write_csv. cbn [app].
  destruct rows as [| r rows]; [simpl; eauto|].
  destruct (csv_writer _ (r :: rows)) as [[e written] |]; simpl; eauto.
Qed.

(** On stations that all render, [create_map] returns a map. *)
Lemma create_map_renders (stations : list pyval) (w : world) :
  aqi_data (self w) = PyList stations -> stations <> [] ->
  Forall (renders folium_CircleMarker) stations ->
  exists mp w', create_map folium_CircleMarker w = (Ok (Some mp), w').
Proof.
  intros Hdata Hne Hall.
  assert (Htruthy : py_truthy (PyList stations) = true)
    by (destruct stations; [congruence | reflexivity]).
  unfold create_map, get_self, mbind, M_bind, lift.
  cbv beta iota. rewrite !Hdata, Htruthy. cbn [negb].
  cbv beta. rewrite !Hdata. cbn [py_iter].
  destruct (map_loop_renders folium_CircleMarker stations Hall
              ([LegendHtml], 0) w) as ([m n] & w1 & ->).
  simpl. eauto.
Qed.

(** X13. When the request fails, [run] returns [False] and has done
    nothing but print: the object is unchanged, no coordinate was
    projected and no file written. *)
Theorem run_request_fails (w : world) (e : exn) :
  requests_get_json (api_url (self w)) (api_key (self w)) = Raise e ->
  fst (run libm_pow2 transform requests_get_json now makedirs open_w csv_writer
           folium_CircleMarker folium_save w) = Ok false /\
  self (snd (run libm_pow2 transform requests_get_json now makedirs open_w
                 csv_writer folium_CircleMarker folium_save w)) = self w /\
  proj_calls (snd (run libm_pow2 transform requests_get_json now makedirs
                       open_w csv_writer folium_CircleMarker folium_save w))
  = proj_calls w /\
  csv_files (snd (run libm_pow2 transform requests_get_json now makedirs open_w
                      csv_writer folium_CircleMarker folium_save w))
  = csv_files w /\
  html_files (snd (run libm_pow2 transform requests_get_json now makedirs
                       open_w csv_writer folium_CircleMarker folium_save w))
  = html_files w.
Proof.
  intros Hreq.
  assert (Hrun : exists w',
            run libm_pow2 transform requests_get_json now makedirs open_w
                csv_writer folium_CircleMarker folium_save w = (Ok false, w') /\
            self w' = self w /\ proj_calls w' = proj_calls w /\
            csv_files w' = csv_files w /\ html_files w' = html_files w).
  { unfold run.
    erewrite bind_ok by reflexivity.
    erewrite bind_ok by reflexivity.
    erewrite bind_ok by reflexivity.
    erewrite bind_ok;
      [| rewrite fetch_aqi_data_run; cbn [self add_line api_url api_key];
         rewrite Hreq; reflexivity].
    cbn [negb]. run_M. eexists. repeat split. }
  destruct Hrun as (w' & -> & Hself & Hcalls & Hcsv & Hhtml).
  simpl. auto.
Qed.

(** X14. [run] reports success whether or not anything was saved: once
    the fetch has delivered a list of stations that all render and the
    output directory exists, it returns [True], whatever saving the map,
    opening the CSV file and writing it do. *)
Theorem run_returns_True_without_files (stations : list pyval) (w : world) :
  requests_get_json (api_url (self w)) (api_key (self w))
    = Ok (PyList stations) ->
  stations <> [] ->
  Forall (renders folium_CircleMarker) stations ->
  makedirs "outputs" = Ok tt ->
  fst (run libm_pow2 transform requests_get_json now makedirs open_w csv_writer
           folium_CircleMarker folium_save w) = Ok true.
Proof.
  intros Hreq Hne Hall Hdir. unfold run.
  erewrite bind_ok by reflexivity.
  erewrite bind_ok by reflexivity.
  erewrite bind_ok by reflexivity.
  erewrite bind_ok;
    [| rewrite fetch_aqi_data_run; cbn [self add_line api_url api_key];
       rewrite Hreq; reflexivity].
  cbn [negb].
  edestruct (create_map_renders stations) as (mp & w5 & Hmap);
    [| exact Hne | exact Hall |].
  2:{ erewrite bind_ok by exact Hmap. cbv beta iota.
      erewrite bind_ok by (unfold lift; rewrite Hdir; reflexivity).
      edestruct (save_map_returns (Some mp)) as (saved & w6 & Hsave).
      erewrite bind_ok by exact Hsave.
      assert (Hwhen : forall b l w0, exists w1,
                 when_ b (print l) w0 = (Ok tt, w1))
        by (intros [] l w0; eexists; reflexivity).
      edestruct (Hwhen saved) as (w7 & Hw7).
      erewrite bind_ok by exact Hw7.
      edestruct (export_to_csv_returns) as (exported & w8 & Hexp).
      erewrite bind_ok by exact Hexp.
      edestruct (Hwhen exported) as (w9 & Hw9).
      erewrite bind_ok by exact Hw9.
      reflexivity. }
  reflexivity.
Qed.

(** X15. [main] never raises; and without an API key (unset or empty) it
    prints the one line of the unexpected [ValueError] and does nothing
    else: no coordinate is projected and no file written. *)
Theorem main_never_raises :
  (forall w, exists w',
     main libm_pow2 getenv transform requests_get_json now makedirs open_w
          csv_writer folium_CircleMarker folium_save w = (Ok tt, w')) /\
  (forall w,
     getenv "AQI_API_KEY" = None \/ getenv "AQI_API_KEY" = Some "" ->
     let w' := snd (main libm_pow2 getenv transform requests_get_json now
                         makedirs open_w csv_writer folium_CircleMarker
                         folium_save w) in
     stdout w' = (stdout w ++ [[Text "程式執行時發生未預期的錯誤: ";
                                Exc ValueError]])%list /\
     proj_calls w' = proj_calls w /\
     csv_files w' = csv_files w /\
     html_files w' = html_files w).
Proof.
  split.
  - intros w. unfold main, try_except.
    destruct ((__init__ getenv transform;; _) w) as [[[] | e] w1];
      simpl; eauto.
  - intros w Hkey. unfold main, try_except, __init__.
    destruct Hkey as [-> | ->]; run_M; repeat split.
Qed.

End Program.

(** X16. Colour and level always agree: the two methods give one of the
    four pairs of the table, or both raise [OverflowError]; a green marker
    never carries the level of another tier. *)
Theorem classify_consistent (v : pyval) :
  classify v = (Ok "#00E400", Ok "良好") \/
  classify v = (Ok "#FFFF00", Ok "普通") \/
  classify v = (Ok "#FF0000", Ok "不健康") \/
  classify v = (Ok "#808080", Ok "數據異常") \/
  classify v = (Raise OverflowError, Raise OverflowError).
Proof.
  unfold classify, get_aqi_color, get_aqi_level.
  destruct (py_int v) as [aqi | e] eqn:Hint.
  - destruct (aqi <=? 50); [auto|].
    destruct (aqi <=? 100); auto.
  - destruct (py_int_raises v e Hint) as [Hc | [-> _]].
    + rewrite Hc. auto 6.
    + simpl. auto 6.
Qed.

(** X21. Without station data ([None], an empty list) neither output is
    produced: the export returns [False] and [create_map] returns [None],
    each after one message, and nothing else happens. *)
Theorem no_data_no_output
    (libm_pow2 : float -> float)
    (transform : pyval -> pyval -> result (coord * coord)) (now : string)
    (makedirs open_w : string -> result unit)
    (csv_writer : string -> list csv_row -> option (exn * list csv_row))
    (folium_CircleMarker : marker -> result unit)
    (filename : option string) (w : world) :
  py_truthy (aqi_data (self w)) = false ->
  export_to_csv libm_pow2 transform now makedirs open_w csv_writer filename w
  = (Ok false, add_line [Text "沒有 AQI 數據可以匯出"] w) /\
  create_map folium_CircleMarker w
  = (Ok None, add_line [Text "沒有 AQI 數據，請先執行 fetch_aqi_data()"] w).
Proof.
  intros Hempty. split.
  - apply export_to_csv_no_data, Hempty.
  - apply create_map_no_data, Hempty.
Qed.

(* ===================================================================== *)
(** * The distance is symmetric and never negative                        *)
(* ===================================================================== *)

Section DistanceShape.

Local Abbreviation bra := (binary_round_aux prec emax).

(** The sign given to the rounding only signs its result. *)
Lemma binary_round_aux_abs (s : bool) (m e : Z) (l : location) :
  SFabs (bra s m e l) = SFabs (bra false m e l).
Proof.
  unfold binary_round_aux.
  destruct (shr_fexp prec emax m e l) as [mrs' e'].
  destruct (shr_fexp prec emax _ e' loc_Exact) as [mrs'' e''].
  destruct (shr_m mrs''); [reflexivity | | reflexivity].
  destruct (e'' <=? emax - prec); reflexivity.
Qed.

Lemma binary_round_aux_false_nonneg (m e : Z) (l : location) :
  sf_nonneg (bra false m e l) = true.
Proof.
  unfold binary_round_aux.
  destruct (shr_fexp prec emax m e l) as [mrs' e'].
  destruct (shr_fexp prec emax _ e' loc_Exact) as [mrs'' e''].
  destruct (shr_m mrs''); [reflexivity | | reflexivity].
  destruct (e'' <=? emax - prec); reflexivity.
Qed.

Lemma binary_normalize_opp_abs (z e : Z) :
  SFabs (binary_normalize prec emax (- z) e false)
  = SFabs (binary_normalize prec emax z e false).
Proof.
  destruct z as [| p | p]; simpl; [reflexivity | |];
    unfold binary_round; destruct (shl_align _ _ _) as [mz ez];
    rewrite (binary_round_aux_abs true); reflexivity.
Qed.

(** Swapping the operands of a subtraction changes the sign at most. *)
Lemma SF64sub_swap_abs (a b : spec_float) :
  SFabs (SF64sub a b) = SFabs (SF64sub b a).
Proof.
  destruct a as [[] | [] | | sa ma ea]; destruct b as [[] | [] | | sb mb eb];
    try reflexivity.
  unfold SF64sub, SFsub. rewrite (Z.min_comm eb ea).
  set (A := cond_Zopp sa _). set (B := cond_Zopp sb _).
  replace (B - A) with (- (A - B)) by lia.
  symmetry. apply binary_normalize_opp_abs.
Qed.

Variable libm_pow2 : float -> float.

(** A square depends on the magnitude only, whatever the C library is: the
    interpreter hands it the magnitude. *)
Lemma py_pow2_abs (u v : float) :
  SFabs (Prim2SF u) = SFabs (Prim2SF v) ->
  py_pow2 libm_pow2 u = py_pow2 libm_pow2 v.
Proof.
  intros Habs.
  assert (Ha : abs u = abs v)
    by (apply Prim2SF_inj; rewrite !abs_spec; exact Habs).
  assert (Hnan : is_nan u = is_nan v).
  { rewrite !is_nan_spec.
    destruct (Prim2SF u), (Prim2SF v); simpl in Habs;
      try discriminate; reflexivity. }
  assert (Hinf : is_infinity u = is_infinity v).
  { rewrite !is_infinity_spec.
    destruct (Prim2SF u), (Prim2SF v); simpl in Habs;
      try discriminate; reflexivity. }
  assert (Hzero : (u =? 0)%float = (v =? 0)%float).
  { rewrite !eqb_zero_spec.
    destruct (Prim2SF u), (Prim2SF v); simpl in Habs;
      try discriminate; reflexivity. }
  unfold py_pow2. rewrite Hnan, Hinf, Hzero, Ha.
  destruct (is_nan v) eqn:Hv; [|reflexivity].
  f_equal. apply Prim2SF_inj.
  rewrite is_nan_spec in Hnan, Hv.
  destruct (Prim2SF u), (Prim2SF v); try discriminate; reflexivity.
Qed.

(** The formula gives the same for [(a, b)] and for [(b, a)], value or
    exception. *)
Lemma distance_km_sym (a b : float * float) :
  distance_km libm_pow2 a b = distance_km libm_pow2 b a.
Proof.
  unfold distance_km.
  rewrite (py_pow2_abs (fst a - fst b) (fst b - fst a))
    by (rewrite !sub_spec; apply SF64sub_swap_abs).
  rewrite (py_pow2_abs (snd a - snd b) (snd b - snd a))
    by (rewrite !sub_spec; apply SF64sub_swap_abs).
  reflexivity.
Qed.

Lemma SF64sqrt_nonneg (a : spec_float) :
  sf_nonneg a = true -> sf_nonneg (SF64sqrt a) = true.
Proof.
  destruct a as [[] | [] | | [] m e]; try discriminate; try reflexivity.
  intros _. unfold SF64sqrt, SFsqrt.
  destruct (SFsqrt_core_binary prec emax (Z.pos m) e) as [[mz ez] lz].
  apply binary_round_aux_false_nonneg.
Qed.

Lemma SF64div_nonneg (a : spec_float) (m : positive) (e : Z) :
  sf_nonneg a = true ->
  sf_nonneg (SF64div a (S754_finite false m e)) = true.
Proof.
  destruct a as [[] | [] | | [] ma ea]; try discriminate; try reflexivity.
  intros _. unfold SF64div, SFdiv.
  destruct (SFdiv_core_binary prec emax (Z.pos ma) ea (Z.pos m) e)
    as [[mz ez] lz].
  apply binary_round_aux_false_nonneg.
Qed.

Lemma binary_normalize_nonneg (z e : Z) :
  0 <= z -> sf_nonneg (binary_normalize prec emax z e false) = true.
Proof.
  destruct z as [| p | p]; intros Hz; [reflexivity | | lia].
  simpl. unfold binary_round. destruct (shl_align _ _ _) as [mz ez].
  apply binary_round_aux_false_nonneg.
Qed.

Lemma SFldexp_nonneg (a : spec_float) (e : Z) :
  sf_nonneg a = true -> sf_nonneg (SFldexp prec emax a e) = true.
Proof.
  destruct a as [[] | [] | | [] m ea]; try discriminate; try reflexivity.
  intros _. simpl. unfold binary_round.
  destruct (shl_align _ _ _) as [mz ez].
  apply binary_round_aux_false_nonneg.
Qed.

(** Reading a non-negative specification back as a float keeps it so. *)
Lemma SF2Prim_nonneg (a : spec_float) :
  sf_nonneg a = true -> sf_nonneg (Prim2SF (SF2Prim a)) = true.
Proof.
  destruct a as [[] | [] | | [] m e]; try discriminate; try reflexivity.
  intros _. unfold SF2Prim.
  rewrite FloatLemmas.Z_ldexp_spec. apply SFldexp_nonneg.
  rewrite of_uint63_spec. apply binary_normalize_nonneg.
  apply Uint63.to_Z_bounded.
Qed.

Lemma py_round2_nonneg (x : float) :
  sf_nonneg (Prim2SF x) = true -> sf_nonneg (Prim2SF (py_round2 x)) = true.
Proof.
  intros Hx. unfold py_round2.
  destruct (Prim2SF x)
  as [s | s | | s m e] eqn:Hsf; try (rewrite Hsf; exact Hx).
  destruct s; [discriminate|].
  destruct (0 <=? e); [rewrite Hsf; reflexivity|].
  destruct (round_half_even _ _) as [| n | n]; try reflexivity.
  unfold float_of_ratio.
  destruct (SFdiv_core_binary prec emax (Z.pos n) 0 100 0) as [[q e'] l].
  apply SF2Prim_nonneg, binary_round_aux_false_nonneg.
Qed.

(** A value of the expression of the method is not negative, when the C
    library's squares are not. *)
Lemma distance_of_nonneg (p : coord * coord) (ref : option (coord * coord))
    (d : float) :
  never_negative libm_pow2 ->
  distance_of libm_pow2 p ref = Ok d -> (d <? 0)%float = false.
Proof.
  intros Hneg. unfold distance_of.
  destruct ref as [r |]; [|discriminate].
  destruct (py_sub (fst p) (fst r)) as [dx | e0]; [|discriminate].
  destruct (py_pow2 libm_pow2 dx) as [dx2 | e1] eqn:Hx; [|discriminate].
  destruct (py_sub (snd p) (snd r)) as [dy | e2]; [|discriminate].
  destruct (py_pow2 libm_pow2 dy) as [dy2 | e3] eqn:Hy; [|discriminate].
  rewrite (math_sqrt_sum_of_squares libm_pow2 Hneg _ _ _ _ Hx Hy).
  intros [= <-].
  assert (Hsum : sf_nonneg (Prim2SF (dx2 + dy2)) = true).
  { rewrite add_spec.
    apply SF64add_nonneg; eapply py_pow2_nonneg; eassumption. }
  assert (Hkm : sf_nonneg (Prim2SF (PrimFloat.sqrt (dx2 + dy2) / 1000)) = true).
  { rewrite div_spec, sqrt_spec.
    change (Prim2SF 1000) with (S754_finite false 8796093022208000 (-43)).
    apply SF64div_nonneg, SF64sqrt_nonneg, Hsum. }
  apply py_round2_nonneg in Hkm.
  apply nonneg_ltb_zero, Hkm.
Qed.

End DistanceShape.

(** X17. The distance is symmetric, whatever the C library is: a station
    projected to [p] measured against the reference [r] gets the same
    result, distance or [None], as a station projected to [r] measured
    against the reference [p]. *)
Theorem calculate_distance_twd97_symmetric
    (libm_pow2 : float -> float)
    (transform transform' : pyval -> pyval -> result (coord * coord))
    (lat lon lat' lon' : pyval) (w w' : world) (p r : float * float) :
  transform lat lon = Ok (scalars p) -> reference w = Some (scalars r) ->
  transform' lat' lon' = Ok (scalars r) -> reference w' = Some (scalars p) ->
  fst (calculate_distance_twd97 libm_pow2 transform lat lon w)
  = fst (calculate_distance_twd97 libm_pow2 transform' lat' lon' w').
Proof.
  intros Hp Hr Hr' Hp'.
  rewrite !calculate_distance_twd97_value.
  unfold station_distance. rewrite Hp, Hr, Hr', Hp'.
  rewrite !distance_of_scalars, (distance_km_sym libm_pow2 p r).
  reflexivity.
Qed.

(** X18. A distance that the method returns is never negative, the C
    library's [pow(a, 2.0)] being never negative. *)
Theorem calculate_distance_twd97_not_negative
    (libm_pow2 : float -> float)
    (transform : pyval -> pyval -> result (coord * coord))
    (lat lon : pyval) (w : world) (d : float) :
  never_negative libm_pow2 ->
  fst (calculate_distance_twd97 libm_pow2 transform lat lon w) = Ok (Some d) ->
  (d <? 0)%float = false.
Proof.
  intros Hneg.
  rewrite calculate_distance_twd97_value. unfold station_distance.
  destruct (transform lat lon) as [p | e]; [|discriminate].
  destruct (distance_of libm_pow2 p (reference w)) as [d' | e] eqn:Hd;
    [|discriminate].
  intros [= <-]. eapply distance_of_nonneg; eassumption.
Qed.

(* ===================================================================== *)
(** * The further theorems at concrete stations                           *)
(* ===================================================================== *)

(** The fetch of the test environment stores its three stations. *)
Lemma fetch_aqi_data_stores_payload_witness :
  exists data v n,
    TestEnv.requests_get_json (api_url (self TestEnv.world1))
                              (api_key (self TestEnv.world1)) = Ok data /\
    response_payload data = Some v /\ py_len v = Ok n /\
    self (snd (fetch_aqi_data TestEnv.requests_get_json TestEnv.world1))
      = set_aqi_data v (self TestEnv.world1) /\
    stdout (snd (fetch_aqi_data TestEnv.requests_get_json TestEnv.world1))
      = (stdout TestEnv.world1 ++
         [[Text "正在獲取 AQI 數據..."];
          [Text "成功獲取 "; Num n; Text " 個測站數據"]])%list.
Proof.
  apply (fetch_aqi_data_stores_payload TestEnv.requests_get_json
           TestEnv.world1).
  vm_compute; reflexivity.
Defined.

(** A response without a ['value'] entry changes nothing. *)
Lemma fetch_aqi_data_failure_keeps_self_witness :
  fst (fetch_aqi_data TestEnv.empty_response TestEnv.world1) = Ok false /\
  self (snd (fetch_aqi_data TestEnv.empty_response TestEnv.world1))
  = self TestEnv.world1.
Proof.
  apply (fetch_aqi_data_failure_keeps_self TestEnv.empty_response
           TestEnv.world1).
  intros data [= <-]. reflexivity.
Defined.

(** The response [{"value": 5}] fails, and 5 is now the station data. *)
Lemma fetch_aqi_data_stores_before_failing_witness :
  fst (fetch_aqi_data TestEnv.number_response TestEnv.world1) = Ok false /\
  aqi_data (self (snd (fetch_aqi_data TestEnv.number_response
                         TestEnv.world1))) = PyInt 5.
Proof.
  apply (fetch_aqi_data_stores_before_failing TestEnv.number_response
           TestEnv.world1 (<["value" := PyInt 5]> ∅) (PyInt 5) TypeError);
    reflexivity.
Defined.

(** On a disk that cannot be written nothing is projected. *)
Lemma export_to_csv_makedirs_fails_witness :
  export_to_csv TestEnv.libm_pow2 TestEnv.flat_transform TestEnv.now
                TestEnv.read_only TestEnv.open_w TestEnv.csv_writer None
                TestEnv.world2
  = (Ok false,
     add_line [Text "匯出 CSV 時發生錯誤: "; Exc OSError] TestEnv.world2).
Proof.
  apply (export_to_csv_makedirs_fails TestEnv.libm_pow2 TestEnv.flat_transform
                                      TestEnv.now TestEnv.read_only
                                      TestEnv.open_w TestEnv.csv_writer None
                                      TestEnv.world2 OSError);
    reflexivity.
Defined.

(** The three stations of the test environment give three rows. *)
Lemma export_to_csv_content_witness :
  fst (export_to_csv TestEnv.libm_pow2 TestEnv.flat_transform TestEnv.now
                     TestEnv.makedirs TestEnv.open_w TestEnv.csv_writer
                     (Some "out.csv") TestEnv.world2) = Ok true /\
  csv_files (snd (export_to_csv TestEnv.libm_pow2 TestEnv.flat_transform
                                TestEnv.now TestEnv.makedirs TestEnv.open_w
                                TestEnv.csv_writer (Some "out.csv")
                                TestEnv.world2))
    = (csv_files TestEnv.world2 ++
       [("out.csv",
         export_rows TestEnv.libm_pow2 TestEnv.flat_transform
                     (reference TestEnv.world2) TestEnv.stations)])%list /\
  (length (export_rows TestEnv.libm_pow2 TestEnv.flat_transform
                       (reference TestEnv.world2) TestEnv.stations)
   <= length TestEnv.stations)%nat.
Proof.
  apply (export_to_csv_content TestEnv.libm_pow2 TestEnv.flat_transform
                               TestEnv.now TestEnv.makedirs TestEnv.open_w
                               TestEnv.csv_writer TestEnv.stations "out.csv"
                               TestEnv.world2);
    [vm_compute; reflexivity | discriminate | reflexivity | reflexivity
    | reflexivity].
Defined.

(** With a full disk the export of the three stations returns [False],
    and the file is there, without a row. *)
Lemma export_to_csv_True_means_written_witness :
  fst (export_to_csv TestEnv.libm_pow2 TestEnv.flat_transform TestEnv.now
                     TestEnv.makedirs TestEnv.open_w TestEnv.full_disk
                     (Some "out.csv") TestEnv.world2) = Ok false /\
  (csv_files (snd (export_to_csv TestEnv.libm_pow2 TestEnv.flat_transform
                                 TestEnv.now TestEnv.makedirs TestEnv.open_w
                                 TestEnv.full_disk (Some "out.csv")
                                 TestEnv.world2))
   = csv_files TestEnv.world2 \/
   exists rows e written,
     TestEnv.full_disk "out.csv" rows = Some (e, written) /\
     csv_files (snd (export_to_csv TestEnv.libm_pow2 TestEnv.flat_transform
                                   TestEnv.now TestEnv.makedirs TestEnv.open_w
                                   TestEnv.full_disk (Some "out.csv")
                                   TestEnv.world2))
     = (csv_files TestEnv.world2 ++ [("out.csv", written)])%list).
Proof.
  destruct (export_to_csv_True_means_written TestEnv.libm_pow2
                                             TestEnv.flat_transform TestEnv.now
                                             TestEnv.makedirs TestEnv.open_w
                                             TestEnv.full_disk (Some "out.csv")
                                             TestEnv.world2)
    as (b & Hb & _ & Hfalse).
  assert (Hret : fst (export_to_csv TestEnv.libm_pow2 TestEnv.flat_transform
                                    TestEnv.now TestEnv.makedirs TestEnv.open_w
                                    TestEnv.full_disk (Some "out.csv")
                                    TestEnv.world2)
                 = Ok false) by (vm_compute; reflexivity).
  rewrite Hret in Hb. injection Hb as <-.
  split; [reflexivity | apply Hfalse; reflexivity].
Defined.

(** Without a reference, the three rows have no distance. *)
Lemma export_to_csv_without_reference_witness :
  exists rows,
    fst (export_to_csv TestEnv.libm_pow2 TestEnv.flat_transform TestEnv.now
                       TestEnv.makedirs TestEnv.open_w TestEnv.csv_writer
                       (Some "out.csv") TestEnv.world_without_reference)
    = Ok true /\
    csv_files (snd (export_to_csv TestEnv.libm_pow2 TestEnv.flat_transform
                                  TestEnv.now TestEnv.makedirs TestEnv.open_w
                                  TestEnv.csv_writer (Some "out.csv")
                                  TestEnv.world_without_reference))
      = (csv_files TestEnv.world_without_reference
         ++ [("out.csv", rows)])%list /\
    Forall (fun r => row_distance r = None) rows.
Proof.
  apply (export_to_csv_without_reference TestEnv.libm_pow2
                                         TestEnv.flat_transform TestEnv.now
                                         TestEnv.makedirs TestEnv.open_w
                                         TestEnv.csv_writer TestEnv.stations
                                         "out.csv"
                                         TestEnv.world_without_reference);
    [reflexivity | reflexivity | discriminate | reflexivity | reflexivity
    | reflexivity].
Defined.

(** Keelung, the station without coordinates and the one at latitude 0 are
    all exported, in this order. *)
Lemma export_to_csv_one_row_per_record_witness :
  exists rows,
    fst (export_to_csv TestEnv.libm_pow2 TestEnv.flat_transform TestEnv.now
                       TestEnv.makedirs TestEnv.open_w TestEnv.csv_writer
                       (Some "out.csv") TestEnv.world2) = Ok true /\
    csv_files (snd (export_to_csv TestEnv.libm_pow2 TestEnv.flat_transform
                                  TestEnv.now TestEnv.makedirs TestEnv.open_w
                                  TestEnv.csv_writer (Some "out.csv")
                                  TestEnv.world2))
      = (csv_files TestEnv.world2 ++ [("out.csv", rows)])%list /\
    map row_sitename rows
      = map (fun d => dict_get d "sitename" (PyStr "未知測站"))
            [TestEnv.keelung_record; TestEnv.no_coordinates_record;
             TestEnv.zero_latitude_record] /\
    length rows = 3%nat.
Proof.
  apply (export_to_csv_one_row_per_record TestEnv.libm_pow2
      TestEnv.flat_transform TestEnv.now TestEnv.makedirs TestEnv.open_w
      TestEnv.csv_writer
      [TestEnv.keelung_record; TestEnv.no_coordinates_record;
       TestEnv.zero_latitude_record]
      "out.csv" TestEnv.world2).
  - repeat constructor; eexists; vm_compute; reflexivity.
  - vm_compute; reflexivity.
  - discriminate.
  - reflexivity.
  - reflexivity.
  - reflexivity.
Defined.

(** The map of the two placed stations has one marker, for Keelung. *)
Lemma create_map_counts_markers_witness :
  exists mks out,
    (exists mp,
       fst (create_map TestEnv.folium_CircleMarker TestEnv.world_placed)
         = Ok (Some mp) /\
       mp = (LegendHtml :: map CircleMarker mks ++ [TitleHtml])%list /\
       markers_of mp = mks) /\
    (length mks <= length TestEnv.placed_stations)%nat /\
    stdout (snd (create_map TestEnv.folium_CircleMarker TestEnv.world_placed))
    = (out ++ [[Text "地圖上已標示 "; Num (Z.of_nat (length mks));
                Text " 個有效測站"]])%list.
Proof.
  destruct (fst (create_map TestEnv.folium_CircleMarker TestEnv.world_placed))
    as [[mp |] | e] eqn:Hmap; try (vm_compute in Hmap; discriminate).
  destruct (create_map_counts_markers TestEnv.folium_CircleMarker
              TestEnv.world_placed mp TestEnv.placed_stations)
    as (mks & out & Hmp & Hmk & Hlen & Hout);
    [vm_compute; reflexivity | exact Hmap |].
  exists mks, out. split; [exists mp; auto | auto].
Defined.

(** Before any fetch there is nothing to export or to draw. *)
Lemma no_data_no_output_witness :
  export_to_csv TestEnv.libm_pow2 TestEnv.flat_transform TestEnv.now
                TestEnv.makedirs TestEnv.open_w TestEnv.csv_writer None
                TestEnv.world1
  = (Ok false, add_line [Text "沒有 AQI 數據可以匯出"] TestEnv.world1) /\
  create_map TestEnv.folium_CircleMarker TestEnv.world1
  = (Ok None,
     add_line [Text "沒有 AQI 數據，請先執行 fetch_aqi_data()"]
              TestEnv.world1).
Proof.
  apply (no_data_no_output TestEnv.libm_pow2 TestEnv.flat_transform TestEnv.now
                           TestEnv.makedirs TestEnv.open_w TestEnv.csv_writer
                           TestEnv.folium_CircleMarker None TestEnv.world1).
  reflexivity.
Defined.

(** The station without coordinates, second in the list, stops the map. *)
Lemma create_map_null_latitude_raises_witness :
  fst (create_map TestEnv.folium_CircleMarker TestEnv.world2)
  = Raise TypeError.
Proof.
  apply (create_map_null_latitude_raises TestEnv.folium_CircleMarker
           TestEnv.world2 [PyDict TestEnv.keelung_record]
           [PyDict TestEnv.zero_latitude_record]
           TestEnv.no_coordinates_record).
  - vm_compute; reflexivity.
  - constructor; [|constructor].
    eapply (record_renders TestEnv.folium_CircleMarker
              TestEnv.keelung_record);
      try (vm_compute; reflexivity).
    intros mk e. unfold TestEnv.folium_CircleMarker.
    destruct (_ || _); [intros [= <-]; reflexivity | discriminate].
  - vm_compute; reflexivity.
Defined.

(** A failed request leaves the generator of the test environment alone. *)
Lemma run_request_fails_witness :
  fst (run TestEnv.libm_pow2 TestEnv.flat_transform TestEnv.failing_request
           TestEnv.now TestEnv.makedirs TestEnv.open_w TestEnv.csv_writer
           TestEnv.folium_CircleMarker TestEnv.folium_save TestEnv.world1)
  = Ok false /\
  self (snd (run TestEnv.libm_pow2 TestEnv.flat_transform
                 TestEnv.failing_request TestEnv.now TestEnv.makedirs
                 TestEnv.open_w TestEnv.csv_writer TestEnv.folium_CircleMarker
                 TestEnv.folium_save TestEnv.world1)) = self TestEnv.world1.
Proof.
  destruct (run_request_fails TestEnv.libm_pow2 TestEnv.flat_transform
                              TestEnv.failing_request TestEnv.now
                              TestEnv.makedirs TestEnv.open_w
                              TestEnv.csv_writer TestEnv.folium_CircleMarker
                              TestEnv.folium_save TestEnv.world1
                              RequestException)
    as (Hret & Hself & _); [reflexivity|].
  split; assumption.
Defined.

(** With a map library and a file system that refuse every write, [run]
    still returns [True]. *)
Lemma run_returns_True_without_files_witness :
  fst (run TestEnv.libm_pow2 TestEnv.flat_transform TestEnv.placed_request
           TestEnv.now TestEnv.makedirs TestEnv.read_only TestEnv.csv_writer
           TestEnv.folium_CircleMarker TestEnv.read_only TestEnv.world1)
  = Ok true.
Proof.
  apply (run_returns_True_without_files TestEnv.libm_pow2
                                        TestEnv.flat_transform
                                        TestEnv.placed_request TestEnv.now
                                        TestEnv.makedirs TestEnv.read_only
                                        TestEnv.csv_writer
                                        TestEnv.folium_CircleMarker
                                        TestEnv.read_only
                                        TestEnv.placed_stations TestEnv.world1).
  - reflexivity.
  - discriminate.
  - assert (Hlib : forall mk e,
              TestEnv.folium_CircleMarker mk = Raise e ->
              is_ValueError_or_KeyError e = true).
    { intros mk e. unfold TestEnv.folium_CircleMarker.
      destruct (_ || _); [intros [= <-]; reflexivity | discriminate]. }
    constructor; [|constructor; [|constructor]].
    + eapply (record_renders TestEnv.folium_CircleMarker
                TestEnv.keelung_record);
        try (vm_compute; reflexivity). exact Hlib.
    + eapply (record_renders TestEnv.folium_CircleMarker
                TestEnv.zero_latitude_record);
        try (vm_compute; reflexivity). exact Hlib.
  - reflexivity.
Defined.

(** Without the key, [main] prints its one line. *)
Lemma main_never_raises_witness :
  stdout (snd (main TestEnv.libm_pow2 TestEnv.no_key TestEnv.flat_transform
                    TestEnv.requests_get_json TestEnv.now TestEnv.makedirs
                    TestEnv.open_w TestEnv.csv_writer
                    TestEnv.folium_CircleMarker TestEnv.folium_save
                    TestEnv.world0))
  = [[Text "程式執行時發生未預期的錯誤: "; Exc ValueError]].
Proof.
  apply (proj2 (main_never_raises TestEnv.no_key TestEnv.libm_pow2
                                  TestEnv.flat_transform
                                  TestEnv.requests_get_json TestEnv.now
                                  TestEnv.makedirs TestEnv.open_w
                                  TestEnv.csv_writer
                                  TestEnv.folium_CircleMarker
                                  TestEnv.folium_save) TestEnv.world0).
  left; reflexivity.
Defined.

(** Two points five metres apart, measured from either end. *)
Lemma calculate_distance_twd97_symmetric_witness :
  fst (calculate_distance_twd97 TestEnv.libm_pow2
         (TestEnv.const_transform (3, 4)%float) PyNone PyNone
         (TestEnv.world_with_reference (Some (0, 0)%float)))
  = fst (calculate_distance_twd97 TestEnv.libm_pow2
           (TestEnv.const_transform (0, 0)%float) PyNone PyNone
           (TestEnv.world_with_reference (Some (3, 4)%float))).
Proof.
  apply (calculate_distance_twd97_symmetric TestEnv.libm_pow2
           (TestEnv.const_transform (3, 4)%float)
           (TestEnv.const_transform (0, 0)%float) PyNone PyNone PyNone PyNone
           (TestEnv.world_with_reference (Some (0, 0)%float))
           (TestEnv.world_with_reference (Some (3, 4)%float)) (3, 4)%float
           (0, 0)%float);
    reflexivity.
Defined.

(** The distance of Keelung, 26.32 km, is not negative. *)
Lemma calculate_distance_twd97_not_negative_witness :
  (26.32 <? 0)%float = false.
Proof.
  apply (calculate_distance_twd97_not_negative TestEnv.libm_pow2
           TestEnv.flat_transform (PyStr "25.129167") (PyStr "121.760056")
           TestEnv.world1 26.32%float).
  - exact correctly_rounded_square_never_negative.
  - vm_compute; reflexivity.
Defined.

(* ===================================================================== *)
(** * Construction, and the projections of a whole run                    *)
(* ===================================================================== *)

Section WholeRun.

Variable getenv : string -> option string.
Variable libm_pow2 : float -> float.
Variable transform : pyval -> pyval -> result (coord * coord).
Variable requests_get_json : string -> option string -> result pyval.
Variable now : string.
Variables makedirs open_w : string -> result unit.
Variable csv_writer : string -> list csv_row -> option (exn * list csv_row).
Variable folium_CircleMarker : marker -> result unit.
Variable folium_save : string -> result unit.

(** X19. The constructor fails only for want of an API key. Without a
    key it raises [ValueError] before anything is projected; with a key it
    returns even when the projection of the reference point fails, and
    then leaves the generator without a reference. *)
Theorem constructor_survives_failed_projection (w : world) :
  (getenv "AQI_API_KEY" = None \/ getenv "AQI_API_KEY" = Some "" ->
   fst (__init__ getenv transform w) = Raise ValueError /\
   proj_calls (snd (__init__ getenv transform w)) = proj_calls w) /\
  (forall k e,
     getenv "AQI_API_KEY" = Some k -> k <> "" ->
     transform (PyFloat 25.0478) (PyFloat 121.5170) = Raise e ->
     fst (__init__ getenv transform w) = Ok tt /\
     reference (snd (__init__ getenv transform w)) = None).
Proof.
  split.
  - intros [Hkey | Hkey]; unfold __init__; rewrite Hkey; run_M;
      split; reflexivity.
  - intros k e Hkey Hne Hproj.
    destruct (init_run getenv transform w k Hkey Hne)
      as (w' & -> & Hself & _).
    simpl. unfold reference. rewrite Hself, Hproj. split; reflexivity.
Qed.

Lemma fetch_aqi_data_keeps_proj_calls :
  keeps proj_calls (fetch_aqi_data requests_get_json).
Proof. unfold fetch_aqi_data. keeps_tac. Qed.

Lemma save_map_keeps_proj_calls (map_obj : option (list element))
    (filename : string) :
  keeps proj_calls (save_map folium_save map_obj filename).
Proof. unfold save_map, write_html. keeps_tac. Qed.

(** X20. A whole run projects each station record once and nothing else:
    when the fetch delivers a list of stations that all render and the
    output directory exists, the transformer is called, during the run,
    exactly on the coordinates of the station records, in order. *)
Theorem run_projects_each_station_once (stations : list pyval) (w : world) :
  requests_get_json (api_url (self w)) (api_key (self w))
    = Ok (PyList stations) ->
  stations <> [] ->
  Forall (renders folium_CircleMarker) stations ->
  makedirs "outputs" = Ok tt ->
  proj_calls (snd (run libm_pow2 transform requests_get_json now makedirs
                       open_w csv_writer folium_CircleMarker folium_save w))
  = (proj_calls w ++ station_coords stations)%list.
Proof.
  intros Hreq Hne Hall Hdir. unfold run.
  erewrite bind_ok by reflexivity.
  erewrite bind_ok by reflexivity.
  erewrite bind_ok by reflexivity.
  set (w3 := add_line _ (add_line _ (add_line _ w))).
  pose proof (fetch_aqi_data_keeps_proj_calls w3) as Hc4.
  assert (Hfetch : exists w4,
            fetch_aqi_data requests_get_json w3 = (Ok true, w4) /\
            aqi_data (self w4) = PyList stations).
  { rewrite fetch_aqi_data_run. subst w3.
    cbn [self add_line api_url api_key]. rewrite Hreq.
    eexists; split; reflexivity. }
  destruct Hfetch as (w4 & Hfetch & Hdata4).
  rewrite Hfetch in Hc4. cbn [snd] in Hc4.
  erewrite bind_ok by exact Hfetch. cbn [negb].
  destruct (create_map_renders folium_CircleMarker stations w4
              Hdata4 Hne Hall) as (mp & w5 & Hmap).
  pose proof (create_map_keeps_proj_calls folium_CircleMarker w4) as Hc5.
  pose proof (create_map_keeps_self folium_CircleMarker w4) as Hs5.
  rewrite Hmap in Hc5, Hs5. cbn [snd] in Hc5, Hs5.
  erewrite bind_ok by exact Hmap. cbv beta iota.
  erewrite bind_ok by (unfold lift; rewrite Hdir; reflexivity).
  destruct (save_map_returns folium_save (Some mp)
              (String.append "outputs/aqi_map_" (String.append now ".html"))
              w5) as (saved & w6 & Hsave).
  pose proof (save_map_keeps_proj_calls (Some mp)
                (String.append "outputs/aqi_map_" (String.append now ".html"))
                w5) as Hc6.
  pose proof (save_map_keeps_self folium_save (Some mp)
                (String.append "outputs/aqi_map_" (String.append now ".html"))
                w5) as Hs6.
  rewrite Hsave in Hc6, Hs6. cbn [snd] in Hc6, Hs6.
  erewrite bind_ok by exact Hsave.
  assert (Hwhen : forall b l w0, exists w1,
             when_ b (print l) w0 = (Ok tt, w1) /\
             proj_calls w1 = proj_calls w0 /\ self w1 = self w0)
    by (intros [] l w0; eexists; repeat split).
  edestruct (Hwhen saved) as (w7 & Hw7 & Hc7 & Hs7).
  erewrite bind_ok by exact Hw7.
  destruct (export_to_csv_returns libm_pow2 transform now makedirs open_w
      csv_writer
      (Some (String.append "outputs/aqi_data_" (String.append now ".csv"))) w7)
    as (exported & w8 & Hexp).
  pose proof (export_to_csv_calls libm_pow2 transform now makedirs open_w
      csv_writer
      (Some (String.append "outputs/aqi_data_" (String.append now ".csv")))
      stations w7) as Hc8.
  rewrite Hexp in Hc8. cbn [snd] in Hc8.
  erewrite bind_ok by exact Hexp.
  edestruct (Hwhen exported) as (w9 & Hw9 & Hc9 & Hs9).
  erewrite bind_ok by exact Hw9.
  run_M. rewrite Hc9, Hc8; [| congruence | exact Hdir].
  rewrite Hc7, Hc6, Hc5, Hc4. subst w3. reflexivity.
Qed.

End WholeRun.

(** A transformer that rejects the reference point still gives a
    generator, without a reference. *)
Lemma constructor_survives_failed_projection_witness :
  fst (__init__ TestEnv.getenv (fun _ _ => Raise (LibraryError "ProjError"))
                TestEnv.world0) = Ok tt /\
  reference (snd (__init__ TestEnv.getenv
                    (fun _ _ => Raise (LibraryError "ProjError"))
                    TestEnv.world0)) = None.
Proof.
  apply (proj2 (constructor_survives_failed_projection TestEnv.getenv
                  (fun _ _ => Raise (LibraryError "ProjError"))
                  TestEnv.world0)
               "test-key" (LibraryError "ProjError"));
    [reflexivity | discriminate | reflexivity].
Defined.

(** A run over the two placed stations projects those two, after the one
    projection of the constructor. *)
Lemma run_projects_each_station_once_witness :
  proj_calls (snd (run TestEnv.libm_pow2 TestEnv.flat_transform
                       TestEnv.placed_request TestEnv.now TestEnv.makedirs
                       TestEnv.open_w TestEnv.csv_writer
                       TestEnv.folium_CircleMarker TestEnv.folium_save
                       TestEnv.world1))
  = (proj_calls TestEnv.world1
     ++ station_coords TestEnv.placed_stations)%list.
Proof.
  apply (run_projects_each_station_once TestEnv.libm_pow2
                                        TestEnv.flat_transform
                                        TestEnv.placed_request TestEnv.now
                                        TestEnv.makedirs TestEnv.open_w
                                        TestEnv.csv_writer
                                        TestEnv.folium_CircleMarker
                                        TestEnv.folium_save
                                        TestEnv.placed_stations TestEnv.world1).
  - reflexivity.
  - discriminate.
  - assert (Hlib : forall mk e,
              TestEnv.folium_CircleMarker mk = Raise e ->
              is_ValueError_or_KeyError e = true).
    { intros mk e. unfold TestEnv.folium_CircleMarker.
      destruct (_ || _); [intros [= <-]; reflexivity | discriminate]. }
    constructor; [|constructor; [|constructor]].
    + eapply (record_renders TestEnv.folium_CircleMarker
                TestEnv.keelung_record);
        try (vm_compute; reflexivity). exact Hlib.
    + eapply (record_renders TestEnv.folium_CircleMarker
                TestEnv.zero_latitude_record);
        try (vm_compute; reflexivity). exact Hlib.
  - reflexivity.
Defined.
